(** * The vpc-eni plugin on Windows: network and endpoint lifecycle

    A shallow embedding of the Go sources of the vpc-eni CNI plugin:

    - [hnswrapper]: the wrapper over the Host Network Service (HNS)
      ([hcsshimV1_windows.go], [hcsshimV2_windows.go] and the builder file
      that declares [FindOrCreateHNSNetwork] and friends);
    - [NetBuilder]: the Windows network builder that classifies the netns
      with [getInfraContainerID] and carries [ShouldExist];
    - [netBuilder]: the Windows network builder that classifies the netns
      with [getNamespaceIdentifier] and carries [UseExisting];
    - [config] and [Plugin]: configuration parsing and the ADD and DEL
      handlers, with the Linux builder whose methods all report
      "not implemented";
    - [netutils]: the arguments of the [route] command that [AddRoute] and
      [DeleteRoute] run.

    Go code is sequential and talks to the host through blocking calls, so
    every function is a state transformer over a [Host]; a Go [error] result
    is the [Err] outcome, a nil-pointer dereference is the [Panic] outcome.
    Pointer arguments that a function mutates ([*Network], [*Endpoint],
    [*HNSEndpoint]) are returned next to the outcome, also when the outcome
    is an error, because the caller of the Go function sees the mutation
    either way. *)

From Stdlib Require Import String Ascii List ZArith Bool Lia DecimalString.
Import ListNotations.
Open Scope string_scope.

Set Implicit Arguments.

(** ** Go strings *)

(** [strings.HasPrefix s prefix]. *)
Definition strings_HasPrefix (s prefix : string) : bool := String.prefix prefix s.

(** Drop the first [length p] characters of [s]. *)
Fixpoint string_drop (p s : string) : string :=
  match p, s with
  | EmptyString, _ => s
  | String _ p', String _ s' => string_drop p' s'
  | String _ _, EmptyString => EmptyString
  end.

(** [strings.TrimPrefix s prefix]: [s] without the leading [prefix], and [s]
    itself when it does not start with [prefix]. *)
Definition strings_TrimPrefix (s prefix : string) : string :=
  if strings_HasPrefix s prefix then string_drop prefix s else s.

(** [strings.Join elems sep]. *)
Definition strings_Join (elems : list string) (sep : string) : string :=
  String.concat sep elems.

(** [strings.Replace s old new (-1)] for a one-character [old]: every
    occurrence is replaced. *)
Fixpoint strings_Replace1 (s : string) (old : ascii) (new : string) : string :=
  match s with
  | EmptyString => EmptyString
  | String c rest =>
      if Ascii.eqb c old then new ++ strings_Replace1 rest old new
      else String c (strings_Replace1 rest old new)
  end.

(** [strings.Split s sep] for a one-character [sep], first element only. *)
Fixpoint split_first (s : string) (sep : ascii) : string :=
  match s with
  | EmptyString => EmptyString
  | String c rest => if Ascii.eqb c sep then EmptyString else String c (split_first rest sep)
  end.

(** ASCII lower-casing, enough for [strings.EqualFold] against an ASCII
    literal. *)
Definition ascii_lower (c : ascii) : ascii :=
  let n := nat_of_ascii c in
  if (65 <=? n)%nat && (n <=? 90)%nat then ascii_of_nat (n + 32) else c.

Fixpoint string_lower (s : string) : string :=
  match s with
  | EmptyString => EmptyString
  | String c rest => String (ascii_lower c) (string_lower rest)
  end.

Definition strings_EqualFold (s t : string) : bool :=
  String.eqb (string_lower s) (string_lower t).

(** ** Errors and outcomes *)

(** A Go [error] value.  [Errorf] and [ErrorfV] are [fmt.Errorf]: the
    format and its string arguments, and for [ErrorfV] the error printed by
    the trailing [%v]. *)
Inductive error : Type :=
| ErrNetworkNotFound (name : string)
| ErrEndpointNotFound (name : string)
| ErrNamespaceNotFound (ns : string)
| ErrInterfaceNotFound (name : string)
| ErrComputeSystemDoesNotExist
| ErrHost (code : nat)
| Errorf (format : string) (args : list string)
| ErrorfV (format : string) (args : list string) (cause : error).

(** [err == hcsshim.ErrComputeSystemDoesNotExist]. *)
Definition is_ErrComputeSystemDoesNotExist (err : error) : bool :=
  match err with
  | ErrComputeSystemDoesNotExist => true
  | _ => false
  end.

(** How a Go call ends: it returns a value and a nil error, it returns an
    error, or it panics. *)
Inductive result (A : Type) : Type :=
| Ok (a : A)
| Err (err : error)
| Panic.

Arguments Ok {A} a.
Arguments Err {A} err.
Arguments Panic {A}.

(** ** Go library values the plugin only passes around

    [net.IP], [net.IPMask], [net.HardwareAddr], their printers and parsers,
    and the helpers of the repository's [vpc] package, none of which is
    part of the sources at hand.  The plugin never looks inside these
    values, so they are parameters of the development. *)
Class NetTypes : Type := {
  IP : Type;
  IPMask : Type;
  HardwareAddr : Type
}.

(** [net.IPNet]. *)
Record IPNet `{NetTypes} : Type := mkIPNet {
  IPNet_IP : option IP;
  IPNet_Mask : IPMask
}.

Class NetLib `{NetTypes} : Type := {
  (** [net.IP.String]. *)
  IP_String : IP -> string;
  (** [net.IPNet.String]. *)
  IPNet_String : IPNet -> string;
  (** [net.HardwareAddr.String]. *)
  HardwareAddr_String : HardwareAddr -> string;
  (** [net.IPMask.Size], the number of leading ones. *)
  IPMask_Size : IPMask -> Z;
  (** [net.CIDRMask ones bits]. *)
  CIDRMask : Z -> Z -> IPMask;
  (** [net.ParseMAC]; [None] is the nil address it returns with an error. *)
  ParseMAC : string -> option HardwareAddr;
  (** [net.ParseIP]; [None] is nil. *)
  ParseIP : string -> option IP;
  (** [vpc.GetSubnetPrefix]. *)
  GetSubnetPrefix : IPNet -> IPNet;
  (** [vpc.GetIPAddressFromString]. *)
  GetIPAddressFromString : string -> result IPNet
}.

(** A nil [net.HardwareAddr] prints as the empty string. *)
Definition HardwareAddr_String_nil `{NetLib} (mac : option HardwareAddr) : string :=
  match mac with
  | Some m => HardwareAddr_String m
  | None => ""
  end.

(** ** The host: HNS, HCN namespaces, compute systems, interfaces

    [hcsshim], [hcn], [net.InterfaceByName] and [exec.Command] are the
    plugin's external collaborators.  The host is a set of tables, a script
    of injected faults and the trace of the calls received so far.  A call
    is first recorded; it then fails if the script says so, and otherwise
    acts on the tables in the evident way:
    - a lookup by name answers with the first object of that name and fails
      when there is none;
    - a POST appends the requested object under a fresh id and answers with
      it; a DELETE removes the objects of the given id;
    - attaching to, detaching from and querying a compute system or a
      namespace that the host does not have fails (with
      [ErrComputeSystemDoesNotExist] for a compute system); otherwise the
      endpoint id is added to, or removed from, its list.
    The fault script stands for every other way in which a call can fail. *)
Module hcsshim.

(** [hcsshim.HNSVersion]. *)
Module HNSVersion.
Record t : Type := mk { Major : Z; Minor : Z }.
End HNSVersion.

(** [hcsshim.HNSVersion1803]. *)
Definition HNSVersion1803 : HNSVersion.t := HNSVersion.mk 7 2.

(** [hcsshim.Subnet]. *)
Module Subnet.
Record t : Type := mk { AddressPrefix : string; GatewayAddress : string }.
End Subnet.

(** [hcsshim.HNSNetwork], the fields the plugin uses. *)
Module HNSNetwork.
Record t : Type := mk {
  Id : string;
  Name : string;
  Type_ : string;
  NetworkAdapterName : string;
  Subnets : list Subnet.t
}.
End HNSNetwork.

(** [hcsshim.HNSEndpoint], the fields the plugin uses.  [Policies] holds the
    encoded policies. *)
Module HNSEndpoint.
Record t `{NetTypes} : Type := mk {
  Id : string;
  Name : string;
  VirtualNetworkName : string;
  DNSServerList : string;
  DNSSuffix : string;
  GatewayAddress : string;
  MacAddress : string;
  IPAddress : option IP;
  PrefixLength : Z;
  Policies : list string
}.

Definition with_Id `{NetTypes} (id : string) (e : t) : t :=
  {| Id := id; Name := Name e; VirtualNetworkName := VirtualNetworkName e;
     DNSServerList := DNSServerList e; DNSSuffix := DNSSuffix e;
     GatewayAddress := GatewayAddress e; MacAddress := MacAddress e;
     IPAddress := IPAddress e; PrefixLength := PrefixLength e;
     Policies := Policies e |}.
End HNSEndpoint.

(** [hcsshim.PolicyType], of which the plugin names [Route] and
    [OutboundNat], and [hcsshim.Policy]. *)
Module Policy.
Inductive PolicyType : Type :=
| Route
| OutboundNat
| PolicyType_of (name : string).

Record t : Type := mk { Type_ : PolicyType }.
End Policy.

End hcsshim.

(** The calls the plugin issues to the host.  The POST requests carry the
    structure that the Go code encodes with [json.Marshal]. *)
Module Call.
Inductive t `{NetTypes} : Type :=
| GetHNSGlobals
| GetHNSNetworkByName (name : string)
| HNSNetworkRequest_POST (request : hcsshim.HNSNetwork.t)
| HNSNetworkRequest_DELETE (id : string)
| GetHNSEndpointByName (name : string)
| HNSEndpointRequest_POST (request : hcsshim.HNSEndpoint.t)
| HNSEndpointRequest_DELETE (id : string)
| HotAttachEndpoint (containerID endpointID : string)
| HotDetachEndpoint (containerID endpointID : string)
| GetNamespaceEndpointIds (namespaceId : string)
| AddNamespaceEndpoint (namespaceId endpointId : string)
| RemoveNamespaceEndpoint (namespaceId endpointId : string)
| InterfaceByName (name : string)
| Command_Run (name : string) (args : list string).
End Call.

(** The state of the host.
    - [hnsNetworks], [hnsEndpoints]: the objects HNS holds;
    - [namespaces]: the HCN namespaces with the ids of their endpoints;
    - [computeSystems]: the running containers with the ids of the endpoints
      attached to them;
    - [interfaces]: the network interfaces of the root namespace with what
      [Flags.String()] prints for each;
    - [created]: how many objects HNS has created, from which it derives the
      id of the next one;
    - [faults]: the fault script, asked with the trace so far and the call;
    - [trace]: the calls received, oldest first. *)
Record Host `{NetTypes} : Type := mkHost {
  hnsGlobals : hcsshim.HNSVersion.t;
  hnsNetworks : list hcsshim.HNSNetwork.t;
  hnsEndpoints : list hcsshim.HNSEndpoint.t;
  namespaces : list (string * list string);
  computeSystems : list (string * list string);
  interfaces : list (string * string);
  created : nat;
  faults : list Call.t -> Call.t -> option error;
  trace : list Call.t
}.

Section HostModel.
Context `{NetTypes}.

(** A Go function over the host. *)
Definition M (A : Type) : Type := Host -> result A * Host.

Definition with_trace (tr : list Call.t) (w : Host) : Host :=
  {| hnsGlobals := hnsGlobals w; hnsNetworks := hnsNetworks w; hnsEndpoints := hnsEndpoints w;
     namespaces := namespaces w; computeSystems := computeSystems w; interfaces := interfaces w;
     created := created w; faults := faults w; trace := tr |}.

Definition with_hnsNetworks (l : list hcsshim.HNSNetwork.t) (w : Host) : Host :=
  {| hnsGlobals := hnsGlobals w; hnsNetworks := l; hnsEndpoints := hnsEndpoints w;
     namespaces := namespaces w; computeSystems := computeSystems w; interfaces := interfaces w;
     created := created w; faults := faults w; trace := trace w |}.

Definition with_hnsEndpoints (l : list hcsshim.HNSEndpoint.t) (w : Host) : Host :=
  {| hnsGlobals := hnsGlobals w; hnsNetworks := hnsNetworks w; hnsEndpoints := l;
     namespaces := namespaces w; computeSystems := computeSystems w; interfaces := interfaces w;
     created := created w; faults := faults w; trace := trace w |}.

Definition with_namespaces (l : list (string * list string)) (w : Host) : Host :=
  {| hnsGlobals := hnsGlobals w; hnsNetworks := hnsNetworks w; hnsEndpoints := hnsEndpoints w;
     namespaces := l; computeSystems := computeSystems w; interfaces := interfaces w;
     created := created w; faults := faults w; trace := trace w |}.

Definition with_computeSystems (l : list (string * list string)) (w : Host) : Host :=
  {| hnsGlobals := hnsGlobals w; hnsNetworks := hnsNetworks w; hnsEndpoints := hnsEndpoints w;
     namespaces := namespaces w; computeSystems := l; interfaces := interfaces w;
     created := created w; faults := faults w; trace := trace w |}.

Definition with_created (n : nat) (w : Host) : Host :=
  {| hnsGlobals := hnsGlobals w; hnsNetworks := hnsNetworks w; hnsEndpoints := hnsEndpoints w;
     namespaces := namespaces w; computeSystems := computeSystems w; interfaces := interfaces w;
     created := n; faults := faults w; trace := trace w |}.

(** A call to the host: record it, consult the fault script, run it. *)
Definition host_call {A} (c : Call.t) (run : M A) : M A :=
  fun w =>
    let w1 := with_trace (trace w ++ [c])%list w in
    match faults w (trace w) c with
    | Some err => (Err err, w1)
    | None => run w1
    end.

(** The calls issued by [m] from [w]: what [m] adds to the trace. *)
Definition issued {R} (m : Host -> R * Host) (w : Host) : list Call.t :=
  skipn (List.length (trace w)) (trace (snd (m w))).

(** The decimal numeral of [n], used to derive object ids. *)
Definition itoa (n : nat) : string := NilEmpty.string_of_uint (Nat.to_uint n).

(** The id HNS gives to the next object it creates. *)
Definition next_id (w : Host) : string := "id-" ++ itoa (created w).

(** Association-list helpers for the namespace and compute-system tables. *)
Fixpoint assoc_find {V} (k : string) (l : list (string * V)) : option V :=
  match l with
  | [] => None
  | (k', v) :: rest => if String.eqb k' k then Some v else assoc_find k rest
  end.

Fixpoint assoc_update {V} (k : string) (f : V -> V) (l : list (string * V)) : list (string * V) :=
  match l with
  | [] => []
  | (k', v) :: rest =>
      if String.eqb k' k then (k', f v) :: rest else (k', v) :: assoc_update k f rest
  end.

Definition remove_id (id : string) (ids : list string) : list string :=
  filter (fun i => negb (String.eqb i id)) ids.

Definition find_network (name : string) (l : list hcsshim.HNSNetwork.t) : option hcsshim.HNSNetwork.t :=
  find (fun n => String.eqb (hcsshim.HNSNetwork.Name n) name) l.

Definition find_endpoint (name : string) (l : list hcsshim.HNSEndpoint.t) : option hcsshim.HNSEndpoint.t :=
  find (fun e => String.eqb (hcsshim.HNSEndpoint.Name e) name) l.

End HostModel.

(** ** The calls of [hcsshim], [hcn], [net] and [os/exec] *)
Section HostCalls.
Context `{NetTypes}.

(** [hcsshim.GetHNSGlobals], of which the plugin reads the version. *)
Definition hcsshim_GetHNSGlobals : M hcsshim.HNSVersion.t :=
  host_call Call.GetHNSGlobals (fun w => (Ok (hnsGlobals w), w)).

(** [hcsshim.GetHNSNetworkByName]. *)
Definition hcsshim_GetHNSNetworkByName (name : string) : M hcsshim.HNSNetwork.t :=
  host_call (Call.GetHNSNetworkByName name) (fun w =>
    match find_network name (hnsNetworks w) with
    | Some n => (Ok n, w)
    | None => (Err (ErrNetworkNotFound name), w)
    end).

(** [hcsshim.HNSNetworkRequest("POST", "", request)]: HNS creates the network
    and answers with it. *)
Definition hcsshim_HNSNetworkRequest_POST (request : hcsshim.HNSNetwork.t) : M hcsshim.HNSNetwork.t :=
  host_call (Call.HNSNetworkRequest_POST request) (fun w =>
    let n := {| hcsshim.HNSNetwork.Id := next_id w;
                hcsshim.HNSNetwork.Name := hcsshim.HNSNetwork.Name request;
                hcsshim.HNSNetwork.Type_ := hcsshim.HNSNetwork.Type_ request;
                hcsshim.HNSNetwork.NetworkAdapterName := hcsshim.HNSNetwork.NetworkAdapterName request;
                hcsshim.HNSNetwork.Subnets := hcsshim.HNSNetwork.Subnets request |} in
    (Ok n, with_created (S (created w)) (with_hnsNetworks (hnsNetworks w ++ [n])%list w))).

(** [hcsshim.HNSNetworkRequest("DELETE", id, "")]. *)
Definition hcsshim_HNSNetworkRequest_DELETE (id : string) : M unit :=
  host_call (Call.HNSNetworkRequest_DELETE id) (fun w =>
    (Ok tt, with_hnsNetworks
              (filter (fun n => negb (String.eqb (hcsshim.HNSNetwork.Id n) id)) (hnsNetworks w)) w)).

(** [hcsshim.GetHNSEndpointByName]. *)
Definition hcsshim_GetHNSEndpointByName (name : string) : M hcsshim.HNSEndpoint.t :=
  host_call (Call.GetHNSEndpointByName name) (fun w =>
    match find_endpoint name (hnsEndpoints w) with
    | Some e => (Ok e, w)
    | None => (Err (ErrEndpointNotFound name), w)
    end).

(** [hcsshim.HNSEndpointRequest("POST", "", request)]. *)
Definition hcsshim_HNSEndpointRequest_POST (request : hcsshim.HNSEndpoint.t) : M hcsshim.HNSEndpoint.t :=
  host_call (Call.HNSEndpointRequest_POST request) (fun w =>
    let e := hcsshim.HNSEndpoint.with_Id (next_id w) request in
    (Ok e, with_created (S (created w)) (with_hnsEndpoints (hnsEndpoints w ++ [e])%list w))).

(** [hcsshim.HNSEndpointRequest("DELETE", id, "")], which is also what
    [hnsEndpoint.Delete()] sends. *)
Definition hcsshim_HNSEndpointRequest_DELETE (id : string) : M unit :=
  host_call (Call.HNSEndpointRequest_DELETE id) (fun w =>
    (Ok tt, with_hnsEndpoints
              (filter (fun e => negb (String.eqb (hcsshim.HNSEndpoint.Id e) id)) (hnsEndpoints w)) w)).

(** [hcsshim.HotAttachEndpoint containerID endpointID]. *)
Definition hcsshim_HotAttachEndpoint (containerID endpointID : string) : M unit :=
  host_call (Call.HotAttachEndpoint containerID endpointID) (fun w =>
    match assoc_find containerID (computeSystems w) with
    | None => (Err ErrComputeSystemDoesNotExist, w)
    | Some _ =>
        (Ok tt, with_computeSystems
                  (assoc_update containerID (fun ids => (ids ++ [endpointID])%list) (computeSystems w)) w)
    end).

(** [hcsshim.HotDetachEndpoint containerID endpointID]. *)
Definition hcsshim_HotDetachEndpoint (containerID endpointID : string) : M unit :=
  host_call (Call.HotDetachEndpoint containerID endpointID) (fun w =>
    match assoc_find containerID (computeSystems w) with
    | None => (Err ErrComputeSystemDoesNotExist, w)
    | Some _ =>
        (Ok tt, with_computeSystems
                  (assoc_update containerID (remove_id endpointID) (computeSystems w)) w)
    end).

(** [hcn.GetNamespaceEndpointIds namespaceId]. *)
Definition hcn_GetNamespaceEndpointIds (namespaceId : string) : M (list string) :=
  host_call (Call.GetNamespaceEndpointIds namespaceId) (fun w =>
    match assoc_find namespaceId (namespaces w) with
    | None => (Err (ErrNamespaceNotFound namespaceId), w)
    | Some ids => (Ok ids, w)
    end).

(** [hcn.AddNamespaceEndpoint namespaceId endpointId]. *)
Definition hcn_AddNamespaceEndpoint (namespaceId endpointId : string) : M unit :=
  host_call (Call.AddNamespaceEndpoint namespaceId endpointId) (fun w =>
    match assoc_find namespaceId (namespaces w) with
    | None => (Err (ErrNamespaceNotFound namespaceId), w)
    | Some _ =>
        (Ok tt, with_namespaces
                  (assoc_update namespaceId (fun ids => (ids ++ [endpointId])%list) (namespaces w)) w)
    end).

(** [hcn.RemoveNamespaceEndpoint namespaceId endpointId]. *)
Definition hcn_RemoveNamespaceEndpoint (namespaceId endpointId : string) : M unit :=
  host_call (Call.RemoveNamespaceEndpoint namespaceId endpointId) (fun w =>
    match assoc_find namespaceId (namespaces w) with
    | None => (Err (ErrNamespaceNotFound namespaceId), w)
    | Some _ =>
        (Ok tt, with_namespaces
                  (assoc_update namespaceId (remove_id endpointId) (namespaces w)) w)
    end).

(** [net.InterfaceByName name], answered with [iface.Flags.String()]. *)
Definition net_InterfaceByName (name : string) : M string :=
  host_call (Call.InterfaceByName name) (fun w =>
    match assoc_find name (interfaces w) with
    | None => (Err (ErrInterfaceNotFound name), w)
    | Some flags => (Ok flags, w)
    end).

(** [exec.Command(name, args...).Run()].  What the command does to the host
    is outside the tables. *)
Definition exec_Command_Run (name : string) (args : list string) : M unit :=
  host_call (Call.Command_Run name args) (fun w => (Ok tt, w)).

End HostCalls.

(** ** Package [hnswrapper] *)
Module hnswrapper.

(** [HNSNetwork], the configuration of the HNS network.  [ShouldExist] is
    the field that [FindOrCreateHNSNetwork] reads and that
    [NetBuilder.FindOrCreateNetwork] sets; a composite literal that leaves it
    out, as in [netBuilder] and in [DeleteNetwork], holds [false]. *)
Module HNSNetwork.
Record t : Type := mk {
  Name : string;
  Type_ : string;
  NetworkAdapterName : string;
  AddressPrefix : string;
  Gateway : string;
  ShouldExist : bool
}.
End HNSNetwork.

(** [HCSNamespace]. *)
Module HCSNamespace.
Record t : Type := mk { UseNamespace : bool; NetNSName : string }.
End HCSNamespace.

(** [AttachedContainer]. *)
Module AttachedContainer.
Record t : Type := mk {
  ContainerID : string;
  IsInfraContainer : bool;
  InfraContainerID : string
}.
End AttachedContainer.

(** [HNSEndpoint], the configuration of the HNS endpoint. *)
Module HNSEndpoint.
Record t `{NetTypes} : Type := mk {
  ID : string;
  Name : string;
  VirtualNetworkName : string;
  DNSSuffix : string;
  DNSServerList : string;
  MacAddress : string;
  IPAddress : option IPNet;
  Gateway : string;
  Policies : list string;
  NetNS : HCSNamespace.t;
  Container : AttachedContainer.t
}.

(** The assignment of [Name], [NetNS] and [Container] of an endpoint
    configuration, as the network builders do it. *)
Definition with_target `{NetTypes} (name : string)
    (ns : HCSNamespace.t) (c : AttachedContainer.t) (e : t) : t :=
  {| ID := ID e; Name := name; VirtualNetworkName := VirtualNetworkName e;
     DNSSuffix := DNSSuffix e; DNSServerList := DNSServerList e;
     MacAddress := MacAddress e; IPAddress := IPAddress e; Gateway := Gateway e;
     Policies := Policies e; NetNS := ns; Container := c |}.
End HNSEndpoint.

(** [HnsDefaultMinVersion]. *)
Definition HnsDefaultMinVersion : hcsshim.HNSVersion.t := hcsshim.HNSVersion1803.

Section Builder.
Context `{NetLib}.

Definition Version_String (v : hcsshim.HNSVersion.t) : string :=
  "{" ++ NilZero.string_of_int (Z.to_int (hcsshim.HNSVersion.Major v)) ++ " "
      ++ NilZero.string_of_int (Z.to_int (hcsshim.HNSVersion.Minor v)) ++ "}".

(** [CheckHNSVersion] returns whether the HNS version is supported. *)
Definition CheckHNSVersion (hnsMinVersion : hcsshim.HNSVersion.t) : M unit :=
  fun w =>
    match hcsshim_GetHNSGlobals w with
    | (Err err, w) => (Err err, w)
    | (Panic, w) => (Panic, w)
    | (Ok hnsVersion, w) =>
        let supported :=
          (hcsshim.HNSVersion.Major hnsVersion >? hcsshim.HNSVersion.Major hnsMinVersion)%Z
          || ((hcsshim.HNSVersion.Major hnsVersion =? hcsshim.HNSVersion.Major hnsMinVersion)%Z
              && (hcsshim.HNSVersion.Minor hnsVersion >=? hcsshim.HNSVersion.Minor hnsMinVersion)%Z) in
        if negb supported then
          (Err (Errorf "HNS is older than the minimum supported version %v"
                       [Version_String hnsMinVersion]), w)
        else (Ok tt, w)
    end.

(** [FindOrCreateHNSNetwork] creates a new HNS network if an existing network
    is not found.  The boolean is [existingNetwork].  The request travels as
    the structure itself: [json.Marshal] does not fail on it. *)
Definition FindOrCreateHNSNetwork (nw : HNSNetwork.t) : M bool :=
  fun w =>
    match hcsshim_GetHNSNetworkByName (HNSNetwork.Name nw) w with
    | (Ok _, w) => (Ok true, w)
    | (Panic, w) => (Panic, w)
    | (Err err, w) =>
        if HNSNetwork.ShouldExist nw then (Err err, w)
        else
          let hnsNetwork :=
            {| hcsshim.HNSNetwork.Id := "";
               hcsshim.HNSNetwork.Name := HNSNetwork.Name nw;
               hcsshim.HNSNetwork.Type_ := HNSNetwork.Type_ nw;
               hcsshim.HNSNetwork.NetworkAdapterName := HNSNetwork.NetworkAdapterName nw;
               hcsshim.HNSNetwork.Subnets :=
                 [ {| hcsshim.Subnet.AddressPrefix := HNSNetwork.AddressPrefix nw;
                      hcsshim.Subnet.GatewayAddress := HNSNetwork.Gateway nw |} ] |} in
          match hcsshim_HNSNetworkRequest_POST hnsNetwork w with
          | (Err err, w) => (Err err, w)
          | (Panic, w) => (Panic, w)
          | (Ok _, w) => (Ok false, w)
          end
    end.

(** [DeleteHNSNetwork] deletes the HNS network. *)
Definition DeleteHNSNetwork (nw : HNSNetwork.t) : M unit :=
  fun w =>
    match hcsshim_GetHNSNetworkByName (HNSNetwork.Name nw) w with
    | (Err err, w) => (Err err, w)
    | (Panic, w) => (Panic, w)
    | (Ok hnsNetwork, w) =>
        hcsshim_HNSNetworkRequest_DELETE (hcsshim.HNSNetwork.Id hnsNetwork) w
    end.

(** [populateEndpointFieldsFromResponse] copies the fields of the HNS
    response into the endpoint. *)
Definition populateEndpointFieldsFromResponse
    (hnsResponse : hcsshim.HNSEndpoint.t) (ep : HNSEndpoint.t) : HNSEndpoint.t :=
  {| HNSEndpoint.ID := hcsshim.HNSEndpoint.Id hnsResponse;
     HNSEndpoint.Name := HNSEndpoint.Name ep;
     HNSEndpoint.VirtualNetworkName := HNSEndpoint.VirtualNetworkName ep;
     HNSEndpoint.DNSSuffix := HNSEndpoint.DNSSuffix ep;
     HNSEndpoint.DNSServerList := HNSEndpoint.DNSServerList ep;
     HNSEndpoint.MacAddress := hcsshim.HNSEndpoint.MacAddress hnsResponse;
     HNSEndpoint.IPAddress :=
       Some {| IPNet_IP := hcsshim.HNSEndpoint.IPAddress hnsResponse;
               IPNet_Mask := CIDRMask (hcsshim.HNSEndpoint.PrefixLength hnsResponse) 32 |};
     HNSEndpoint.Gateway := hcsshim.HNSEndpoint.GatewayAddress hnsResponse;
     HNSEndpoint.Policies := HNSEndpoint.Policies ep;
     HNSEndpoint.NetNS := HNSEndpoint.NetNS ep;
     HNSEndpoint.Container := HNSEndpoint.Container ep |}.

(** The request that [FindOrCreateHNSEndpoint] builds for a new endpoint;
    [uint8(pl)] wraps modulo 256. *)
Definition endpointRequest (ep : HNSEndpoint.t) : hcsshim.HNSEndpoint.t :=
  {| hcsshim.HNSEndpoint.Id := "";
     hcsshim.HNSEndpoint.Name := HNSEndpoint.Name ep;
     hcsshim.HNSEndpoint.VirtualNetworkName := HNSEndpoint.VirtualNetworkName ep;
     hcsshim.HNSEndpoint.DNSServerList := HNSEndpoint.DNSServerList ep;
     hcsshim.HNSEndpoint.DNSSuffix := HNSEndpoint.DNSSuffix ep;
     hcsshim.HNSEndpoint.GatewayAddress := HNSEndpoint.Gateway ep;
     hcsshim.HNSEndpoint.MacAddress := HNSEndpoint.MacAddress ep;
     hcsshim.HNSEndpoint.IPAddress :=
       match HNSEndpoint.IPAddress ep with
       | Some ipnet => IPNet_IP ipnet
       | None => None
       end;
     hcsshim.HNSEndpoint.PrefixLength :=
       match HNSEndpoint.IPAddress ep with
       | Some ipnet => (IPMask_Size (IPNet_Mask ipnet) mod 256)%Z
       | None => 0%Z
       end;
     hcsshim.HNSEndpoint.Policies := HNSEndpoint.Policies ep |}.

(** [FindOrCreateHNSEndpoint] creates a new HNS endpoint if an existing
    endpoint is not found.  The boolean is [existingEndpoint]; the endpoint
    returned is [ep] after the call. *)
Definition FindOrCreateHNSEndpoint (ep : HNSEndpoint.t) : Host -> result bool * HNSEndpoint.t * Host :=
  fun w =>
    match hcsshim_GetHNSEndpointByName (HNSEndpoint.Name ep) w with
    | (Ok hnsEndpoint, w) => (Ok true, populateEndpointFieldsFromResponse hnsEndpoint ep, w)
    | (Panic, w) => (Panic, ep, w)
    | (Err err, w) =>
        if negb (AttachedContainer.IsInfraContainer (HNSEndpoint.Container ep))
           && negb (HCSNamespace.UseNamespace (HNSEndpoint.NetNS ep))
        then (Err (ErrorfV "failed to find endpoint %s: %v" [HNSEndpoint.Name ep] err), ep, w)
        else
          match hcsshim_HNSEndpointRequest_POST (endpointRequest ep) w with
          | (Err err, w) => (Err err, ep, w)
          | (Panic, w) => (Panic, ep, w)
          | (Ok hnsResponse, w) =>
              (Ok false, populateEndpointFieldsFromResponse hnsResponse ep, w)
          end
    end.

(** [attachEndpointV1] attaches an endpoint to the container network
    compartment. *)
Definition attachEndpointV1 (ep : HNSEndpoint.t) : M unit :=
  hcsshim_HotAttachEndpoint
    (AttachedContainer.ContainerID (HNSEndpoint.Container ep)) (HNSEndpoint.ID ep).

(** [deleteHNSEndpointV1] removes an endpoint from the container network
    compartment.  For the infrastructure container, it deletes the endpoint
    as well. *)
Definition deleteHNSEndpointV1 (ep : HNSEndpoint.t) : M unit :=
  fun w =>
    match hcsshim_GetHNSEndpointByName (HNSEndpoint.Name ep) w with
    | (Err err, w) => (Err err, w)
    | (Panic, w) => (Panic, w)
    | (Ok hnsEndpoint, w) =>
        let detached :=
          hcsshim_HotDetachEndpoint
            (AttachedContainer.ContainerID (HNSEndpoint.Container ep))
            (hcsshim.HNSEndpoint.Id hnsEndpoint) w in
        let rest (w : Host) :=
          if negb (AttachedContainer.IsInfraContainer (HNSEndpoint.Container ep))
          then (Ok tt, w)
          else hcsshim_HNSEndpointRequest_DELETE (hcsshim.HNSEndpoint.Id hnsEndpoint) w in
        match detached with
        | (Panic, w) => (Panic, w)
        | (Ok _, w) => rest w
        | (Err err, w) =>
            if negb (is_ErrComputeSystemDoesNotExist err) then (Err err, w) else rest w
        end
    end.

(** The loop of [attachEndpointV2] over the endpoints of the namespace:
    [true] when it returns from inside the loop. *)
Fixpoint alreadyInNamespace (nsEndpoints : list string) : bool :=
  match nsEndpoints with
  | [] => false
  | endpointID :: rest =>
      if String.eqb endpointID endpointID then true else alreadyInNamespace rest
  end.

(** [attachEndpointV2] attaches an endpoint to the network namespace. *)
Definition attachEndpointV2 (ep : HNSEndpoint.t) : M unit :=
  fun w =>
    match hcn_GetNamespaceEndpointIds (HCSNamespace.NetNSName (HNSEndpoint.NetNS ep)) w with
    | (Err err, w) => (Err err, w)
    | (Panic, w) => (Panic, w)
    | (Ok nsEndpoints, w) =>
        if alreadyInNamespace nsEndpoints then (Ok tt, w)
        else hcn_AddNamespaceEndpoint
               (HCSNamespace.NetNSName (HNSEndpoint.NetNS ep)) (HNSEndpoint.ID ep) w
    end.

(** [deleteHNSEndpointV2] deletes an endpoint from the network namespace. *)
Definition deleteHNSEndpointV2 (ep : HNSEndpoint.t) : M unit :=
  fun w =>
    match hcsshim_GetHNSEndpointByName (HNSEndpoint.Name ep) w with
    | (Err err, w) => (Err err, w)
    | (Panic, w) => (Panic, w)
    | (Ok hnsEndpoint, w) =>
        match hcn_RemoveNamespaceEndpoint
                (HCSNamespace.NetNSName (HNSEndpoint.NetNS ep))
                (hcsshim.HNSEndpoint.Id hnsEndpoint) w with
        | (Err err, w) => (Err err, w)
        | (Panic, w) => (Panic, w)
        | (Ok _, w) => hcsshim_HNSEndpointRequest_DELETE (hcsshim.HNSEndpoint.Id hnsEndpoint) w
        end
    end.

(** [DeleteHNSEndpoint] deletes an HNS endpoint. *)
Definition DeleteHNSEndpoint (ep : HNSEndpoint.t) : M unit :=
  if HCSNamespace.UseNamespace (HNSEndpoint.NetNS ep)
  then deleteHNSEndpointV2 ep
  else deleteHNSEndpointV1 ep.

(** [AttachEndpoint] attaches an HNS endpoint to the network namespace. *)
Definition AttachEndpoint (ep : HNSEndpoint.t) : M unit :=
  if HCSNamespace.UseNamespace (HNSEndpoint.NetNS ep)
  then attachEndpointV2 ep
  else attachEndpointV1 ep.

End Builder.

(** [HnsRoutePolicy] is an HNS route policy. *)
Module HnsRoutePolicy.
Record t : Type := mk {
  Policy : hcsshim.Policy.t;
  DestinationPrefix : string;
  NeedEncap : bool
}.

Definition with_Policy (p : hcsshim.Policy.t) (r : t) : t :=
  {| Policy := p; DestinationPrefix := DestinationPrefix r; NeedEncap := NeedEncap r |}.
End HnsRoutePolicy.

(** What [CreatePolicy] takes from outside the package: the type
    [hcsshim.OutboundNatPolicy] that [HnsOutboundNATPolicy] renames, the
    assignment of its [Policy] field, and [json.Marshal] on the two kinds of
    policy. *)
Class PolicyLib : Type := {
  HnsOutboundNATPolicy : Type;
  HnsOutboundNATPolicy_with_Policy : hcsshim.Policy.t -> HnsOutboundNATPolicy -> HnsOutboundNATPolicy;
  json_Marshal_HnsRoutePolicy : HnsRoutePolicy.t -> result string;
  json_Marshal_HnsOutboundNATPolicy : HnsOutboundNATPolicy -> result string
}.

(** The [policy interface{}] argument of [CreatePolicy] by its dynamic type:
    one of the two policy types, or anything else. *)
Inductive PolicyValue `{PolicyLib} : Type :=
| HnsRoutePolicy_value (policy : HnsRoutePolicy.t)
| HnsOutboundNATPolicy_value (policy : HnsOutboundNATPolicy)
| other_value.

Section Policies.
Context `{NetTypes} `{PolicyLib}.

Definition with_Policies (l : list string) (ep : HNSEndpoint.t) : HNSEndpoint.t :=
  {| HNSEndpoint.ID := HNSEndpoint.ID ep; HNSEndpoint.Name := HNSEndpoint.Name ep;
     HNSEndpoint.VirtualNetworkName := HNSEndpoint.VirtualNetworkName ep;
     HNSEndpoint.DNSSuffix := HNSEndpoint.DNSSuffix ep;
     HNSEndpoint.DNSServerList := HNSEndpoint.DNSServerList ep;
     HNSEndpoint.MacAddress := HNSEndpoint.MacAddress ep;
     HNSEndpoint.IPAddress := HNSEndpoint.IPAddress ep;
     HNSEndpoint.Gateway := HNSEndpoint.Gateway ep;
     HNSEndpoint.Policies := l;
     HNSEndpoint.NetNS := HNSEndpoint.NetNS ep;
     HNSEndpoint.Container := HNSEndpoint.Container ep |}.

(** [CreatePolicy] creates a new policy and attaches it to the endpoint.
    Each case of the type switch declares a [policy] of its own and assigns
    its [Policy] field; [json.Marshal] is then called on the argument, which
    is [encoded] below ([None] in the default case, which returns before).
    The endpoint returned is [ep] after the call. *)
Definition CreatePolicy (ep : HNSEndpoint.t) (policy : PolicyValue)
  : result unit * HNSEndpoint.t :=
  let encoded :=
    match policy with
    | HnsRoutePolicy_value p =>
        let policy := HnsRoutePolicy.with_Policy (hcsshim.Policy.mk hcsshim.Policy.Route) p in
        Some (json_Marshal_HnsRoutePolicy p)
    | HnsOutboundNATPolicy_value p =>
        let policy :=
          HnsOutboundNATPolicy_with_Policy (hcsshim.Policy.mk hcsshim.Policy.OutboundNat) p in
        Some (json_Marshal_HnsOutboundNATPolicy p)
    | other_value => None
    end in
  match encoded with
  | None => (Err (Errorf "failed to create unsupported policy type" []), ep)
  | Some (Err err) => (Err err, ep)
  | Some Panic => (Panic, ep)
  | Some (Ok buf) => (Ok tt, with_Policies (HNSEndpoint.Policies ep ++ [buf])%list ep)
  end.

End Policies.
End hnswrapper.

(** ** Package [eni] *)
Module eni.

(** Modelled from the spec: the [eni] package is not among the sources.  The
    spec describes an ENI as a pre-provisioned interface identified by its
    hardware address, and the plugin reads an [*ENI] through [GetLinkName] and
    [GetMACAddress] only, so an ENI is the two values these return.  A [*ENI]
    that may be nil is an [option], and calling a getter on nil panics. *)
Record ENI `{NetTypes} : Type := mkENI {
  GetLinkName : string;
  GetMACAddress : option HardwareAddr
}.
End eni.

(** The double quote character, for the netsh command line. *)
Definition dquote : string := String "034"%char EmptyString.

(** ** Package [network]: the builder with [getInfraContainerID] *)
Module NetBuilder.

(** [hnsNetworkNameFormat], [hnsEndpointNameFormat] and [vNICNameFormat] are
    applied by the three functions below; the other constants follow. *)
Definition hnsTransparentNetworkType : string := "Transparent".
Definition containerPrefix : string := "container:".

(** [fmt.Sprintf(hnsNetworkNameFormat, id)]. *)
Definition hnsNetworkNameFormat (id : string) : string := "task-br-" ++ id.
(** [fmt.Sprintf(hnsEndpointNameFormat, networkName, identifier)]. *)
Definition hnsEndpointNameFormat (networkName identifier : string) : string :=
  networkName ++ "-ep-" ++ identifier.
(** [fmt.Sprintf(vNICNameFormat, name)]. *)
Definition vNICNameFormat (name : string) : string := "vEthernet (" ++ name ++ ")".
(** [fmt.Sprintf(netshDisableInterface, name)]. *)
Definition netshDisableInterface (name : string) : string :=
  "netsh interface set interface name=" ++ dquote ++ name ++ dquote ++ " admin=disabled".

Module Network.

(** Modelled from the spec: the declaration of [Network] is not among the
    sources.  The fields are the attributes of the spec's Network (name,
    backing adapter, address, gateway, DNS servers and search list, and the
    must-exist flag) under the names this builder and the plugin use. *)
Record t `{NetTypes} : Type := mk {
  Name : string;
  ENI : option eni.ENI;
  IPAddress : option IPNet;
  GatewayIPAddress : option IP;
  DNSServers : list string;
  DNSSuffixSearchList : list string;
  ShouldExist : bool
}.

Definition with_Name `{NetTypes} (name : string) (nw : t) : t :=
  {| Name := name; ENI := ENI nw; IPAddress := IPAddress nw;
     GatewayIPAddress := GatewayIPAddress nw; DNSServers := DNSServers nw;
     DNSSuffixSearchList := DNSSuffixSearchList nw; ShouldExist := ShouldExist nw |}.

Definition with_GatewayIPAddress `{NetTypes} (gw : option IP) (nw : t) : t :=
  {| Name := Name nw; ENI := ENI nw; IPAddress := IPAddress nw;
     GatewayIPAddress := gw; DNSServers := DNSServers nw;
     DNSSuffixSearchList := DNSSuffixSearchList nw; ShouldExist := ShouldExist nw |}.

Definition with_ShouldExist `{NetTypes} (b : bool) (nw : t) : t :=
  {| Name := Name nw; ENI := ENI nw; IPAddress := IPAddress nw;
     GatewayIPAddress := GatewayIPAddress nw; DNSServers := DNSServers nw;
     DNSSuffixSearchList := DNSSuffixSearchList nw; ShouldExist := b |}.
End Network.

Module Endpoint.

(** Modelled from the spec: the declaration of [Endpoint] is not among the
    sources.  The fields are the attributes of the spec's Endpoint (container
    identifier, namespace reference, IP and hardware address, and the flag
    for a task without infra container) under the names this builder and the
    plugin use. *)
Record t `{NetTypes} : Type := mk {
  ContainerID : string;
  NetNSName : string;
  IPAddress : option IPNet;
  MACAddress : option HardwareAddr;
  NoInfraContainer : bool
}.

Definition with_addresses `{NetTypes} (ip : option IPNet) (mac : option HardwareAddr) (ep : t) : t :=
  {| ContainerID := ContainerID ep; NetNSName := NetNSName ep;
     IPAddress := ip; MACAddress := mac; NoInfraContainer := NoInfraContainer ep |}.
End Endpoint.

Section Methods.
Context `{NetLib}.

(** [generateHNSNetworkName] generates a deterministic unique name for an HNS
    network.  [None] is the nil dereference of [nw.ENI]. *)
Definition generateHNSNetworkName (nw : Network.t) : option string :=
  if Network.ShouldExist nw then Some (Network.Name nw)
  else
    match Network.ENI nw with
    | None => None
    | Some e =>
        let id := strings_Replace1 (HardwareAddr_String_nil (eni.GetMACAddress e)) ":"%char "" in
        Some (hnsNetworkNameFormat id)
    end.

(** [generateHNSEndpointName]. *)
Definition generateHNSEndpointName (networkName identifier : string) : string :=
  hnsEndpointNameFormat networkName identifier.

(** [getInfraContainerID] returns the infrastructure container ID for the
    given endpoint: [(isInfraContainer, infraContainerID)] or an error. *)
Definition getInfraContainerID (ep : Endpoint.t) : result (bool * string) :=
  if String.eqb (Endpoint.NetNSName ep) "" || String.eqb (Endpoint.NetNSName ep) "none" then
    Ok (true, Endpoint.ContainerID ep)
  else if strings_HasPrefix (Endpoint.NetNSName ep) containerPrefix then
    Ok (false, strings_TrimPrefix (Endpoint.NetNSName ep) containerPrefix)
  else
    Err (Errorf "failed to parse netns %s" [Endpoint.NetNSName ep]).

(** [disableInterface] disables the network interface with the provided
    name. *)
Definition disableInterface (adapterName : string) : M unit :=
  fun w =>
    match net_InterfaceByName adapterName w with
    | (Err err, w) => (Err err, w)
    | (Panic, w) => (Panic, w)
    | (Ok flags, w) =>
        let isInterfaceEnabled := strings_EqualFold (split_first flags "|"%char) "up" in
        if isInterfaceEnabled then
          let commandString := netshDisableInterface adapterName in
          exec_Command_Run "cmd" ["/C"; commandString] w
        else (Ok tt, w)
    end.

(** [DeleteNetwork] deletes an existing HNS network. *)
Definition DeleteNetwork (nw : Network.t) : M unit :=
  let networkConfig :=
    {| hnswrapper.HNSNetwork.Name := Network.Name nw;
       hnswrapper.HNSNetwork.Type_ := "";
       hnswrapper.HNSNetwork.NetworkAdapterName := "";
       hnswrapper.HNSNetwork.AddressPrefix := "";
       hnswrapper.HNSNetwork.Gateway := "";
       hnswrapper.HNSNetwork.ShouldExist := false |} in
  hnswrapper.DeleteHNSNetwork networkConfig.

(** The HNS network configuration that [FindOrCreateNetwork] builds once the
    name is set. *)
Definition networkConfigOf (nw : Network.t) : hnswrapper.HNSNetwork.t :=
  {| hnswrapper.HNSNetwork.Name := Network.Name nw;
     hnswrapper.HNSNetwork.Type_ := hnsTransparentNetworkType;
     hnswrapper.HNSNetwork.NetworkAdapterName :=
       match Network.ENI nw with
       | Some e => eni.GetLinkName e
       | None => ""
       end;
     hnswrapper.HNSNetwork.AddressPrefix :=
       match Network.IPAddress nw with
       | Some ip => IPNet_String (GetSubnetPrefix ip)
       | None => ""
       end;
     hnswrapper.HNSNetwork.Gateway :=
       match Network.GatewayIPAddress nw with
       | Some gw => IP_String gw
       | None => ""
       end;
     hnswrapper.HNSNetwork.ShouldExist := Network.ShouldExist nw |}.

(** [FindOrCreateNetwork] creates a new HNS network.  The network returned
    is [nw] after the call. *)
Definition FindOrCreateNetwork (nw : Network.t) : Host -> result unit * Network.t * Host :=
  fun w =>
    match hnswrapper.CheckHNSVersion hnswrapper.HnsDefaultMinVersion w with
    | (Err err, w) => (Err err, nw, w)
    | (Panic, w) => (Panic, nw, w)
    | (Ok _, w) =>
        match generateHNSNetworkName nw with
        | None => (Panic, nw, w)
        | Some name =>
            let nw := Network.with_Name name nw in
            let networkConfig := networkConfigOf nw in
            match hnswrapper.FindOrCreateHNSNetwork networkConfig w with
            | (Err err, w) => (Err err, nw, w)
            | (Panic, w) => (Panic, nw, w)
            | (Ok existing, w) =>
                if negb existing then
                  match Network.ENI nw with
                  | None => (Panic, nw, w)
                  | Some e =>
                      let mgmtIface := vNICNameFormat (eni.GetLinkName e) in
                      match disableInterface mgmtIface w with
                      | (Err err, w) =>
                          let '(_, w) := DeleteNetwork nw w in
                          (Err err, nw, w)
                      | (Panic, w) => (Panic, nw, w)
                      | (Ok _, w) => (Ok tt, nw, w)
                      end
                  end
                else (Ok tt, nw, w)
            end
        end
    end.

(** The HNS endpoint configuration that [FindOrCreateEndpoint] starts
    from. *)
Definition endpointConfigOf (nw : Network.t) (ep : Endpoint.t) : hnswrapper.HNSEndpoint.t :=
  {| hnswrapper.HNSEndpoint.ID := "";
     hnswrapper.HNSEndpoint.Name := "";
     hnswrapper.HNSEndpoint.VirtualNetworkName := Network.Name nw;
     hnswrapper.HNSEndpoint.DNSSuffix := strings_Join (Network.DNSSuffixSearchList nw) ",";
     hnswrapper.HNSEndpoint.DNSServerList := strings_Join (Network.DNSServers nw) ",";
     hnswrapper.HNSEndpoint.MacAddress :=
       match Endpoint.MACAddress ep with
       | Some mac => HardwareAddr_String mac
       | None => ""
       end;
     hnswrapper.HNSEndpoint.IPAddress := Endpoint.IPAddress ep;
     hnswrapper.HNSEndpoint.Gateway := "";
     hnswrapper.HNSEndpoint.Policies := [];
     hnswrapper.HNSEndpoint.NetNS := hnswrapper.HCSNamespace.mk false "";
     hnswrapper.HNSEndpoint.Container := hnswrapper.AttachedContainer.mk "" false "" |}.

(** The body of [FindOrCreateEndpoint] from the call of
    [FindOrCreateHNSEndpoint] on, [hnsEndpoint] being complete. *)
Definition findOrCreateAndAttach (nw : Network.t) (ep : Endpoint.t)
    (hnsEndpoint : hnswrapper.HNSEndpoint.t)
  : Host -> result unit * Network.t * Endpoint.t * Host :=
  fun w =>
    match hnswrapper.FindOrCreateHNSEndpoint hnsEndpoint w with
    | (Err err, _, w) => (Err err, nw, ep, w)
    | (Panic, _, w) => (Panic, nw, ep, w)
    | (Ok existing, hnsEndpoint, w) =>
        let ep := Endpoint.with_addresses (hnswrapper.HNSEndpoint.IPAddress hnsEndpoint)
                    (ParseMAC (hnswrapper.HNSEndpoint.MacAddress hnsEndpoint)) ep in
        let nw := Network.with_GatewayIPAddress
                    (ParseIP (hnswrapper.HNSEndpoint.Gateway hnsEndpoint)) nw in
        if existing then
          if hnswrapper.AttachedContainer.IsInfraContainer (hnswrapper.HNSEndpoint.Container hnsEndpoint)
             || hnswrapper.HCSNamespace.UseNamespace (hnswrapper.HNSEndpoint.NetNS hnsEndpoint)
          then (Ok tt, nw, ep, w)
          else
            let '(r, w) := hnswrapper.AttachEndpoint hnsEndpoint w in (r, nw, ep, w)
        else
          match hnswrapper.AttachEndpoint hnsEndpoint w with
          | (Err err, w) =>
              let '(_, w) := hnswrapper.DeleteHNSEndpoint hnsEndpoint w in
              (Err err, nw, ep, w)
          | (Panic, w) => (Panic, nw, ep, w)
          | (Ok _, w) => (Ok tt, nw, ep, w)
          end
    end.

(** [FindOrCreateEndpoint] creates a new HNS endpoint in the network.  The
    network and the endpoint returned are [nw] and [ep] after the call. *)
Definition FindOrCreateEndpoint (nw : Network.t) (ep : Endpoint.t)
  : Host -> result unit * Network.t * Endpoint.t * Host :=
  fun w =>
    let hnsEndpoint := endpointConfigOf nw ep in
    if Endpoint.NoInfraContainer ep then
      let hnsEndpoint :=
        hnswrapper.HNSEndpoint.with_target (generateHNSEndpointName (Network.Name nw) (Endpoint.NetNSName ep))
          (hnswrapper.HCSNamespace.mk true (Endpoint.NetNSName ep))
          (hnswrapper.HNSEndpoint.Container hnsEndpoint) hnsEndpoint in
      findOrCreateAndAttach nw ep hnsEndpoint w
    else
      match getInfraContainerID ep with
      | Err err => (Err err, nw, ep, w)
      | Panic => (Panic, nw, ep, w)
      | Ok (isInfraContainer, infraContainerID) =>
          let hnsEndpoint :=
            hnswrapper.HNSEndpoint.with_target (generateHNSEndpointName (Network.Name nw) infraContainerID)
              (hnswrapper.HNSEndpoint.NetNS hnsEndpoint)
              (hnswrapper.AttachedContainer.mk (Endpoint.ContainerID ep)
                 isInfraContainer infraContainerID)
              hnsEndpoint in
          findOrCreateAndAttach nw ep hnsEndpoint w
      end.

(** The endpoint configuration that [DeleteEndpoint] starts from. *)
Definition emptyEndpointConfig : hnswrapper.HNSEndpoint.t :=
  {| hnswrapper.HNSEndpoint.ID := "";
     hnswrapper.HNSEndpoint.Name := "";
     hnswrapper.HNSEndpoint.VirtualNetworkName := "";
     hnswrapper.HNSEndpoint.DNSSuffix := "";
     hnswrapper.HNSEndpoint.DNSServerList := "";
     hnswrapper.HNSEndpoint.MacAddress := "";
     hnswrapper.HNSEndpoint.IPAddress := None;
     hnswrapper.HNSEndpoint.Gateway := "";
     hnswrapper.HNSEndpoint.Policies := [];
     hnswrapper.HNSEndpoint.NetNS := hnswrapper.HCSNamespace.mk false "";
     hnswrapper.HNSEndpoint.Container := hnswrapper.AttachedContainer.mk "" false "" |}.

(** [DeleteEndpoint] deletes an existing HNS endpoint.  The network returned
    is [nw] after the call. *)
Definition DeleteEndpoint (nw : Network.t) (ep : Endpoint.t)
  : Host -> result unit * Network.t * Host :=
  fun w =>
    match generateHNSNetworkName nw with
    | None => (Panic, nw, w)
    | Some name =>
        let nw := Network.with_Name name nw in
        let hnsEndpoint := emptyEndpointConfig in
        if Endpoint.NoInfraContainer ep then
          let hnsEndpoint :=
            hnswrapper.HNSEndpoint.with_target (generateHNSEndpointName (Network.Name nw) (Endpoint.NetNSName ep))
              (hnswrapper.HCSNamespace.mk true (Endpoint.NetNSName ep))
              (hnswrapper.HNSEndpoint.Container hnsEndpoint) hnsEndpoint in
          let '(r, w) := hnswrapper.DeleteHNSEndpoint hnsEndpoint w in
          (r, nw, w)
        else
          match getInfraContainerID ep with
          | Err err => (Err err, nw, w)
          | Panic => (Panic, nw, w)
          | Ok (isInfraContainer, infraContainerID) =>
              let hnsEndpoint :=
                hnswrapper.HNSEndpoint.with_target (generateHNSEndpointName (Network.Name nw) infraContainerID)
                  (hnswrapper.HNSEndpoint.NetNS hnsEndpoint)
                  (hnswrapper.AttachedContainer.mk (Endpoint.ContainerID ep)
                     isInfraContainer infraContainerID)
                  hnsEndpoint in
              let nw := if negb isInfraContainer then Network.with_ShouldExist true nw else nw in
              let '(r, w) := hnswrapper.DeleteHNSEndpoint hnsEndpoint w in
              (r, nw, w)
          end
    end.

End Methods.
End NetBuilder.

(** ** Package [network]: the builder with [getNamespaceIdentifier]

    The constants, [generateHNSEndpointName] and [disableInterface] of this
    file are word for word those of [NetBuilder]. *)
Module netBuilder.

(** [NSType] identifies the namespace type for the containers. *)
Inductive NSType : Type :=
| infraContainerNS
| nonInfraContainerNS
| hcsNamespace.

Definition NSType_eqb (a b : NSType) : bool :=
  match a, b with
  | infraContainerNS, infraContainerNS => true
  | nonInfraContainerNS, nonInfraContainerNS => true
  | hcsNamespace, hcsNamespace => true
  | _, _ => false
  end.

Module Network.

(** Modelled from the spec: the declaration of [Network] is not among the
    sources.  The fields are the attributes of the spec's Network under the
    names this builder uses; the must-exist flag is [UseExisting] here. *)
Record t `{NetTypes} : Type := mk {
  Name : string;
  ENI : option eni.ENI;
  IPAddress : option IPNet;
  GatewayIPAddress : option IP;
  DNSServers : list string;
  DNSSuffixSearchList : list string;
  UseExisting : bool
}.

Definition with_Name `{NetTypes} (name : string) (nw : t) : t :=
  {| Name := name; ENI := ENI nw; IPAddress := IPAddress nw;
     GatewayIPAddress := GatewayIPAddress nw; DNSServers := DNSServers nw;
     DNSSuffixSearchList := DNSSuffixSearchList nw; UseExisting := UseExisting nw |}.

Definition with_GatewayIPAddress `{NetTypes} (gw : option IP) (nw : t) : t :=
  {| Name := Name nw; ENI := ENI nw; IPAddress := IPAddress nw;
     GatewayIPAddress := gw; DNSServers := DNSServers nw;
     DNSSuffixSearchList := DNSSuffixSearchList nw; UseExisting := UseExisting nw |}.

Definition with_UseExisting `{NetTypes} (b : bool) (nw : t) : t :=
  {| Name := Name nw; ENI := ENI nw; IPAddress := IPAddress nw;
     GatewayIPAddress := GatewayIPAddress nw; DNSServers := DNSServers nw;
     DNSSuffixSearchList := DNSSuffixSearchList nw; UseExisting := b |}.
End Network.

Module Endpoint.

(** Modelled from the spec: the declaration of [Endpoint] is not among the
    sources.  The fields are the attributes of the spec's Endpoint that this
    builder reads and writes. *)
Record t `{NetTypes} : Type := mk {
  ContainerID : string;
  NetNSName : string;
  IPAddress : option IPNet;
  MACAddress : option HardwareAddr
}.

Definition with_addresses `{NetTypes} (ip : option IPNet) (mac : option HardwareAddr) (ep : t) : t :=
  {| ContainerID := ContainerID ep; NetNSName := NetNSName ep;
     IPAddress := ip; MACAddress := mac |}.
End Endpoint.

Section Methods.
Context `{NetLib}.

Definition containerPrefix : string := NetBuilder.containerPrefix.
Definition generateHNSEndpointName : string -> string -> string :=
  NetBuilder.generateHNSEndpointName.
Definition disableInterface : string -> M unit := NetBuilder.disableInterface.

(** [generateHNSNetworkName] generates a deterministic unique name for an HNS
    network.  [None] is the nil dereference of [nw.ENI]. *)
Definition generateHNSNetworkName (nw : Network.t) : option string :=
  if Network.UseExisting nw then Some (Network.Name nw)
  else
    match Network.ENI nw with
    | None => None
    | Some e =>
        let id := strings_Replace1 (HardwareAddr_String_nil (eni.GetMACAddress e)) ":"%char "" in
        Some (NetBuilder.hnsNetworkNameFormat id)
    end.

(** [getNamespaceIdentifier] identifies the namespace type and returns the
    appropriate identifier. *)
Definition getNamespaceIdentifier (ep : Endpoint.t) : NSType * string :=
  if String.eqb (Endpoint.NetNSName ep) "" || String.eqb (Endpoint.NetNSName ep) "none" then
    (infraContainerNS, Endpoint.ContainerID ep)
  else if strings_HasPrefix (Endpoint.NetNSName ep) containerPrefix then
    (nonInfraContainerNS, strings_TrimPrefix (Endpoint.NetNSName ep) containerPrefix)
  else
    (hcsNamespace, Endpoint.NetNSName ep).

(** [DeleteNetwork] deletes an existing HNS network. *)
Definition DeleteNetwork (nw : Network.t) : M unit :=
  let networkConfig :=
    {| hnswrapper.HNSNetwork.Name := Network.Name nw;
       hnswrapper.HNSNetwork.Type_ := "";
       hnswrapper.HNSNetwork.NetworkAdapterName := "";
       hnswrapper.HNSNetwork.AddressPrefix := "";
       hnswrapper.HNSNetwork.Gateway := "";
       hnswrapper.HNSNetwork.ShouldExist := false |} in
  hnswrapper.DeleteHNSNetwork networkConfig.

(** The HNS network configuration that [FindOrCreateNetwork] builds once the
    name is set; this builder leaves [ShouldExist] at its zero value. *)
Definition networkConfigOf (nw : Network.t) : hnswrapper.HNSNetwork.t :=
  {| hnswrapper.HNSNetwork.Name := Network.Name nw;
     hnswrapper.HNSNetwork.Type_ := NetBuilder.hnsTransparentNetworkType;
     hnswrapper.HNSNetwork.NetworkAdapterName :=
       match Network.ENI nw with
       | Some e => eni.GetLinkName e
       | None => ""
       end;
     hnswrapper.HNSNetwork.AddressPrefix :=
       match Network.IPAddress nw with
       | Some ip => IPNet_String (GetSubnetPrefix ip)
       | None => ""
       end;
     hnswrapper.HNSNetwork.Gateway :=
       match Network.GatewayIPAddress nw with
       | Some gw => IP_String gw
       | None => ""
       end;
     hnswrapper.HNSNetwork.ShouldExist := false |}.

(** [FindOrCreateNetwork] creates a new HNS network.  The network returned
    is [nw] after the call. *)
Definition FindOrCreateNetwork (nw : Network.t) : Host -> result unit * Network.t * Host :=
  fun w =>
    match hnswrapper.CheckHNSVersion hnswrapper.HnsDefaultMinVersion w with
    | (Err err, w) => (Err err, nw, w)
    | (Panic, w) => (Panic, nw, w)
    | (Ok _, w) =>
        match generateHNSNetworkName nw with
        | None => (Panic, nw, w)
        | Some name =>
            let nw := Network.with_Name name nw in
            let networkConfig := networkConfigOf nw in
            match hnswrapper.FindOrCreateHNSNetwork networkConfig w with
            | (Err err, w) => (Err err, nw, w)
            | (Panic, w) => (Panic, nw, w)
            | (Ok existing, w) =>
                if negb existing then
                  match Network.ENI nw with
                  | None => (Panic, nw, w)
                  | Some e =>
                      let mgmtIface := NetBuilder.vNICNameFormat (eni.GetLinkName e) in
                      match disableInterface mgmtIface w with
                      | (Err err, w) =>
                          let '(_, w) := DeleteNetwork nw w in
                          (Err err, nw, w)
                      | (Panic, w) => (Panic, nw, w)
                      | (Ok _, w) => (Ok tt, nw, w)
                      end
                  end
                else (Ok tt, nw, w)
            end
        end
    end.

(** The HNS endpoint configuration of [FindOrCreateEndpoint] before the call
    of [FindOrCreateHNSEndpoint]. *)
Definition endpointConfigOf (nw : Network.t) (ep : Endpoint.t) : hnswrapper.HNSEndpoint.t :=
  let hnsEndpoint :=
    {| hnswrapper.HNSEndpoint.ID := "";
       hnswrapper.HNSEndpoint.Name := "";
       hnswrapper.HNSEndpoint.VirtualNetworkName := Network.Name nw;
       hnswrapper.HNSEndpoint.DNSSuffix := strings_Join (Network.DNSSuffixSearchList nw) ",";
       hnswrapper.HNSEndpoint.DNSServerList := strings_Join (Network.DNSServers nw) ",";
       hnswrapper.HNSEndpoint.MacAddress :=
         match Endpoint.MACAddress ep with
         | Some mac => HardwareAddr_String mac
         | None => ""
         end;
       hnswrapper.HNSEndpoint.IPAddress := Endpoint.IPAddress ep;
       hnswrapper.HNSEndpoint.Gateway := "";
       hnswrapper.HNSEndpoint.Policies := [];
       hnswrapper.HNSEndpoint.NetNS := hnswrapper.HCSNamespace.mk false "";
       hnswrapper.HNSEndpoint.Container := hnswrapper.AttachedContainer.mk "" false "" |} in
  let '(nsType, namespaceIdentifier) := getNamespaceIdentifier ep in
  let name := generateHNSEndpointName (Network.Name nw) namespaceIdentifier in
  if NSType_eqb nsType hcsNamespace then
    hnswrapper.HNSEndpoint.with_target name
      (hnswrapper.HCSNamespace.mk true namespaceIdentifier)
      (hnswrapper.HNSEndpoint.Container hnsEndpoint) hnsEndpoint
  else
    hnswrapper.HNSEndpoint.with_target name
      (hnswrapper.HNSEndpoint.NetNS hnsEndpoint)
      (hnswrapper.AttachedContainer.mk (Endpoint.ContainerID ep)
         (NSType_eqb nsType infraContainerNS) namespaceIdentifier)
      hnsEndpoint.

(** [FindOrCreateEndpoint] creates a new HNS endpoint in the network.  The
    network and the endpoint returned are [nw] and [ep] after the call. *)
Definition FindOrCreateEndpoint (nw : Network.t) (ep : Endpoint.t)
  : Host -> result unit * Network.t * Endpoint.t * Host :=
  fun w =>
    let hnsEndpoint := endpointConfigOf nw ep in
    match hnswrapper.FindOrCreateHNSEndpoint hnsEndpoint w with
    | (Err err, _, w) => (Err err, nw, ep, w)
    | (Panic, _, w) => (Panic, nw, ep, w)
    | (Ok existing, hnsEndpoint, w) =>
        let ep := Endpoint.with_addresses (hnswrapper.HNSEndpoint.IPAddress hnsEndpoint)
                    (ParseMAC (hnswrapper.HNSEndpoint.MacAddress hnsEndpoint)) ep in
        let nw := Network.with_GatewayIPAddress
                    (ParseIP (hnswrapper.HNSEndpoint.Gateway hnsEndpoint)) nw in
        if existing then
          if hnswrapper.AttachedContainer.IsInfraContainer (hnswrapper.HNSEndpoint.Container hnsEndpoint)
             || hnswrapper.HCSNamespace.UseNamespace (hnswrapper.HNSEndpoint.NetNS hnsEndpoint)
          then (Ok tt, nw, ep, w)
          else
            let '(r, w) := hnswrapper.AttachEndpoint hnsEndpoint w in (r, nw, ep, w)
        else
          match hnswrapper.AttachEndpoint hnsEndpoint w with
          | (Err err, w) =>
              let '(_, w) := hnswrapper.DeleteHNSEndpoint hnsEndpoint w in
              (Err err, nw, ep, w)
          | (Panic, w) => (Panic, nw, ep, w)
          | (Ok _, w) => (Ok tt, nw, ep, w)
          end
    end.

(** The HNS endpoint configuration of [DeleteEndpoint] before the call of
    [DeleteHNSEndpoint], [nw.Name] being set. *)
Definition deleteConfigOf (nw : Network.t) (ep : Endpoint.t) : hnswrapper.HNSEndpoint.t :=
  let hnsEndpoint :=
    {| hnswrapper.HNSEndpoint.ID := "";
       hnswrapper.HNSEndpoint.Name := "";
       hnswrapper.HNSEndpoint.VirtualNetworkName := "";
       hnswrapper.HNSEndpoint.DNSSuffix := "";
       hnswrapper.HNSEndpoint.DNSServerList := "";
       hnswrapper.HNSEndpoint.MacAddress := "";
       hnswrapper.HNSEndpoint.IPAddress := None;
       hnswrapper.HNSEndpoint.Gateway := "";
       hnswrapper.HNSEndpoint.Policies := [];
       hnswrapper.HNSEndpoint.NetNS := hnswrapper.HCSNamespace.mk false "";
       hnswrapper.HNSEndpoint.Container := hnswrapper.AttachedContainer.mk "" false "" |} in
  let '(nsType, namespaceIdentifier) := getNamespaceIdentifier ep in
  let name := generateHNSEndpointName (Network.Name nw) namespaceIdentifier in
  if NSType_eqb nsType hcsNamespace then
    hnswrapper.HNSEndpoint.with_target name
      (hnswrapper.HCSNamespace.mk true (Endpoint.NetNSName ep))
      (hnswrapper.HNSEndpoint.Container hnsEndpoint) hnsEndpoint
  else
    hnswrapper.HNSEndpoint.with_target name
      (hnswrapper.HNSEndpoint.NetNS hnsEndpoint)
      (hnswrapper.AttachedContainer.mk (Endpoint.ContainerID ep)
         (NSType_eqb nsType infraContainerNS) namespaceIdentifier)
      hnsEndpoint.

(** [DeleteEndpoint] deletes an existing HNS endpoint.  The network returned
    is [nw] after the call. *)
Definition DeleteEndpoint (nw : Network.t) (ep : Endpoint.t)
  : Host -> result unit * Network.t * Host :=
  fun w =>
    match generateHNSNetworkName nw with
    | None => (Panic, nw, w)
    | Some name =>
        let nw := Network.with_Name name nw in
        let hnsEndpoint := deleteConfigOf nw ep in
        let nw :=
          if negb (NSType_eqb (fst (getNamespaceIdentifier ep)) hcsNamespace)
             && NSType_eqb (fst (getNamespaceIdentifier ep)) nonInfraContainerNS
          then Network.with_UseExisting true nw else nw in
        let '(r, w) := hnswrapper.DeleteHNSEndpoint hnsEndpoint w in
        (r, nw, w)
    end.

End Methods.
End netBuilder.

(** ** Package [config] *)
Module config.

(** [cniTypes.NetConf], the fields the plugin reads. *)
Module NetConf.
Record t : Type := mk {
  CNIVersion : string;
  Name : string;
  DNS_Nameservers : list string;
  DNS_Search : list string
}.
End NetConf.

(** [cniSkel.CmdArgs]. *)
Module CmdArgs.
Record t : Type := mk {
  ContainerID : string;
  Netns : string;
  IfName : string;
  Args : string;
  StdinData : string
}.
End CmdArgs.

(** [netConfigJSON] defines the network configuration JSON file format. *)
Module netConfigJSON.
Record t : Type := mk {
  NetConf : NetConf.t;
  ENIName : string;
  ENIMACAddress : string;
  ENIIPAddress : string;
  GatewayIPAddress : string;
  NoInfraContainer : bool;
  UseExistingNetwork : bool
}.
End netConfigJSON.

(** [NetConfig] defines the network configuration for the vpc-eni plugin. *)
Module NetConfig.
Record t `{NetTypes} : Type := mk {
  NetConf : NetConf.t;
  ENIName : string;
  ENIMACAddress : option HardwareAddr;
  ENIIPAddress : option IPNet;
  GatewayIPAddress : option IP;
  NoInfraContainer : bool;
  UseExistingNetwork : bool
}.
End NetConfig.

(** What the plugin takes from outside its own packages besides [NetLib]:
    [json.Unmarshal] into a [netConfigJSON], and [eni.NewENI], whose result
    is nil when it fails. *)
Class PluginLib `{NetTypes} : Type := {
  json_Unmarshal : string -> result netConfigJSON.t;
  NewENI : string -> option HardwareAddr -> option eni.ENI
}.

Section New.
Context `{NetLib} `{!PluginLib}.

(** [New] creates a new [NetConfig] object by parsing the given CNI
    arguments. *)
Definition New (args : CmdArgs.t) : result NetConfig.t :=
  match json_Unmarshal (CmdArgs.StdinData args) with
  | Err err => Err (ErrorfV "failed to parse network config: %v" [] err)
  | Panic => Panic
  | Ok config =>
      if netConfigJSON.UseExistingNetwork config
         && String.eqb (NetConf.Name (netConfigJSON.NetConf config)) ""
      then Err (Errorf "missing required parameter network name" [])
      else if negb (netConfigJSON.UseExistingNetwork config)
              && String.eqb (netConfigJSON.ENIName config) ""
      then Err (Errorf "missing required parameter ENIName" [])
      else if negb (netConfigJSON.UseExistingNetwork config)
              && String.eqb (netConfigJSON.ENIMACAddress config) ""
      then Err (Errorf "missing required parameter ENIMACAddress" [])
      else if negb (netConfigJSON.UseExistingNetwork config)
              && String.eqb (netConfigJSON.ENIIPAddress config) ""
      then Err (Errorf "missing required parameter ENIIPAddress" [])
      else if netConfigJSON.NoInfraContainer config && String.eqb (CmdArgs.Netns args) ""
      then Err (Errorf "missing required parameter netns" [])
      else
        let parsedMAC :=
          if String.eqb (netConfigJSON.ENIMACAddress config) "" then Ok None
          else match ParseMAC (netConfigJSON.ENIMACAddress config) with
               | Some mac => Ok (Some mac)
               | None => Err (Errorf "invalid ENIMACAddress %s" [netConfigJSON.ENIMACAddress config])
               end in
        match parsedMAC with
        | Err err => Err err
        | Panic => Panic
        | Ok mac =>
            let parsedIP :=
              if String.eqb (netConfigJSON.ENIIPAddress config) "" then Ok None
              else match GetIPAddressFromString (netConfigJSON.ENIIPAddress config) with
                   | Ok ip => Ok (Some ip)
                   | _ => Err (Errorf "invalid ENIIPAddress %s" [netConfigJSON.ENIIPAddress config])
                   end in
            match parsedIP with
            | Err err => Err err
            | Panic => Panic
            | Ok ip =>
                let parsedGateway :=
                  if String.eqb (netConfigJSON.GatewayIPAddress config) "" then Ok None
                  else match ParseIP (netConfigJSON.GatewayIPAddress config) with
                       | Some gw => Ok (Some gw)
                       | None =>
                           Err (Errorf "invalid GatewayIPAddress %s"
                                       [netConfigJSON.GatewayIPAddress config])
                       end in
                match parsedGateway with
                | Err err => Err err
                | Panic => Panic
                | Ok gw =>
                    Ok {| NetConfig.NetConf := netConfigJSON.NetConf config;
                          NetConfig.ENIName := netConfigJSON.ENIName config;
                          NetConfig.ENIMACAddress := mac;
                          NetConfig.ENIIPAddress := ip;
                          NetConfig.GatewayIPAddress := gw;
                          NetConfig.NoInfraContainer := netConfigJSON.NoInfraContainer config;
                          NetConfig.UseExistingNetwork := netConfigJSON.UseExistingNetwork config |}
                end
            end
        end
  end.

End New.
End config.

(** ** Package [cniTypesCurrent]: the result of an ADD *)
Module cniTypesCurrent.

(** [current.Interface], the fields the plugin fills. *)
Module Interface.
Record t : Type := mk { Name : string; Mac : string; Sandbox : string }.
End Interface.

(** [current.IPConfig].  [Interface] is a pointer
    to the index in [Interfaces]. *)
Module IPConfig.
Record t `{NetTypes} : Type := mk {
  Version : string;
  Interface : option Z;
  Address : IPNet;
  Gateway : option IP
}.
End IPConfig.

(** [current.Result], the fields the plugin fills. *)
Module Result.
Record t `{NetTypes} : Type := mk {
  Interfaces : list Interface.t;
  IPs : list IPConfig.t
}.
End Result.

(** [cniTypes.PrintResult result version], which writes the result to the
    standard output in the given version of the CNI format: the plugin sees
    whether it failed. *)
Class CNILib `{NetTypes} : Type := {
  PrintResult : Result.t -> string -> result unit
}.

End cniTypesCurrent.

(** ** Package [plugin] *)
Module Plugin.

(** Modelled from the spec: the [Builder] interface of package [network],
    the type of [plugin.nb], is declared outside the sources.  Its four
    methods are the operations of the spec's network and endpoint
    orchestrators, which every builder implements and the plugin calls. *)
Record Builder `{NetTypes} : Type := mkBuilder {
  FindOrCreateNetwork : NetBuilder.Network.t -> Host -> result unit * NetBuilder.Network.t * Host;
  DeleteNetwork : NetBuilder.Network.t -> Host -> result unit * Host;
  FindOrCreateEndpoint :
    NetBuilder.Network.t -> NetBuilder.Endpoint.t ->
    Host -> result unit * NetBuilder.Network.t * NetBuilder.Endpoint.t * Host;
  DeleteEndpoint :
    NetBuilder.Network.t -> NetBuilder.Endpoint.t -> Host -> result unit * NetBuilder.Network.t * Host
}.

Section Handlers.
Context `{NetLib} `{!config.PluginLib}.

(** The Windows builder, [NetBuilder]. *)
Definition windowsBuilder : Builder :=
  {| FindOrCreateNetwork := NetBuilder.FindOrCreateNetwork;
     DeleteNetwork := NetBuilder.DeleteNetwork;
     FindOrCreateEndpoint := NetBuilder.FindOrCreateEndpoint;
     DeleteEndpoint := NetBuilder.DeleteEndpoint |}.

(** The Linux builder, whose four methods return nil. *)
Definition linuxBuilder : Builder :=
  {| FindOrCreateNetwork := fun nw w => (Ok tt, nw, w);
     DeleteNetwork := fun _ w => (Ok tt, w);
     FindOrCreateEndpoint := fun nw ep w => (Ok tt, nw, ep, w);
     DeleteEndpoint := fun nw _ w => (Ok tt, nw, w) |}.

(** The network descriptor that [Del] builds. *)
Definition networkOf (netConfig : config.NetConfig.t) : NetBuilder.Network.t :=
  let vpcENI := config.NewENI (config.NetConfig.ENIName netConfig)
                  (config.NetConfig.ENIMACAddress netConfig) in
  {| NetBuilder.Network.Name := config.NetConf.Name (config.NetConfig.NetConf netConfig);
     NetBuilder.Network.ENI := vpcENI;
     NetBuilder.Network.IPAddress := None;
     NetBuilder.Network.GatewayIPAddress := None;
     NetBuilder.Network.DNSServers := [];
     NetBuilder.Network.DNSSuffixSearchList := [];
     NetBuilder.Network.ShouldExist := config.NetConfig.UseExistingNetwork netConfig |}.

(** The endpoint descriptor that [Add] and [Del] build. *)
Definition endpointOf (netConfig : config.NetConfig.t) (args : config.CmdArgs.t)
  : NetBuilder.Endpoint.t :=
  {| NetBuilder.Endpoint.ContainerID := config.CmdArgs.ContainerID args;
     NetBuilder.Endpoint.NetNSName := config.CmdArgs.Netns args;
     NetBuilder.Endpoint.IPAddress := config.NetConfig.ENIIPAddress netConfig;
     NetBuilder.Endpoint.MACAddress := config.NetConfig.ENIMACAddress netConfig;
     NetBuilder.Endpoint.NoInfraContainer := config.NetConfig.NoInfraContainer netConfig |}.

(** [Del] is the CNI DEL command handler.  The error of [DeleteEndpoint] is
    logged and ignored. *)
Definition Del (nb : Builder) (args : config.CmdArgs.t) : M unit :=
  fun w =>
    match config.New args with
    | Err err => (Err (ErrorfV "failed to parse config: %v" [] err), w)
    | Panic => (Panic, w)
    | Ok netConfig =>
        let nw := networkOf netConfig in
        let ep := endpointOf netConfig args in
        match DeleteEndpoint nb nw ep w with
        | (Panic, nw, w) => (Panic, w)
        | (_, nw, w) =>
            if negb (NetBuilder.Network.ShouldExist nw) then
              match DeleteNetwork nb nw w with
              | (Err err, w) => (Err (ErrorfV "failed to delete network: %v" [] err), w)
              | (Panic, w) => (Panic, w)
              | (Ok _, w) => (Ok tt, w)
              end
            else (Ok tt, w)
        end
    end.

End Handlers.

Section AddHandler.
Context `{NetLib} `{!config.PluginLib} `{!cniTypesCurrent.CNILib}.

(** The network descriptor that [Add] builds. *)
Definition addNetworkOf (netConfig : config.NetConfig.t) : NetBuilder.Network.t :=
  let vpcENI := config.NewENI (config.NetConfig.ENIName netConfig)
                  (config.NetConfig.ENIMACAddress netConfig) in
  {| NetBuilder.Network.Name := config.NetConf.Name (config.NetConfig.NetConf netConfig);
     NetBuilder.Network.ENI := vpcENI;
     NetBuilder.Network.IPAddress := config.NetConfig.ENIIPAddress netConfig;
     NetBuilder.Network.GatewayIPAddress := config.NetConfig.GatewayIPAddress netConfig;
     NetBuilder.Network.DNSServers :=
       config.NetConf.DNS_Nameservers (config.NetConfig.NetConf netConfig);
     NetBuilder.Network.DNSSuffixSearchList :=
       config.NetConf.DNS_Search (config.NetConfig.NetConf netConfig);
     NetBuilder.Network.ShouldExist := config.NetConfig.UseExistingNetwork netConfig |}.

(** The CNI result that [Add] generates from the arguments and from the
    descriptors as the builder left them.  [None] is the nil dereference of
    [ep.IPAddress]. *)
Definition resultOf (args : config.CmdArgs.t) (nw : NetBuilder.Network.t)
    (ep : NetBuilder.Endpoint.t) : option cniTypesCurrent.Result.t :=
  match NetBuilder.Endpoint.IPAddress ep with
  | None => None
  | Some address =>
      Some {| cniTypesCurrent.Result.Interfaces :=
                [ {| cniTypesCurrent.Interface.Name := config.CmdArgs.IfName args;
                     cniTypesCurrent.Interface.Mac :=
                       HardwareAddr_String_nil (NetBuilder.Endpoint.MACAddress ep);
                     cniTypesCurrent.Interface.Sandbox := config.CmdArgs.Netns args |} ];
              cniTypesCurrent.Result.IPs :=
                [ {| cniTypesCurrent.IPConfig.Version := "4";
                     cniTypesCurrent.IPConfig.Interface := Some 0%Z;
                     cniTypesCurrent.IPConfig.Address := address;
                     cniTypesCurrent.IPConfig.Gateway :=
                       NetBuilder.Network.GatewayIPAddress nw |} ] |}
  end.

(** [Add] is the CNI ADD command handler.  Next to the outcome it returns
    what it handed to [PrintResult], the output of the plugin: [None] when it
    did not get there. *)
Definition Add (nb : Builder) (args : config.CmdArgs.t)
  : Host -> result unit * option cniTypesCurrent.Result.t * Host :=
  fun w =>
    match config.New args with
    | Err err => (Err (ErrorfV "failed to parse config: %v" [] err), None, w)
    | Panic => (Panic, None, w)
    | Ok netConfig =>
        let nw := addNetworkOf netConfig in
        match FindOrCreateNetwork nb nw w with
        | (Err err, _, w) =>
            (Err (ErrorfV "failed to create/find network: %v" [] err), None, w)
        | (Panic, _, w) => (Panic, None, w)
        | (Ok _, nw, w) =>
            let ep := endpointOf netConfig args in
            match FindOrCreateEndpoint nb nw ep w with
            | (Err err, _, _, w) =>
                (Err (ErrorfV "failed to create/find endpoint: %v" [] err), None, w)
            | (Panic, _, _, w) => (Panic, None, w)
            | (Ok _, nw, ep, w) =>
                match resultOf args nw ep with
                | None => (Panic, None, w)
                | Some result =>
                    (cniTypesCurrent.PrintResult result
                       (config.NetConf.CNIVersion (config.NetConfig.NetConf netConfig)),
                     Some result, w)
                end
            end
        end
    end.

End AddHandler.
End Plugin.

(** ** Package [netutils] *)
Module netutils.

Definition routeCommand : string := "route".
Definition routeAddCommand : string := "add".
Definition routeDeleteCommand : string := "delete".
Definition routeCommandMask : string := "mask".
Definition routeCommandInterface : string := "if".

(** The byte [n], for [0 <= n < 256]. *)
Definition byte (n : Z) : ascii := ascii_of_N (Z.to_N n).

(** The constants of UTF-8 encoding. *)
Definition RuneError : Z := 65533.
Definition MaxRune : Z := 1114111.
Definition surrogateMin : Z := 55296.
Definition surrogateMax : Z := 57343.

(** The UTF-8 encoding of the code point [r], for [0 <= r <= MaxRune]. *)
Definition encodeRune (r : Z) : string :=
  if (r <=? 127)%Z then
    String (byte r) ""
  else if (r <=? 2047)%Z then
    String (byte (Z.lor 192 (Z.shiftr r 6)))
      (String (byte (Z.lor 128 (Z.land r 63))) "")
  else if (r <=? 65535)%Z then
    String (byte (Z.lor 224 (Z.shiftr r 12)))
      (String (byte (Z.lor 128 (Z.land (Z.shiftr r 6) 63)))
         (String (byte (Z.lor 128 (Z.land r 63))) ""))
  else
    String (byte (Z.lor 240 (Z.shiftr r 18)))
      (String (byte (Z.lor 128 (Z.land (Z.shiftr r 12) 63)))
         (String (byte (Z.lor 128 (Z.land (Z.shiftr r 6) 63)))
            (String (byte (Z.lor 128 (Z.land r 63))) ""))).

(** The Go conversion [string(i)] of an [int]: the UTF-8 encoding of the code
    point [i], and that of [RuneError] when [i] is not a valid code point. *)
Definition string_of_int (i : Z) : string :=
  if (i <? 0)%Z || (MaxRune <? i)%Z || ((surrogateMin <=? i)%Z && (i <=? surrogateMax)%Z)
  then encodeRune RuneError
  else encodeRune i.

Section Methods.
Context `{NetLib}.

(** [generateCommandArgs] generates the command arguments based on the input
    provided.  The pointers are options; [Panic] is the dereference of a nil
    [destination] or [subnetMask]. *)
Definition generateCommandArgs (destination subnetMask gateway : option IP)
    (interfaceNum : option Z) : result (list string) :=
  match destination, subnetMask with
  | Some destination, Some subnetMask =>
      let commandArgs :=
        [routeDeleteCommand; IP_String destination; routeCommandMask; IP_String subnetMask] in
      let commandArgs :=
        match gateway with
        | Some gateway => (commandArgs ++ [IP_String gateway])%list
        | None => commandArgs
        end in
      let commandArgs :=
        match interfaceNum with
        | Some interfaceNum =>
            ((commandArgs ++ [routeCommandInterface]) ++ [string_of_int interfaceNum])%list
        | None => commandArgs
        end in
      Ok commandArgs
  | _, _ => Panic
  end.

(** [AddRoute] adds a route entry in the routing table.  [errors.New] makes
    the error of the given text. *)
Definition AddRoute (destination subnetMask gateway : option IP) (interfaceNum : option Z)
  : M unit :=
  fun w =>
    match destination, subnetMask, gateway with
    | Some _, Some _, Some _ =>
        match generateCommandArgs destination subnetMask gateway interfaceNum with
        | Ok commandArgs => exec_Command_Run routeAddCommand commandArgs w
        | Err err => (Err err, w)
        | Panic => (Panic, w)
        end
    | _, _, _ => (Err (Errorf "unable to delete route due to invalid arguments" []), w)
    end.

(** [DeleteRoute] deletes a route entry from the routing table. *)
Definition DeleteRoute (destination subnetMask gateway : option IP) : M unit :=
  fun w =>
    match destination, subnetMask with
    | Some _, Some _ =>
        match generateCommandArgs destination subnetMask gateway None with
        | Ok commandArgs => exec_Command_Run routeCommand commandArgs w
        | Err err => (Err err, w)
        | Panic => (Panic, w)
        end
    | _, _ => (Err (Errorf "unable to delete route due to invalid arguments" []), w)
    end.

End Methods.
End netutils.

(** ** A small host to run the code on

    An instance of the library parameters in which addresses are their own
    text, and a decoder that knows the configurations of the examples. *)
Module Demo.

#[global] Instance types : NetTypes :=
  {| IP := string; IPMask := Z; HardwareAddr := string |}.

#[global] Instance lib : NetLib :=
  {| IP_String := fun ip => ip;
     IPNet_String := fun n =>
       match IPNet_IP n with Some ip => ip | None => "<nil>" end
       ++ "/" ++ NilZero.string_of_int (Z.to_int (IPNet_Mask n));
     HardwareAddr_String := fun mac => mac;
     IPMask_Size := fun m => m;
     CIDRMask := fun ones _ => ones;
     ParseMAC := fun s => if String.eqb s "" then None else Some s;
     ParseIP := fun s => if String.eqb s "" then None else Some s;
     GetSubnetPrefix := fun n => n;
     GetIPAddressFromString := fun s =>
       if String.eqb s "" then Err (Errorf "invalid IP address" [])
       else Ok {| IPNet_IP := Some s; IPNet_Mask := 24%Z |} |}.

(** The configuration of a task on ENI [eni0]. *)
Definition taskConfig : config.netConfigJSON.t :=
  {| config.netConfigJSON.NetConf := config.NetConf.mk "0.3.0" "vpc-eni" [] [];
     config.netConfigJSON.ENIName := "eni0";
     config.netConfigJSON.ENIMACAddress := "02:00:00:00:00:01";
     config.netConfigJSON.ENIIPAddress := "10.0.0.5";
     config.netConfigJSON.GatewayIPAddress := "";
     config.netConfigJSON.NoInfraContainer := false;
     config.netConfigJSON.UseExistingNetwork := false |}.

#[global] Instance pluginLib : config.PluginLib :=
  {| config.json_Unmarshal := fun s =>
       if String.eqb s "task" then Ok taskConfig
       else Err (Errorf "unexpected end of JSON input" []);
     config.NewENI := fun linkName mac =>
       match mac with
       | None =>
           if String.eqb linkName "" then None
           else Some {| eni.GetLinkName := linkName; eni.GetMACAddress := mac |}
       | Some _ => Some {| eni.GetLinkName := linkName; eni.GetMACAddress := mac |}
       end |}.

Definition noFaults : list Call.t -> Call.t -> option error := fun _ _ => None.

(** A host with a supported HNS, no HNS object, no namespace, no container,
    and the management interface of [eni0] up. *)
Definition emptyHost : Host :=
  {| hnsGlobals := hcsshim.HNSVersion.mk 9 5;
     hnsNetworks := [];
     hnsEndpoints := [];
     namespaces := [];
     computeSystems := [];
     interfaces := [("vEthernet (eni0)", "up|broadcast|multicast")];
     created := 0;
     faults := noFaults;
     trace := [] |}.

Definition eni0 : eni.ENI :=
  {| eni.GetLinkName := "eni0"; eni.GetMACAddress := Some "02:00:00:00:00:01" |}.

(** The name that both builders derive from [eni0]. *)
Definition networkName : string := "task-br-020000000001".

(** The network descriptor of a task on [eni0], as [Add] hands it to
    [NetBuilder]. *)
Definition network : NetBuilder.Network.t :=
  {| NetBuilder.Network.Name := "vpc-eni";
     NetBuilder.Network.ENI := Some eni0;
     NetBuilder.Network.IPAddress := Some {| IPNet_IP := Some "10.0.0.5"; IPNet_Mask := 24%Z |};
     NetBuilder.Network.GatewayIPAddress := Some "10.0.0.1";
     NetBuilder.Network.DNSServers := ["10.0.0.2"];
     NetBuilder.Network.DNSSuffixSearchList := [];
     NetBuilder.Network.ShouldExist := false |}.

(** The same network when the caller requires it to exist already. *)
Definition existingNetwork : NetBuilder.Network.t :=
  NetBuilder.Network.with_ShouldExist true (NetBuilder.Network.with_Name networkName network).

(** The network descriptor that [netBuilder.FindOrCreateNetwork] leaves
    behind for [netBuilder.FindOrCreateEndpoint]. *)
Definition namedNetwork : netBuilder.Network.t :=
  {| netBuilder.Network.Name := networkName;
     netBuilder.Network.ENI := Some eni0;
     netBuilder.Network.IPAddress := Some {| IPNet_IP := Some "10.0.0.5"; IPNet_Mask := 24%Z |};
     netBuilder.Network.GatewayIPAddress := Some "10.0.0.1";
     netBuilder.Network.DNSServers := ["10.0.0.2"];
     netBuilder.Network.DNSSuffixSearchList := [];
     netBuilder.Network.UseExisting := false |}.

(** The endpoints of an infra container, of a container that shares its
    netns, and of an HCS namespace. *)
Definition infraEndpoint : netBuilder.Endpoint.t :=
  {| netBuilder.Endpoint.ContainerID := "c1";
     netBuilder.Endpoint.NetNSName := "none";
     netBuilder.Endpoint.IPAddress := Some {| IPNet_IP := Some "10.0.0.5"; IPNet_Mask := 24%Z |};
     netBuilder.Endpoint.MACAddress := Some "02:00:00:00:00:01" |}.

Definition sharedEndpoint : netBuilder.Endpoint.t :=
  {| netBuilder.Endpoint.ContainerID := "c2";
     netBuilder.Endpoint.NetNSName := "container:c1";
     netBuilder.Endpoint.IPAddress := Some {| IPNet_IP := Some "10.0.0.5"; IPNet_Mask := 24%Z |};
     netBuilder.Endpoint.MACAddress := Some "02:00:00:00:00:01" |}.

Definition namespaceEndpoint : netBuilder.Endpoint.t :=
  {| netBuilder.Endpoint.ContainerID := "c3";
     netBuilder.Endpoint.NetNSName := "ns-42";
     netBuilder.Endpoint.IPAddress := Some {| IPNet_IP := Some "10.0.0.5"; IPNet_Mask := 24%Z |};
     netBuilder.Endpoint.MACAddress := Some "02:00:00:00:00:01" |}.

(** A host whose HNS is older than the minimum version and already holds the
    network of [eni0]. *)
Definition oldHost : Host :=
  {| hnsGlobals := hcsshim.HNSVersion.mk 6 0;
     hnsNetworks := [hcsshim.HNSNetwork.mk "id-0" networkName "Transparent" "eni0" []];
     hnsEndpoints := [];
     namespaces := [];
     computeSystems := [];
     interfaces := [];
     created := 1;
     faults := noFaults;
     trace := [] |}.

(** A supported host that already holds the network of [eni0]. *)
Definition hostWithNetwork : Host :=
  {| hnsGlobals := hcsshim.HNSVersion.mk 9 5;
     hnsNetworks := [hcsshim.HNSNetwork.mk "id-0" networkName "Transparent" "eni0" []];
     hnsEndpoints := [];
     namespaces := [];
     computeSystems := [];
     interfaces := [];
     created := 1;
     faults := noFaults;
     trace := [] |}.

(** The empty host without the management interface of [eni0]. *)
Definition hostWithoutInterface : Host :=
  {| hnsGlobals := hcsshim.HNSVersion.mk 9 5;
     hnsNetworks := [];
     hnsEndpoints := [];
     namespaces := [];
     computeSystems := [];
     interfaces := [];
     created := 0;
     faults := noFaults;
     trace := [] |}.

(** The empty host with the running container [c1], and with the empty HCS
    namespace [ns-42]. *)
Definition hostWithContainer : Host :=
  with_computeSystems [("c1", [])] emptyHost.

Definition hostWithNamespace : Host :=
  with_namespaces [("ns-42", [])] emptyHost.

(** [hostWithNamespace] after the ADD of [namespaceEndpoint]. *)
Definition hostWithNamespaceEndpoint : Host :=
  snd (netBuilder.FindOrCreateEndpoint namedNetwork namespaceEndpoint hostWithNamespace).

(** A namespace that already holds some other endpoint. *)
Definition hostWithBusyNamespace : Host :=
  with_namespaces [("ns-42", ["id-7"])] emptyHost.

(** The descriptors of the infra container [c1] as [Add] hands them to
    [NetBuilder.FindOrCreateEndpoint]. *)
Definition namedNetworkV1 : NetBuilder.Network.t :=
  NetBuilder.Network.with_Name networkName network.

Definition infraEndpointV1 : NetBuilder.Endpoint.t :=
  {| NetBuilder.Endpoint.ContainerID := "c1";
     NetBuilder.Endpoint.NetNSName := "none";
     NetBuilder.Endpoint.IPAddress := Some {| IPNet_IP := Some "10.0.0.5"; IPNet_Mask := 24%Z |};
     NetBuilder.Endpoint.MACAddress := Some "02:00:00:00:00:01";
     NetBuilder.Endpoint.NoInfraContainer := false |}.

(** The arguments of a DEL for the infra container [c1] and for the
    container [c2] that shares its netns. *)
Definition infraArgs : config.CmdArgs.t :=
  config.CmdArgs.mk "c1" "none" "eth0" "" "task".

Definition sharedArgs : config.CmdArgs.t :=
  config.CmdArgs.mk "c2" "container:c1" "eth0" "" "task".

(** A printer that knows one version of the CNI format. *)
#[global] Instance cniLib : cniTypesCurrent.CNILib :=
  {| cniTypesCurrent.PrintResult := fun _ version =>
       if String.eqb version "0.3.0" then Ok tt
       else Err (Errorf "unsupported CNI result version %q" [version]) |}.

Definition policyTypeName (t : hcsshim.Policy.PolicyType) : string :=
  match t with
  | hcsshim.Policy.Route => "ROUTE"
  | hcsshim.Policy.OutboundNat => "OutBoundNAT"
  | hcsshim.Policy.PolicyType_of name => name
  end.

(** An outbound NAT policy is its [Policy] and its exceptions; the encoder
    writes the type of a policy and its payload. *)
#[global] Instance policyLib : hnswrapper.PolicyLib :=
  {| hnswrapper.HnsOutboundNATPolicy := (hcsshim.Policy.t * list string)%type;
     hnswrapper.HnsOutboundNATPolicy_with_Policy := fun p o => (p, snd o);
     hnswrapper.json_Marshal_HnsRoutePolicy := fun r =>
       Ok ("route:" ++ policyTypeName (hcsshim.Policy.Type_ (hnswrapper.HnsRoutePolicy.Policy r))
           ++ ":" ++ hnswrapper.HnsRoutePolicy.DestinationPrefix r);
     hnswrapper.json_Marshal_HnsOutboundNATPolicy := fun o =>
       Ok ("nat:" ++ policyTypeName (hcsshim.Policy.Type_ (fst o))
           ++ ":" ++ String.concat "," (snd o)) |}.

(** A route policy as a caller builds it, without a type. *)
Definition routePolicy : hnswrapper.PolicyValue :=
  hnswrapper.HnsRoutePolicy_value
    {| hnswrapper.HnsRoutePolicy.Policy := hcsshim.Policy.mk (hcsshim.Policy.PolicyType_of "");
       hnswrapper.HnsRoutePolicy.DestinationPrefix := "10.0.0.0/8";
       hnswrapper.HnsRoutePolicy.NeedEncap := false |}.

Definition natPolicy : hnswrapper.PolicyValue :=
  hnswrapper.HnsOutboundNATPolicy_value
    (hcsshim.Policy.mk (hcsshim.Policy.PolicyType_of ""), ["10.0.0.0/16"; "169.254.0.0/16"]).

(** The configuration of a task that reuses the network [vpc-eni] and names
    no address. *)
Definition reuseConfig : config.netConfigJSON.t :=
  {| config.netConfigJSON.NetConf := config.NetConf.mk "0.3.0" "vpc-eni" [] [];
     config.netConfigJSON.ENIName := "";
     config.netConfigJSON.ENIMACAddress := "";
     config.netConfigJSON.ENIIPAddress := "";
     config.netConfigJSON.GatewayIPAddress := "";
     config.netConfigJSON.NoInfraContainer := false;
     config.netConfigJSON.UseExistingNetwork := true |}.

(** The arguments of an invocation whose netns is neither empty, nor
    ["none"], nor a reference to a container. *)
Definition namespaceArgs : config.CmdArgs.t :=
  config.CmdArgs.mk "c3" "ns-42" "eth0" "" "task".

(** [hostWithContainer] after the ADD of the infra container [c1]: the
    network and the endpoint of the task are there. *)
Definition hostAfterAdd : Host :=
  snd (Plugin.Add Plugin.windowsBuilder infraArgs hostWithContainer).

(** [hostAfterAdd] once the container [c1] has stopped. *)
Definition hostAfterStop : Host := with_computeSystems [] hostAfterAdd.

(** A decoder that knows the configuration [reuse] as well. *)
Definition reusePluginLib : config.PluginLib :=
  {| config.json_Unmarshal := fun s =>
       if String.eqb s "reuse" then Ok reuseConfig
       else config.json_Unmarshal s;
     config.NewENI := config.NewENI |}.

(** The arguments of an invocation with the configuration [reuse]. *)
Definition reuseArgs : config.CmdArgs.t :=
  config.CmdArgs.mk "c1" "none" "eth0" "" "reuse".

End Demo.


(** ** Reading a run

    The predicates over calls and traces in which the properties below are
    stated. *)
Section Observations.
Context `{NetLib}.

(** From [w] to [w'] the trace grew by calls that all satisfy [P]. *)
Definition appends (P : Call.t -> bool) (w w' : Host) : Prop :=
  exists l, trace w' = (trace w ++ l)%list /\ forallb P l = true.

Definition is_InterfaceByName (c : Call.t) : bool :=
  match c with Call.InterfaceByName _ => true | _ => false end.
Definition is_Command_Run (c : Call.t) : bool :=
  match c with Call.Command_Run _ _ => true | _ => false end.
Definition is_GetHNSNetworkByName (c : Call.t) : bool :=
  match c with Call.GetHNSNetworkByName _ => true | _ => false end.
Definition is_HNSNetworkRequest_POST (c : Call.t) : bool :=
  match c with Call.HNSNetworkRequest_POST _ => true | _ => false end.
Definition is_HNSNetworkRequest_DELETE (c : Call.t) : bool :=
  match c with Call.HNSNetworkRequest_DELETE _ => true | _ => false end.
Definition is_HNSEndpointRequest_POST (c : Call.t) : bool :=
  match c with Call.HNSEndpointRequest_POST _ => true | _ => false end.
Definition is_HNSEndpointRequest_DELETE (c : Call.t) : bool :=
  match c with Call.HNSEndpointRequest_DELETE _ => true | _ => false end.

(** The calls that address an HNS network. *)
Definition is_network_call (c : Call.t) : bool :=
  is_GetHNSNetworkByName c || is_HNSNetworkRequest_POST c || is_HNSNetworkRequest_DELETE c.

(** The calls of the interface-disabling step. *)
Definition is_disable_call (c : Call.t) : bool :=
  is_InterfaceByName c || is_Command_Run c.

(** The calls that address an HNS endpoint or its attachment. *)
Definition is_endpoint_call (c : Call.t) : bool :=
  match c with
  | Call.GetHNSEndpointByName _ | Call.HNSEndpointRequest_POST _
  | Call.HNSEndpointRequest_DELETE _ | Call.HotAttachEndpoint _ _
  | Call.HotDetachEndpoint _ _ | Call.GetNamespaceEndpointIds _
  | Call.AddNamespaceEndpoint _ _ | Call.RemoveNamespaceEndpoint _ _ => true
  | _ => false
  end.

(** The creation request that [FindOrCreateHNSNetwork] sends for the
    descriptor [nw] named [name]. *)
Definition creationRequest (name : string) (nw : NetBuilder.Network.t) : hcsshim.HNSNetwork.t :=
  {| hcsshim.HNSNetwork.Id := "";
     hcsshim.HNSNetwork.Name := name;
     hcsshim.HNSNetwork.Type_ := "Transparent";
     hcsshim.HNSNetwork.NetworkAdapterName :=
       match NetBuilder.Network.ENI nw with
       | Some e => eni.GetLinkName e
       | None => ""
       end;
     hcsshim.HNSNetwork.Subnets :=
       [ {| hcsshim.Subnet.AddressPrefix :=
              match NetBuilder.Network.IPAddress nw with
              | Some ip => IPNet_String (GetSubnetPrefix ip)
              | None => ""
              end;
            hcsshim.Subnet.GatewayAddress :=
              match NetBuilder.Network.GatewayIPAddress nw with
              | Some gw => IP_String gw
              | None => ""
              end |} ] |}.

(** The fault script of [w] is silent: a call fails only for what the tables
    hold. *)
Definition quiet (w : Host) : Prop := forall tr c, faults w tr c = None.

(** The calls that run the program [name]. *)
Definition runs_program (name : string) (c : Call.t) : bool :=
  match c with
  | Call.Command_Run program _ => String.eqb program name
  | _ => false
  end.

(** The decimal numeral of [n], as [strconv.Itoa] writes it. *)
Definition decimal (n : Z) : string := NilZero.string_of_int (Z.to_int n).

(** The character [c] occurs in [s]. *)
Fixpoint occurs (c : ascii) (s : string) : bool :=
  match s with
  | EmptyString => false
  | String c' rest => Ascii.eqb c' c || occurs c rest
  end.

(** [a] is at most [b] in the order of versions: by [Major], then by
    [Minor]. *)
Definition version_le (a b : hcsshim.HNSVersion.t) : Prop :=
  (hcsshim.HNSVersion.Major a < hcsshim.HNSVersion.Major b
   \/ (hcsshim.HNSVersion.Major a = hcsshim.HNSVersion.Major b
       /\ hcsshim.HNSVersion.Minor a <= hcsshim.HNSVersion.Minor b))%Z.

(** The calls of the network step: the version query, the calls that address
    a network, the calls of the interface-disabling step. *)
Definition is_network_step_call (c : Call.t) : bool :=
  match c with
  | Call.GetHNSGlobals => true
  | _ => is_network_call c || is_disable_call c
  end.

(** The characters up to ['9'] in the ASCII table, among them the digits
    and the sign. *)
Definition digit_or_sign (c : ascii) : bool := (N_of_ascii c <=? 57)%N.

(** The descriptors of [NetBuilder] as [netBuilder] has them: [ShouldExist]
    is [UseExisting], and the endpoint has no [NoInfraContainer]. *)
Definition Network_v2 (nw : NetBuilder.Network.t) : netBuilder.Network.t :=
  {| netBuilder.Network.Name := NetBuilder.Network.Name nw;
     netBuilder.Network.ENI := NetBuilder.Network.ENI nw;
     netBuilder.Network.IPAddress := NetBuilder.Network.IPAddress nw;
     netBuilder.Network.GatewayIPAddress := NetBuilder.Network.GatewayIPAddress nw;
     netBuilder.Network.DNSServers := NetBuilder.Network.DNSServers nw;
     netBuilder.Network.DNSSuffixSearchList := NetBuilder.Network.DNSSuffixSearchList nw;
     netBuilder.Network.UseExisting := NetBuilder.Network.ShouldExist nw |}.

Definition Endpoint_v2 (ep : NetBuilder.Endpoint.t) : netBuilder.Endpoint.t :=
  {| netBuilder.Endpoint.ContainerID := NetBuilder.Endpoint.ContainerID ep;
     netBuilder.Endpoint.NetNSName := NetBuilder.Endpoint.NetNSName ep;
     netBuilder.Endpoint.IPAddress := NetBuilder.Endpoint.IPAddress ep;
     netBuilder.Endpoint.MACAddress := NetBuilder.Endpoint.MACAddress ep |}.

(** [NoInfraContainer] says what the netns says: it is set exactly when the
    netns is neither empty, nor ["none"], nor a reference to a container. *)
Definition flag_matches_netns (ep : NetBuilder.Endpoint.t) : bool :=
  Bool.eqb (NetBuilder.Endpoint.NoInfraContainer ep)
           (netBuilder.NSType_eqb (fst (netBuilder.getNamespaceIdentifier (Endpoint_v2 ep)))
                                  netBuilder.hcsNamespace).

End Observations.

(** What the properties of [CreatePolicy] are stated in. *)
Section PolicyObservations.
Context `{NetTypes} `{!hnswrapper.PolicyLib}.


(** Calling [CreatePolicy] on each policy in turn, until one fails. *)
Definition createPolicies (ep : hnswrapper.HNSEndpoint.t) (policies : list hnswrapper.PolicyValue)
  : result unit * hnswrapper.HNSEndpoint.t :=
  fold_left (fun acc policy =>
               match acc with
               | (Ok _, ep) => hnswrapper.CreatePolicy ep policy
               | failed => failed
               end) policies (Ok tt, ep).

End PolicyObservations.

(** Unfolds the calls of the host down to the tables and the fault script. *)
Ltac run_call :=
  unfold hcsshim_GetHNSGlobals, hcsshim_GetHNSNetworkByName, hcsshim_HNSNetworkRequest_POST,
    hcsshim_HNSNetworkRequest_DELETE, hcsshim_GetHNSEndpointByName,
    hcsshim_HNSEndpointRequest_POST, hcsshim_HNSEndpointRequest_DELETE,
    hcsshim_HotAttachEndpoint, hcsshim_HotDetachEndpoint, hcn_GetNamespaceEndpointIds,
    hcn_AddNamespaceEndpoint, hcn_RemoveNamespaceEndpoint, net_InterfaceByName,
    exec_Command_Run, host_call in *.

(** * Properties *)

(** ** Strings *)

Lemma string_drop_app (p s : string) : string_drop p (p ++ s) = s.
Proof. induction p as [|c p IH]; simpl; auto. Qed.

Lemma prefix_app (p s : string) : String.prefix p (p ++ s) = true.
Proof.
  induction p as [|c p IH]; simpl.
  - destruct s; reflexivity.
  - destruct (ascii_dec c c) as [_|n]; [exact IH | now elim n].
Qed.

Lemma strings_TrimPrefix_app (p s : string) : strings_TrimPrefix (p ++ s) p = s.
Proof.
  unfold strings_TrimPrefix, strings_HasPrefix.
  now rewrite prefix_app, string_drop_app.
Qed.

(** A netns that carries the container prefix is neither empty nor
    ["none"]. *)
Lemma containerPrefix_not_infra (ns : string) :
  strings_HasPrefix ns NetBuilder.containerPrefix = true ->
  String.eqb ns "" || String.eqb ns "none" = false.
Proof.
  intros Hp. apply orb_false_iff; split; apply String.eqb_neq; intros ->; discriminate Hp.
Qed.

(** ** The trace *)
Section TraceLemmas.
Context `{NetTypes}.

Lemma skipn_length_app {A} (l l' : list A) : skipn (List.length l) (l ++ l') = l'.
Proof. induction l; simpl; auto. Qed.

(** What [m] issues is what it appends to the trace. *)
Lemma issued_app {R} (m : Host -> R * Host) (w : Host) (l : list Call.t) :
  trace (snd (m w)) = (trace w ++ l)%list -> issued m w = l.
Proof. unfold issued; intros ->; apply skipn_length_app. Qed.

Lemma issued_nil {R} (m : Host -> R * Host) (w : Host) :
  trace (snd (m w)) = trace w -> issued m w = [].
Proof. intros E; apply issued_app; now rewrite app_nil_r. Qed.

(** A host call appends itself to the trace, whatever its answer. *)
Lemma host_call_trace {A} (c : Call.t) (run : M A) (w : Host) :
  (forall w', trace (snd (run w')) = trace w') ->
  trace (snd (host_call c run w)) = (trace w ++ [c])%list.
Proof.
  intros Hrun; unfold host_call.
  destruct (faults w (trace w) c); simpl; [reflexivity|].
  now rewrite Hrun.
Qed.

Ltac trace_of_call :=
  intros; apply host_call_trace; intros w';
  repeat match goal with
         | |- context [match ?x with _ => _ end] => destruct x
         end; reflexivity.

Lemma GetHNSGlobals_trace w :
  trace (snd (hcsshim_GetHNSGlobals w)) = (trace w ++ [Call.GetHNSGlobals])%list.
Proof. revert w; trace_of_call. Qed.

Lemma GetHNSNetworkByName_trace name w :
  trace (snd (hcsshim_GetHNSNetworkByName name w))
  = (trace w ++ [Call.GetHNSNetworkByName name])%list.
Proof. revert w; trace_of_call. Qed.

Lemma HNSNetworkRequest_POST_trace request w :
  trace (snd (hcsshim_HNSNetworkRequest_POST request w))
  = (trace w ++ [Call.HNSNetworkRequest_POST request])%list.
Proof. revert w; trace_of_call. Qed.

Lemma HNSNetworkRequest_DELETE_trace id w :
  trace (snd (hcsshim_HNSNetworkRequest_DELETE id w))
  = (trace w ++ [Call.HNSNetworkRequest_DELETE id])%list.
Proof. revert w; trace_of_call. Qed.

Lemma GetHNSEndpointByName_trace name w :
  trace (snd (hcsshim_GetHNSEndpointByName name w))
  = (trace w ++ [Call.GetHNSEndpointByName name])%list.
Proof. revert w; trace_of_call. Qed.

Lemma HNSEndpointRequest_POST_trace request w :
  trace (snd (hcsshim_HNSEndpointRequest_POST request w))
  = (trace w ++ [Call.HNSEndpointRequest_POST request])%list.
Proof. revert w; trace_of_call. Qed.

Lemma HNSEndpointRequest_DELETE_trace id w :
  trace (snd (hcsshim_HNSEndpointRequest_DELETE id w))
  = (trace w ++ [Call.HNSEndpointRequest_DELETE id])%list.
Proof. revert w; trace_of_call. Qed.

Lemma HotAttachEndpoint_trace c e w :
  trace (snd (hcsshim_HotAttachEndpoint c e w))
  = (trace w ++ [Call.HotAttachEndpoint c e])%list.
Proof. revert w; trace_of_call. Qed.

Lemma HotDetachEndpoint_trace c e w :
  trace (snd (hcsshim_HotDetachEndpoint c e w))
  = (trace w ++ [Call.HotDetachEndpoint c e])%list.
Proof. revert w; trace_of_call. Qed.

Lemma GetNamespaceEndpointIds_trace ns w :
  trace (snd (hcn_GetNamespaceEndpointIds ns w))
  = (trace w ++ [Call.GetNamespaceEndpointIds ns])%list.
Proof. revert w; trace_of_call. Qed.

Lemma AddNamespaceEndpoint_trace ns e w :
  trace (snd (hcn_AddNamespaceEndpoint ns e w))
  = (trace w ++ [Call.AddNamespaceEndpoint ns e])%list.
Proof. revert w; trace_of_call. Qed.

Lemma RemoveNamespaceEndpoint_trace ns e w :
  trace (snd (hcn_RemoveNamespaceEndpoint ns e w))
  = (trace w ++ [Call.RemoveNamespaceEndpoint ns e])%list.
Proof. revert w; trace_of_call. Qed.

Lemma InterfaceByName_trace name w :
  trace (snd (net_InterfaceByName name w)) = (trace w ++ [Call.InterfaceByName name])%list.
Proof. revert w; trace_of_call. Qed.

Lemma Command_Run_trace name args w :
  trace (snd (exec_Command_Run name args w)) = (trace w ++ [Call.Command_Run name args])%list.
Proof. revert w; trace_of_call. Qed.

End TraceLemmas.

(** ** The namespace classifiers *)
Section Classifier.
Context `{NetLib}.

(** C4.  For every namespace reference and container identifier,
    [getNamespaceIdentifier] yields the infra type with the container
    identifier when the reference is empty or ["none"], the non-infra
    (shared) type with the suffix when the reference is ["container:"]
    followed by a suffix, and the HCS namespace type with the reference
    itself in every other case. *)
Theorem getNamespaceIdentifier_classifies (ep : netBuilder.Endpoint.t) :
  let ns := netBuilder.Endpoint.NetNSName ep in
  (ns = "" \/ ns = "none" ->
   netBuilder.getNamespaceIdentifier ep
   = (netBuilder.infraContainerNS, netBuilder.Endpoint.ContainerID ep))
  /\ (forall suffix, ns = "container:" ++ suffix ->
      netBuilder.getNamespaceIdentifier ep = (netBuilder.nonInfraContainerNS, suffix))
  /\ (ns <> "" -> ns <> "none" -> strings_HasPrefix ns "container:" = false ->
      netBuilder.getNamespaceIdentifier ep = (netBuilder.hcsNamespace, ns)).
Proof.
  intros ns; unfold netBuilder.getNamespaceIdentifier; fold ns.
  split; [|split].
  - intros [-> | ->]; reflexivity.
  - intros suffix ->.
    change ("container:" ++ suffix) with (netBuilder.containerPrefix ++ suffix).
    rewrite strings_TrimPrefix_app.
    unfold strings_HasPrefix; rewrite prefix_app. reflexivity.
  - intros Hempty Hnone Hprefix.
    apply String.eqb_neq in Hempty, Hnone.
    rewrite Hempty, Hnone; simpl.
    unfold netBuilder.containerPrefix, NetBuilder.containerPrefix.
    now rewrite Hprefix.
Qed.

(** The same three cases seen from the side of the result: the type alone
    tells which rule applied. *)
Lemma getNamespaceIdentifier_inv (ep : netBuilder.Endpoint.t) :
  let ns := netBuilder.Endpoint.NetNSName ep in
  match fst (netBuilder.getNamespaceIdentifier ep) with
  | netBuilder.infraContainerNS => ns = "" \/ ns = "none"
  | netBuilder.nonInfraContainerNS => strings_HasPrefix ns "container:" = true
  | netBuilder.hcsNamespace =>
      ns <> "" /\ ns <> "none" /\ strings_HasPrefix ns "container:" = false
  end.
Proof.
  intros ns; unfold netBuilder.getNamespaceIdentifier; fold ns.
  destruct (String.eqb_spec ns ""); simpl; [now left|].
  destruct (String.eqb_spec ns "none"); simpl; [now right|].
  unfold netBuilder.containerPrefix, NetBuilder.containerPrefix.
  destruct (strings_HasPrefix ns "container:") eqn:E; simpl; auto.
Qed.

(** C5.  A namespace reference that is not empty, not ["none"] and does not
    carry the ["container:"] prefix makes [getInfraContainerID] fail, and
    [FindOrCreateEndpoint] and [DeleteEndpoint], which call it when there is
    an infra container, return that error to their caller without a call to
    the host. *)
Theorem getInfraContainerID_rejects (ep : NetBuilder.Endpoint.t) :
  let ns := NetBuilder.Endpoint.NetNSName ep in
  ns <> "" -> ns <> "none" -> strings_HasPrefix ns "container:" = false ->
  NetBuilder.getInfraContainerID ep = Err (Errorf "failed to parse netns %s" [ns])
  /\ (NetBuilder.Endpoint.NoInfraContainer ep = false ->
      (forall nw w,
         NetBuilder.FindOrCreateEndpoint nw ep w
         = (Err (Errorf "failed to parse netns %s" [ns]), nw, ep, w))
      /\ (forall nw w name,
            NetBuilder.generateHNSNetworkName nw = Some name ->
            NetBuilder.DeleteEndpoint nw ep w
            = (Err (Errorf "failed to parse netns %s" [ns]),
               NetBuilder.Network.with_Name name nw, w))).
Proof.
  intros ns Hempty Hnone Hprefix.
  assert (E : NetBuilder.getInfraContainerID ep
              = Err (Errorf "failed to parse netns %s" [ns])).
  { unfold NetBuilder.getInfraContainerID; fold ns.
    apply String.eqb_neq in Hempty, Hnone.
    rewrite Hempty, Hnone; simpl.
    unfold NetBuilder.containerPrefix. now rewrite Hprefix. }
  split; [exact E|].
  intros Hinfra; split.
  - intros nw w. unfold NetBuilder.FindOrCreateEndpoint.
    now rewrite Hinfra, E.
  - intros nw w name Hname. unfold NetBuilder.DeleteEndpoint.
    now rewrite Hname, Hinfra, E.
Qed.

(** The first two rules of [getInfraContainerID] are those of
    [getNamespaceIdentifier]. *)
Lemma getInfraContainerID_accepts (ep : NetBuilder.Endpoint.t) :
  let ns := NetBuilder.Endpoint.NetNSName ep in
  (ns = "" \/ ns = "none" ->
   NetBuilder.getInfraContainerID ep = Ok (true, NetBuilder.Endpoint.ContainerID ep))
  /\ (forall suffix, ns = "container:" ++ suffix ->
      NetBuilder.getInfraContainerID ep = Ok (false, suffix)).
Proof.
  intros ns; unfold NetBuilder.getInfraContainerID; fold ns. split.
  - intros [-> | ->]; reflexivity.
  - intros suffix ->.
    change ("container:" ++ suffix) with (NetBuilder.containerPrefix ++ suffix).
    rewrite strings_TrimPrefix_app.
    unfold strings_HasPrefix; rewrite prefix_app. reflexivity.
Qed.

End Classifier.

(** [getNamespaceIdentifier] on the three shapes of reference. *)
Lemma getNamespaceIdentifier_classifies_witness :
  netBuilder.getNamespaceIdentifier (netBuilder.Endpoint.mk "c1" "none" None None)
  = (netBuilder.infraContainerNS, "c1")
  /\ netBuilder.getNamespaceIdentifier (netBuilder.Endpoint.mk "c2" "container:c1" None None)
     = (netBuilder.nonInfraContainerNS, "c1")
  /\ netBuilder.getNamespaceIdentifier (netBuilder.Endpoint.mk "c3" "ns-42" None None)
     = (netBuilder.hcsNamespace, "ns-42").
Proof.
  split; [|split].
  - apply (proj1 (getNamespaceIdentifier_classifies
                    (netBuilder.Endpoint.mk "c1" "none" None None))).
    right; reflexivity.
  - apply (proj1 (proj2 (getNamespaceIdentifier_classifies
                           (netBuilder.Endpoint.mk "c2" "container:c1" None None)))).
    reflexivity.
  - apply (proj2 (proj2 (getNamespaceIdentifier_classifies
                           (netBuilder.Endpoint.mk "c3" "ns-42" None None)))).
    + discriminate.
    + discriminate.
    + reflexivity.
Defined.

(** [getInfraContainerID] on a reference it cannot parse. *)
Lemma getInfraContainerID_rejects_witness :
  NetBuilder.getInfraContainerID (NetBuilder.Endpoint.mk "c3" "ns-42" None None false)
  = Err (Errorf "failed to parse netns %s" ["ns-42"]).
Proof.
  apply (getInfraContainerID_rejects (NetBuilder.Endpoint.mk "c3" "ns-42" None None false)).
  - discriminate.
  - discriminate.
  - reflexivity.
Defined.

(** ** Attaching to a namespace *)
Section AttachV2.
Context `{NetLib}.

Lemma alreadyInNamespace_cons (id : string) (ids : list string) :
  hnswrapper.alreadyInNamespace (id :: ids) = true.
Proof. simpl. now rewrite String.eqb_refl. Qed.

(** C10.  In namespace mode, when the namespace holds at least one endpoint,
    whichever it is, [AttachEndpoint] returns nil after the query alone; an
    add-to-namespace call is issued only if the query answered with the empty
    list. *)
Theorem AttachEndpoint_namespace_nonempty (ep : hnswrapper.HNSEndpoint.t) (w : Host) :
  let ns := hnswrapper.HCSNamespace.NetNSName (hnswrapper.HNSEndpoint.NetNS ep) in
  hnswrapper.HCSNamespace.UseNamespace (hnswrapper.HNSEndpoint.NetNS ep) = true ->
  (forall ids w1,
     hcn_GetNamespaceEndpointIds ns w = (Ok ids, w1) -> ids <> [] ->
     hnswrapper.AttachEndpoint ep w = (Ok tt, w1)
     /\ issued (hnswrapper.AttachEndpoint ep) w = [Call.GetNamespaceEndpointIds ns])
  /\ (forall n i,
        In (Call.AddNamespaceEndpoint n i) (issued (hnswrapper.AttachEndpoint ep) w) ->
        fst (hcn_GetNamespaceEndpointIds ns w) = Ok []).
Proof.
  intros ns Huse.
  assert (Hrun : hnswrapper.AttachEndpoint ep w
                 = match hcn_GetNamespaceEndpointIds ns w with
                   | (Ok [], w1) =>
                       hcn_AddNamespaceEndpoint ns (hnswrapper.HNSEndpoint.ID ep) w1
                   | (Ok (_ :: _), w1) => (Ok tt, w1)
                   | (Err err, w1) => (Err err, w1)
                   | (Panic, w1) => (Panic, w1)
                   end).
  { unfold hnswrapper.AttachEndpoint; rewrite Huse.
    unfold hnswrapper.attachEndpointV2; fold ns.
    destruct (hcn_GetNamespaceEndpointIds ns w) as [[[|id ids] | err |] w1]; try reflexivity.
    now rewrite alreadyInNamespace_cons. }
  pose proof (GetNamespaceEndpointIds_trace ns w) as Ht.
  unfold issued; rewrite Hrun.
  destruct (hcn_GetNamespaceEndpointIds ns w) as [[[|id ids] | err |] w1];
    simpl in Ht; simpl fst; split;
    try (intros ids' w1' [= <- <-] Hne); try (intros ids' w1' [=]);
    try (intros n i Hin; exfalso; simpl snd in Hin; rewrite Ht, skipn_length_app in Hin;
         destruct Hin as [Hin | []]; discriminate Hin).
  - now elim Hne.
  - reflexivity.
  - split; [reflexivity|]. simpl snd. now rewrite Ht, skipn_length_app.
Qed.

(** With an empty namespace the add call follows the query. *)
Lemma AttachEndpoint_namespace_empty (ep : hnswrapper.HNSEndpoint.t) (w w1 : Host) :
  let ns := hnswrapper.HCSNamespace.NetNSName (hnswrapper.HNSEndpoint.NetNS ep) in
  hnswrapper.HCSNamespace.UseNamespace (hnswrapper.HNSEndpoint.NetNS ep) = true ->
  hcn_GetNamespaceEndpointIds ns w = (Ok [], w1) ->
  issued (hnswrapper.AttachEndpoint ep) w
  = [Call.GetNamespaceEndpointIds ns;
     Call.AddNamespaceEndpoint ns (hnswrapper.HNSEndpoint.ID ep)].
Proof.
  intros ns Huse Hq. apply issued_app.
  unfold hnswrapper.AttachEndpoint; rewrite Huse.
  unfold hnswrapper.attachEndpointV2; fold ns. rewrite Hq; simpl.
  rewrite AddNamespaceEndpoint_trace.
  pose proof (GetNamespaceEndpointIds_trace ns w) as Ht. rewrite Hq in Ht; simpl in Ht.
  now rewrite Ht, <- app_assoc.
Qed.

End AttachV2.

(** ** What a run appends to the trace *)
Section Appends.
Context `{NetLib}.

Lemma appends_refl P w : appends P w w.
Proof. exists []; split; [now rewrite app_nil_r | reflexivity]. Qed.

Lemma appends_trans P w1 w2 w3 : appends P w1 w2 -> appends P w2 w3 -> appends P w1 w3.
Proof.
  intros (l1 & E1 & F1) (l2 & E2 & F2). exists (l1 ++ l2)%list; split.
  - now rewrite E2, E1, app_assoc.
  - now rewrite forallb_app, F1, F2.
Qed.

Lemma appends_one P w w' c :
  trace w' = (trace w ++ [c])%list -> P c = true -> appends P w w'.
Proof. intros E Pc; exists [c]; split; [exact E | simpl; now rewrite Pc]. Qed.

Lemma appends_issued {R} P (m : Host -> R * Host) w :
  appends P w (snd (m w)) -> forallb P (issued m w) = true.
Proof. intros (l & E & F). apply issued_app in E. now rewrite E. Qed.

(** [disableInterface] issues calls of the disabling step only. *)
Lemma disableInterface_appends adapterName w :
  appends is_disable_call w (snd (NetBuilder.disableInterface adapterName w)).
Proof.
  unfold NetBuilder.disableInterface.
  pose proof (InterfaceByName_trace adapterName w) as Ht.
  destruct (net_InterfaceByName adapterName w) as [[flags | err |] w1]; simpl in *;
    try (eapply appends_one; [exact Ht | reflexivity]).
  destruct (strings_EqualFold _ _).
  - eapply appends_trans; [eapply appends_one; [exact Ht | reflexivity]|].
    eapply appends_one; [apply Command_Run_trace | reflexivity].
  - eapply appends_one; [exact Ht | reflexivity].
Qed.

(** [DeleteHNSNetwork] issues a lookup and, at most, a delete request. *)
Lemma DeleteHNSNetwork_appends nw w :
  appends (fun c => is_GetHNSNetworkByName c || is_HNSNetworkRequest_DELETE c)
          w (snd (hnswrapper.DeleteHNSNetwork nw w)).
Proof.
  unfold hnswrapper.DeleteHNSNetwork.
  pose proof (GetHNSNetworkByName_trace (hnswrapper.HNSNetwork.Name nw) w) as Ht.
  destruct (hcsshim_GetHNSNetworkByName _ w) as [[n | err |] w1]; simpl in *;
    try (eapply appends_one; [exact Ht | reflexivity]).
  eapply appends_trans; [eapply appends_one; [exact Ht | reflexivity]|].
  eapply appends_one; [apply HNSNetworkRequest_DELETE_trace | reflexivity].
Qed.

Lemma appends_weaken (P Q : Call.t -> bool) w w' :
  (forall c, P c = true -> Q c = true) -> appends P w w' -> appends Q w w'.
Proof.
  intros PQ (l & E & F). exists l; split; [exact E|].
  rewrite forallb_forall in *. auto.
Qed.

Lemma CheckHNSVersion_trace v w :
  trace (snd (hnswrapper.CheckHNSVersion v w)) = (trace w ++ [Call.GetHNSGlobals])%list.
Proof.
  unfold hnswrapper.CheckHNSVersion.
  pose proof (GetHNSGlobals_trace w) as Ht.
  destruct (hcsshim_GetHNSGlobals w) as [[hv | err |] w1]; simpl in *; auto.
  destruct (negb _); exact Ht.
Qed.

End Appends.

(** ** Finding or creating the network *)
Section FindOrCreateNetwork.
Context `{NetLib}.

(** When the version check has passed and HNS answers the lookup of the
    computed name with a network, nothing else happens. *)
Lemma FindOrCreateNetwork_existing (nw : NetBuilder.Network.t) (w w1 w2 : Host)
    (name : string) (n : hcsshim.HNSNetwork.t) :
  hnswrapper.CheckHNSVersion hnswrapper.HnsDefaultMinVersion w = (Ok tt, w1) ->
  NetBuilder.generateHNSNetworkName nw = Some name ->
  hcsshim_GetHNSNetworkByName name w1 = (Ok n, w2) ->
  NetBuilder.FindOrCreateNetwork nw w = (Ok tt, NetBuilder.Network.with_Name name nw, w2)
  /\ issued (NetBuilder.FindOrCreateNetwork nw) w
     = [Call.GetHNSGlobals; Call.GetHNSNetworkByName name].
Proof.
  intros Hcheck Hname Hfind.
  pose proof (CheckHNSVersion_trace hnswrapper.HnsDefaultMinVersion w) as Ht1.
  rewrite Hcheck in Ht1; simpl in Ht1.
  pose proof (GetHNSNetworkByName_trace name w1) as Ht2.
  rewrite Hfind in Ht2; simpl in Ht2.
  assert (E : NetBuilder.FindOrCreateNetwork nw w
              = (Ok tt, NetBuilder.Network.with_Name name nw, w2)).
  { unfold NetBuilder.FindOrCreateNetwork. rewrite Hcheck, Hname.
    unfold hnswrapper.FindOrCreateHNSNetwork. simpl. now rewrite Hfind. }
  split; [exact E|]. apply issued_app. rewrite E; simpl.
  now rewrite Ht2, Ht1, <- app_assoc.
Qed.

(** The version check comes first: when it fails, [FindOrCreateNetwork] returns its
    error after the version query alone, whatever HNS holds. *)
Lemma FindOrCreateNetwork_version_check (nw : NetBuilder.Network.t) (w w1 : Host) (err : error) :
  hnswrapper.CheckHNSVersion hnswrapper.HnsDefaultMinVersion w = (Err err, w1) ->
  NetBuilder.FindOrCreateNetwork nw w = (Err err, nw, w1)
  /\ issued (NetBuilder.FindOrCreateNetwork nw) w = [Call.GetHNSGlobals].
Proof.
  intros Hcheck.
  pose proof (CheckHNSVersion_trace hnswrapper.HnsDefaultMinVersion w) as Ht.
  rewrite Hcheck in Ht; simpl in Ht.
  assert (E : NetBuilder.FindOrCreateNetwork nw w = (Err err, nw, w1)).
  { unfold NetBuilder.FindOrCreateNetwork. now rewrite Hcheck. }
  split; [exact E|]. apply issued_app. now rewrite E.
Qed.

(** C1, amended.  Once the HNS version check has passed and the name is
    computed: if HNS answers the lookup of that name with a network,
    [FindOrCreateNetwork] returns nil after the version query and the lookup
    alone, whatever [ShouldExist]; if the lookup fails and [ShouldExist] is
    set, it returns the lookup error after the same two calls; if the lookup
    fails and [ShouldExist] is not set, it issues exactly one creation
    request, which carries the name, the link name of the ENI, the subnet
    prefix and the gateway. *)
Theorem FindOrCreateNetwork_cases (nw : NetBuilder.Network.t) (w w1 : Host) (name : string) :
  hnswrapper.CheckHNSVersion hnswrapper.HnsDefaultMinVersion w = (Ok tt, w1) ->
  NetBuilder.generateHNSNetworkName nw = Some name ->
  let nw' := NetBuilder.Network.with_Name name nw in
  (forall n w2,
     hcsshim_GetHNSNetworkByName name w1 = (Ok n, w2) ->
     NetBuilder.FindOrCreateNetwork nw w = (Ok tt, nw', w2)
     /\ issued (NetBuilder.FindOrCreateNetwork nw) w
        = [Call.GetHNSGlobals; Call.GetHNSNetworkByName name])
  /\ (forall err w2,
        hcsshim_GetHNSNetworkByName name w1 = (Err err, w2) ->
        NetBuilder.Network.ShouldExist nw = true ->
        NetBuilder.FindOrCreateNetwork nw w = (Err err, nw', w2)
        /\ issued (NetBuilder.FindOrCreateNetwork nw) w
           = [Call.GetHNSGlobals; Call.GetHNSNetworkByName name])
  /\ (forall err w2,
        hcsshim_GetHNSNetworkByName name w1 = (Err err, w2) ->
        NetBuilder.Network.ShouldExist nw = false ->
        filter is_HNSNetworkRequest_POST (issued (NetBuilder.FindOrCreateNetwork nw) w)
        = [Call.HNSNetworkRequest_POST (creationRequest name nw)]).
Proof.
  intros Hcheck Hname nw'.
  pose proof (CheckHNSVersion_trace hnswrapper.HnsDefaultMinVersion w) as Ht1.
  rewrite Hcheck in Ht1; simpl in Ht1.
  pose proof (GetHNSNetworkByName_trace name w1) as Ht2.
  split; [|split].
  - intros n w2 Hfind. eapply FindOrCreateNetwork_existing; eassumption.
  - intros err w2 Hfind Hshould. rewrite Hfind in Ht2; simpl in Ht2.
    assert (E : NetBuilder.FindOrCreateNetwork nw w = (Err err, nw', w2)).
    { unfold NetBuilder.FindOrCreateNetwork. rewrite Hcheck, Hname.
      unfold hnswrapper.FindOrCreateHNSNetwork. simpl. now rewrite Hfind, Hshould. }
    split; [exact E|]. apply issued_app. rewrite E; simpl.
    now rewrite Ht2, Ht1, <- app_assoc.
  - intros err w2 Hfind Hshould. rewrite Hfind in Ht2; simpl in Ht2.
    set (req := creationRequest name nw).
    pose proof (HNSNetworkRequest_POST_trace req w2) as Ht3.
    assert (Hrest : exists l,
               trace (snd (NetBuilder.FindOrCreateNetwork nw w))
               = (trace w2 ++ Call.HNSNetworkRequest_POST req :: l)%list
               /\ forallb (fun c => negb (is_HNSNetworkRequest_POST c)) l = true).
    { unfold NetBuilder.FindOrCreateNetwork. rewrite Hcheck, Hname.
      unfold hnswrapper.FindOrCreateHNSNetwork. cbv beta iota zeta.
      change (hnswrapper.HNSNetwork.Name (NetBuilder.networkConfigOf _)) with name.
      rewrite Hfind.
      change (hnswrapper.HNSNetwork.ShouldExist (NetBuilder.networkConfigOf _))
        with (NetBuilder.Network.ShouldExist nw).
      rewrite Hshould.
      change (hcsshim_HNSNetworkRequest_POST _ w2) with (hcsshim_HNSNetworkRequest_POST req w2).
      change (NetBuilder.Network.ENI (NetBuilder.Network.with_Name name nw))
        with (NetBuilder.Network.ENI nw).
      destruct (hcsshim_HNSNetworkRequest_POST req w2) as [[resp | err' |] w3];
        cbv beta iota zeta; simpl snd in Ht3;
        try (exists []; simpl snd; now rewrite Ht3).
      simpl negb. cbv iota.
      destruct (NetBuilder.Network.ENI nw) as [e|]; [|exists []; simpl snd; now rewrite Ht3].
      pose proof (disableInterface_appends
                    (NetBuilder.vNICNameFormat (eni.GetLinkName e)) w3) as (l & El & Fl).
      destruct (NetBuilder.disableInterface _ w3) as [[[] | err' |] w4];
        cbv beta iota zeta; simpl snd in El |- *.
      - exists l. rewrite El, Ht3, <- app_assoc. split; [reflexivity|].
        rewrite forallb_forall in *. intros c Hc. specialize (Fl c Hc). now destruct c.
      - pose proof (DeleteHNSNetwork_appends
                      {| hnswrapper.HNSNetwork.Name :=
                           NetBuilder.Network.Name (NetBuilder.Network.with_Name name nw);
                         hnswrapper.HNSNetwork.Type_ := "";
                         hnswrapper.HNSNetwork.NetworkAdapterName := "";
                         hnswrapper.HNSNetwork.AddressPrefix := "";
                         hnswrapper.HNSNetwork.Gateway := "";
                         hnswrapper.HNSNetwork.ShouldExist := false |} w4)
          as (l' & El' & Fl').
        unfold NetBuilder.DeleteNetwork.
        destruct (hnswrapper.DeleteHNSNetwork _ w4) as [r w5]; simpl snd in El' |- *.
        exists (l ++ l')%list. rewrite El', El, Ht3, <- !app_assoc. split; [reflexivity|].
        rewrite forallb_app. apply andb_true_intro; split.
        + rewrite forallb_forall in *. intros c Hc. specialize (Fl c Hc). now destruct c.
        + rewrite forallb_forall in *. intros c Hc. specialize (Fl' c Hc). now destruct c.
      - exists l. rewrite El, Ht3, <- app_assoc. split; [reflexivity|].
        rewrite forallb_forall in *. intros c Hc. specialize (Fl c Hc). now destruct c. }
    destruct Hrest as (l & El & Fl).
    rewrite Ht2, Ht1, <- !app_assoc in El. simpl in El.
    apply issued_app in El. rewrite El. simpl.
    f_equal. clear - Fl. induction l as [|c l IH]; simpl in *; [reflexivity|].
    apply andb_prop in Fl as [Fc Fl]. destruct (is_HNSNetworkRequest_POST c); [discriminate|auto].
Qed.

End FindOrCreateNetwork.

(** ** The HNS tables along a run *)
Section Tables.
Context `{NetLib}.

(** The version check leaves the tables alone. *)
Lemma CheckHNSVersion_tables v w :
  let w1 := snd (hnswrapper.CheckHNSVersion v w) in
  hnsNetworks w1 = hnsNetworks w /\ hnsEndpoints w1 = hnsEndpoints w.
Proof.
  unfold hnswrapper.CheckHNSVersion. run_call.
  destruct (faults w (trace w) Call.GetHNSGlobals); simpl; auto.
  destruct (negb _); simpl; auto.
Qed.

(** So does the interface-disabling step. *)
Lemma disableInterface_tables a w :
  let w1 := snd (NetBuilder.disableInterface a w) in
  hnsNetworks w1 = hnsNetworks w /\ hnsEndpoints w1 = hnsEndpoints w.
Proof.
  unfold NetBuilder.disableInterface. run_call.
  destruct (faults w (trace w) (Call.InterfaceByName a)); simpl; auto.
  destruct (assoc_find a (interfaces w)); simpl; auto.
  destruct (strings_EqualFold _ _); simpl; auto.
  destruct (faults _ _ _); simpl; auto.
Qed.

(** A lookup answers with the first network of that name, and changes no
    table. *)
Lemma GetHNSNetworkByName_Ok name w n w1 :
  hcsshim_GetHNSNetworkByName name w = (Ok n, w1) ->
  find_network name (hnsNetworks w) = Some n /\ hnsNetworks w1 = hnsNetworks w.
Proof.
  run_call. destruct (faults w (trace w) _); [discriminate|]. simpl.
  destruct (find_network name (hnsNetworks w)); intros [= <- <-]; auto.
Qed.

Lemma GetHNSNetworkByName_tables name w :
  hnsNetworks (snd (hcsshim_GetHNSNetworkByName name w)) = hnsNetworks w.
Proof.
  run_call. destruct (faults w (trace w) _); simpl; auto.
  destruct (find_network name (hnsNetworks w)); auto.
Qed.

(** A network that [FindOrCreateHNSNetwork] reports as new is the last of the
    table afterwards, under the requested name. *)
Lemma FindOrCreateHNSNetwork_created cfg w w1 :
  hnswrapper.FindOrCreateHNSNetwork cfg w = (Ok false, w1) ->
  exists n, hnsNetworks w1 = (hnsNetworks w ++ [n])%list
            /\ hcsshim.HNSNetwork.Name n = hnswrapper.HNSNetwork.Name cfg.
Proof.
  unfold hnswrapper.FindOrCreateHNSNetwork.
  pose proof (GetHNSNetworkByName_tables (hnswrapper.HNSNetwork.Name cfg) w) as Hl.
  destruct (hcsshim_GetHNSNetworkByName _ w) as [[n | err |] w0]; simpl in Hl;
    [discriminate | | discriminate].
  destruct (hnswrapper.HNSNetwork.ShouldExist cfg); [discriminate|].
  run_call. destruct (faults w0 (trace w0) _); [discriminate|]. simpl.
  intros [= <-]. simpl. rewrite Hl. eexists; split; reflexivity.
Qed.

(** A [DeleteHNSNetwork] that returns nil removed every network that has the
    id of the first network of that name. *)
Lemma DeleteHNSNetwork_Ok cfg w w1 :
  hnswrapper.DeleteHNSNetwork cfg w = (Ok tt, w1) ->
  exists n, find_network (hnswrapper.HNSNetwork.Name cfg) (hnsNetworks w) = Some n
            /\ hnsNetworks w1
               = filter (fun x => negb (String.eqb (hcsshim.HNSNetwork.Id x)
                                                   (hcsshim.HNSNetwork.Id n)))
                        (hnsNetworks w).
Proof.
  unfold hnswrapper.DeleteHNSNetwork.
  destruct (hcsshim_GetHNSNetworkByName _ w) as [[n | err |] w0] eqn:Hfind;
    [| discriminate | discriminate].
  apply GetHNSNetworkByName_Ok in Hfind as [Hfind Hl].
  run_call. destruct (faults w0 (trace w0) _); [discriminate|]. simpl.
  intros [= <-]. simpl. rewrite Hl. eauto.
Qed.

(** Appending a network of a name that the table does not hold, then
    removing by its id, leaves no network of that name. *)
Lemma find_network_rollback name l n n' :
  find_network name l = None ->
  hcsshim.HNSNetwork.Name n = name ->
  find_network name (l ++ [n]) = Some n' ->
  find_network name
    (filter (fun x => negb (String.eqb (hcsshim.HNSNetwork.Id x) (hcsshim.HNSNetwork.Id n')))
            (l ++ [n]))
  = None.
Proof.
  unfold find_network. intros Hnone Hn.
  induction l as [|x l IH]; simpl in *.
  - rewrite Hn, String.eqb_refl. intros [= <-]. now rewrite String.eqb_refl.
  - destruct (String.eqb (hcsshim.HNSNetwork.Name x) name) eqn:Hx; [discriminate|].
    intros Hfind. destruct (negb _); simpl; [rewrite Hx|]; auto.
Qed.

End Tables.

(** ** Rolling the network back *)
Section NetworkRollback.
Context `{NetLib}.

Lemma FindOrCreateHNSNetwork_found cfg w w1 :
  hnswrapper.FindOrCreateHNSNetwork cfg w = (Ok true, w1) ->
  exists n, hcsshim_GetHNSNetworkByName (hnswrapper.HNSNetwork.Name cfg) w = (Ok n, w1).
Proof.
  unfold hnswrapper.FindOrCreateHNSNetwork.
  destruct (hcsshim_GetHNSNetworkByName _ w) as [[n | err |] w0].
  - intros [= <-]. eauto.
  - destruct (hnswrapper.HNSNetwork.ShouldExist cfg); [discriminate|].
    destruct (hcsshim_HNSNetworkRequest_POST _ w0) as [[? | ? |] ?]; discriminate.
  - discriminate.
Qed.

(** What [DeleteHNSNetwork] issues once its lookup is answered. *)
Lemma DeleteHNSNetwork_issued cfg w n w1 :
  hcsshim_GetHNSNetworkByName (hnswrapper.HNSNetwork.Name cfg) w = (Ok n, w1) ->
  issued (hnswrapper.DeleteHNSNetwork cfg) w
  = [Call.GetHNSNetworkByName (hnswrapper.HNSNetwork.Name cfg);
     Call.HNSNetworkRequest_DELETE (hcsshim.HNSNetwork.Id n)].
Proof.
  intros Hfind. apply issued_app. unfold hnswrapper.DeleteHNSNetwork.
  pose proof (GetHNSNetworkByName_trace (hnswrapper.HNSNetwork.Name cfg) w) as Ht.
  rewrite Hfind in *; simpl in *.
  now rewrite HNSNetworkRequest_DELETE_trace, Ht, <- app_assoc.
Qed.

(** C3.  When [FindOrCreateNetwork] has created the network (HNS reported it
    as new) and disabling the management vNIC then fails, it calls
    [DeleteNetwork] on that network and returns the error of the disabling
    step: the delete request carries the id under which HNS answers the name,
    and if the network was not there before and [DeleteNetwork] returns nil,
    no network of that name is left.  When HNS reported an existing network,
    the only calls are the version query and the lookup: the disabling step
    does not run. *)
Theorem FindOrCreateNetwork_rollback (nw : NetBuilder.Network.t) (w w1 w2 : Host)
    (name : string) :
  hnswrapper.CheckHNSVersion hnswrapper.HnsDefaultMinVersion w = (Ok tt, w1) ->
  NetBuilder.generateHNSNetworkName nw = Some name ->
  let nw' := NetBuilder.Network.with_Name name nw in
  (hnswrapper.FindOrCreateHNSNetwork (NetBuilder.networkConfigOf nw') w1 = (Ok false, w2) ->
   forall e err w3,
     NetBuilder.Network.ENI nw = Some e ->
     NetBuilder.disableInterface (NetBuilder.vNICNameFormat (eni.GetLinkName e)) w2
     = (Err err, w3) ->
     NetBuilder.FindOrCreateNetwork nw w = (Err err, nw', snd (NetBuilder.DeleteNetwork nw' w3))
     /\ (forall n w4,
           hcsshim_GetHNSNetworkByName name w3 = (Ok n, w4) ->
           issued (NetBuilder.DeleteNetwork nw') w3
           = [Call.GetHNSNetworkByName name;
              Call.HNSNetworkRequest_DELETE (hcsshim.HNSNetwork.Id n)])
     /\ (find_network name (hnsNetworks w) = None ->
         fst (NetBuilder.DeleteNetwork nw' w3) = Ok tt ->
         find_network name (hnsNetworks (snd (NetBuilder.DeleteNetwork nw' w3))) = None))
  /\ (hnswrapper.FindOrCreateHNSNetwork (NetBuilder.networkConfigOf nw') w1 = (Ok true, w2) ->
      NetBuilder.FindOrCreateNetwork nw w = (Ok tt, nw', w2)
      /\ issued (NetBuilder.FindOrCreateNetwork nw) w
         = [Call.GetHNSGlobals; Call.GetHNSNetworkByName name]).
Proof.
  intros Hcheck Hname nw'. split.
  - intros Hnew e err w3 Heni Hdisable. split; [|split].
    + unfold NetBuilder.FindOrCreateNetwork. rewrite Hcheck, Hname.
      cbv beta iota zeta. fold nw'. rewrite Hnew. cbv beta iota zeta. simpl negb. cbv iota.
      change (NetBuilder.Network.ENI nw') with (NetBuilder.Network.ENI nw).
      rewrite Heni, Hdisable.
      now destruct (NetBuilder.DeleteNetwork nw' w3).
    + intros n w4 Hfind. unfold NetBuilder.DeleteNetwork.
      eapply DeleteHNSNetwork_issued; eassumption.
    + intros Habsent Hok.
      destruct (NetBuilder.DeleteNetwork nw' w3) as [r w4] eqn:Hdel.
      simpl in Hok |- *; subst r.
      apply DeleteHNSNetwork_Ok in Hdel as (n' & Hfind & Hl). simpl in Hfind.
      apply FindOrCreateHNSNetwork_created in Hnew as (n & Hl2 & Hn). simpl in Hn.
      pose proof (proj1 (disableInterface_tables
                           (NetBuilder.vNICNameFormat (eni.GetLinkName e)) w2)) as Hl3.
      rewrite Hdisable in Hl3; simpl in Hl3.
      pose proof (proj1 (CheckHNSVersion_tables hnswrapper.HnsDefaultMinVersion w)) as Hl1.
      rewrite Hcheck in Hl1; simpl in Hl1.
      rewrite Hl, Hl3, Hl2, Hl1 in *.
      eapply find_network_rollback; eassumption.
  - intros Hold. apply FindOrCreateHNSNetwork_found in Hold as (n & Hfind).
    eapply FindOrCreateNetwork_existing; eassumption.
Qed.

(** [netBuilder.FindOrCreateNetwork] has the same body and rolls back the
    same way. *)
Lemma netBuilder_FindOrCreateNetwork_rollback (nw : netBuilder.Network.t) (w w1 w2 : Host)
    (name : string) :
  hnswrapper.CheckHNSVersion hnswrapper.HnsDefaultMinVersion w = (Ok tt, w1) ->
  netBuilder.generateHNSNetworkName nw = Some name ->
  let nw' := netBuilder.Network.with_Name name nw in
  (hnswrapper.FindOrCreateHNSNetwork (netBuilder.networkConfigOf nw') w1 = (Ok false, w2) ->
   forall e err w3,
     netBuilder.Network.ENI nw = Some e ->
     netBuilder.disableInterface (NetBuilder.vNICNameFormat (eni.GetLinkName e)) w2
     = (Err err, w3) ->
     netBuilder.FindOrCreateNetwork nw w = (Err err, nw', snd (netBuilder.DeleteNetwork nw' w3))
     /\ (find_network name (hnsNetworks w) = None ->
         fst (netBuilder.DeleteNetwork nw' w3) = Ok tt ->
         find_network name (hnsNetworks (snd (netBuilder.DeleteNetwork nw' w3))) = None))
  /\ (hnswrapper.FindOrCreateHNSNetwork (netBuilder.networkConfigOf nw') w1 = (Ok true, w2) ->
      netBuilder.FindOrCreateNetwork nw w = (Ok tt, nw', w2)).
Proof.
  intros Hcheck Hname nw'. split.
  - intros Hnew e err w3 Heni Hdisable. split.
    + unfold netBuilder.FindOrCreateNetwork. rewrite Hcheck, Hname.
      cbv beta iota zeta. fold nw'. rewrite Hnew. cbv beta iota zeta. simpl negb. cbv iota.
      change (netBuilder.Network.ENI nw') with (netBuilder.Network.ENI nw).
      rewrite Heni, Hdisable.
      now destruct (netBuilder.DeleteNetwork nw' w3).
    + intros Habsent Hok.
      destruct (netBuilder.DeleteNetwork nw' w3) as [r w4] eqn:Hdel.
      simpl in Hok |- *; subst r.
      apply DeleteHNSNetwork_Ok in Hdel as (n' & Hfind & Hl). simpl in Hfind.
      apply FindOrCreateHNSNetwork_created in Hnew as (n & Hl2 & Hn). simpl in Hn.
      pose proof (proj1 (disableInterface_tables
                           (NetBuilder.vNICNameFormat (eni.GetLinkName e)) w2)) as Hl3.
      unfold netBuilder.disableInterface in Hdisable.
      rewrite Hdisable in Hl3; simpl in Hl3.
      pose proof (proj1 (CheckHNSVersion_tables hnswrapper.HnsDefaultMinVersion w)) as Hl1.
      rewrite Hcheck in Hl1; simpl in Hl1.
      rewrite Hl, Hl3, Hl2, Hl1 in *.
      eapply find_network_rollback; eassumption.
  - intros Hold.
    unfold netBuilder.FindOrCreateNetwork. rewrite Hcheck, Hname.
    cbv beta iota zeta. fold nw'. now rewrite Hold.
Qed.

End NetworkRollback.

(** ** The endpoint table along a run *)
Section EndpointTables.
Context `{NetLib}.

Lemma GetHNSEndpointByName_Ok name w e w1 :
  hcsshim_GetHNSEndpointByName name w = (Ok e, w1) ->
  find_endpoint name (hnsEndpoints w) = Some e /\ hnsEndpoints w1 = hnsEndpoints w.
Proof.
  run_call. destruct (faults w (trace w) _); [discriminate|]. simpl.
  destruct (find_endpoint name (hnsEndpoints w)); intros [= <- <-]; auto.
Qed.

Lemma GetHNSEndpointByName_tables name w :
  hnsEndpoints (snd (hcsshim_GetHNSEndpointByName name w)) = hnsEndpoints w.
Proof.
  run_call. destruct (faults w (trace w) _); simpl; auto.
  destruct (find_endpoint name (hnsEndpoints w)); auto.
Qed.

Lemma HotAttachEndpoint_tables c e w :
  hnsEndpoints (snd (hcsshim_HotAttachEndpoint c e w)) = hnsEndpoints w.
Proof.
  run_call. destruct (faults w (trace w) _); simpl; auto.
  destruct (assoc_find c (computeSystems w)); auto.
Qed.

Lemma HotDetachEndpoint_tables c e w :
  hnsEndpoints (snd (hcsshim_HotDetachEndpoint c e w)) = hnsEndpoints w.
Proof.
  run_call. destruct (faults w (trace w) _); simpl; auto.
  destruct (assoc_find c (computeSystems w)); auto.
Qed.

Lemma GetNamespaceEndpointIds_tables ns w :
  hnsEndpoints (snd (hcn_GetNamespaceEndpointIds ns w)) = hnsEndpoints w.
Proof.
  run_call. destruct (faults w (trace w) _); simpl; auto.
  destruct (assoc_find ns (namespaces w)); auto.
Qed.

Lemma AddNamespaceEndpoint_tables ns e w :
  hnsEndpoints (snd (hcn_AddNamespaceEndpoint ns e w)) = hnsEndpoints w.
Proof.
  run_call. destruct (faults w (trace w) _); simpl; auto.
  destruct (assoc_find ns (namespaces w)); auto.
Qed.

Lemma RemoveNamespaceEndpoint_tables ns e w :
  hnsEndpoints (snd (hcn_RemoveNamespaceEndpoint ns e w)) = hnsEndpoints w.
Proof.
  run_call. destruct (faults w (trace w) _); simpl; auto.
  destruct (assoc_find ns (namespaces w)); auto.
Qed.

Lemma HNSEndpointRequest_DELETE_Ok id w w1 :
  hcsshim_HNSEndpointRequest_DELETE id w = (Ok tt, w1) ->
  hnsEndpoints w1
  = filter (fun x => negb (String.eqb (hcsshim.HNSEndpoint.Id x) id)) (hnsEndpoints w).
Proof.
  run_call. destruct (faults w (trace w) _); [discriminate|]. now intros [= <-].
Qed.

(** Attaching changes no HNS endpoint. *)
Lemma AttachEndpoint_tables ep w :
  hnsEndpoints (snd (hnswrapper.AttachEndpoint ep w)) = hnsEndpoints w.
Proof.
  unfold hnswrapper.AttachEndpoint, hnswrapper.attachEndpointV2, hnswrapper.attachEndpointV1.
  destruct (hnswrapper.HCSNamespace.UseNamespace _).
  - pose proof (GetNamespaceEndpointIds_tables
                  (hnswrapper.HCSNamespace.NetNSName (hnswrapper.HNSEndpoint.NetNS ep)) w) as E.
    destruct (hcn_GetNamespaceEndpointIds _ w) as [[ids | err |] w1]; simpl in *; auto.
    destruct (hnswrapper.alreadyInNamespace ids); simpl; auto.
    now rewrite AddNamespaceEndpoint_tables.
  - apply HotAttachEndpoint_tables.
Qed.

(** An endpoint that [FindOrCreateHNSEndpoint] reports as new is the last of
    the table afterwards, under the requested name; the configuration comes
    back with the fields of the response. *)
Lemma FindOrCreateHNSEndpoint_created cfg w hep w1 :
  hnswrapper.FindOrCreateHNSEndpoint cfg w = (Ok false, hep, w1) ->
  exists resp,
    hnsEndpoints w1 = (hnsEndpoints w ++ [resp])%list
    /\ hcsshim.HNSEndpoint.Name resp = hnswrapper.HNSEndpoint.Name cfg
    /\ hep = hnswrapper.populateEndpointFieldsFromResponse resp cfg
    /\ (hnswrapper.AttachedContainer.IsInfraContainer (hnswrapper.HNSEndpoint.Container cfg)
        || hnswrapper.HCSNamespace.UseNamespace (hnswrapper.HNSEndpoint.NetNS cfg)) = true.
Proof.
  unfold hnswrapper.FindOrCreateHNSEndpoint.
  pose proof (GetHNSEndpointByName_tables (hnswrapper.HNSEndpoint.Name cfg) w) as Hl.
  destruct (hcsshim_GetHNSEndpointByName _ w) as [[e | err |] w0]; simpl in Hl;
    [discriminate | | discriminate].
  destruct (hnswrapper.AttachedContainer.IsInfraContainer _) eqn:Hinfra;
    destruct (hnswrapper.HCSNamespace.UseNamespace _) eqn:Hns; simpl; try discriminate;
    run_call; (destruct (faults w0 (trace w0) _); [discriminate|]); simpl;
    intros [= <- <-]; simpl; rewrite Hl; eexists; repeat split; reflexivity.
Qed.

(** A [DeleteHNSEndpoint] that returns nil for an infra container or a
    namespace found the endpoint of that name and removed every endpoint
    with its id. *)
Lemma DeleteHNSEndpoint_Ok ep w w1 :
  hnswrapper.DeleteHNSEndpoint ep w = (Ok tt, w1) ->
  (hnswrapper.AttachedContainer.IsInfraContainer (hnswrapper.HNSEndpoint.Container ep)
   || hnswrapper.HCSNamespace.UseNamespace (hnswrapper.HNSEndpoint.NetNS ep)) = true ->
  exists e,
    find_endpoint (hnswrapper.HNSEndpoint.Name ep) (hnsEndpoints w) = Some e
    /\ hnsEndpoints w1
       = filter (fun x => negb (String.eqb (hcsshim.HNSEndpoint.Id x) (hcsshim.HNSEndpoint.Id e)))
                (hnsEndpoints w).
Proof.
  unfold hnswrapper.DeleteHNSEndpoint, hnswrapper.deleteHNSEndpointV2,
    hnswrapper.deleteHNSEndpointV1.
  destruct (hnswrapper.HCSNamespace.UseNamespace _).
  - intros Hrun _.
    destruct (hcsshim_GetHNSEndpointByName _ w) as [[e | err |] w0] eqn:Hfind;
      [| discriminate | discriminate].
    apply GetHNSEndpointByName_Ok in Hfind as [Hfind Hl].
    pose proof (RemoveNamespaceEndpoint_tables
                  (hnswrapper.HCSNamespace.NetNSName (hnswrapper.HNSEndpoint.NetNS ep))
                  (hcsshim.HNSEndpoint.Id e) w0) as Hl2.
    destruct (hcn_RemoveNamespaceEndpoint _ _ w0) as [[[] | err |] w2]; simpl in Hl2;
      [| discriminate | discriminate].
    apply HNSEndpointRequest_DELETE_Ok in Hrun. rewrite Hl2, Hl in Hrun. eauto.
  - rewrite orb_false_r. intros Hrun Hinfra. rewrite Hinfra in Hrun; simpl in Hrun.
    destruct (hcsshim_GetHNSEndpointByName _ w) as [[e | err |] w0] eqn:Hfind;
      [| discriminate | discriminate].
    apply GetHNSEndpointByName_Ok in Hfind as [Hfind Hl].
    pose proof (HotDetachEndpoint_tables
                  (hnswrapper.AttachedContainer.ContainerID (hnswrapper.HNSEndpoint.Container ep))
                  (hcsshim.HNSEndpoint.Id e) w0) as Hl2.
    destruct (hcsshim_HotDetachEndpoint _ _ w0) as [[[] | err |] w2]; simpl in Hl2;
      [| | discriminate].
    + apply HNSEndpointRequest_DELETE_Ok in Hrun. rewrite Hl2, Hl in Hrun. eauto.
    + destruct (is_ErrComputeSystemDoesNotExist err); simpl in Hrun; [|discriminate].
      apply HNSEndpointRequest_DELETE_Ok in Hrun. rewrite Hl2, Hl in Hrun. eauto.
Qed.

(** Appending an endpoint of a name that the table does not hold, then
    removing by its id, leaves no endpoint of that name. *)
Lemma find_endpoint_rollback name l e e' :
  find_endpoint name l = None ->
  hcsshim.HNSEndpoint.Name e = name ->
  find_endpoint name (l ++ [e]) = Some e' ->
  find_endpoint name
    (filter (fun x => negb (String.eqb (hcsshim.HNSEndpoint.Id x) (hcsshim.HNSEndpoint.Id e')))
            (l ++ [e]))
  = None.
Proof.
  unfold find_endpoint. intros Hnone He.
  induction l as [|x l IH]; simpl in *.
  - rewrite He, String.eqb_refl. intros [= <-]. now rewrite String.eqb_refl.
  - destruct (String.eqb (hcsshim.HNSEndpoint.Name x) name) eqn:Hx; [discriminate|].
    intros Hfind. destruct (negb _); simpl; [rewrite Hx|]; auto.
Qed.

End EndpointTables.

(** ** Rolling the endpoint back *)
Section EndpointRollback.
Context `{NetLib}.

(** The rollback seen from [hnswrapper]: an endpoint that was created under a
    name the table did not hold, could not be attached, and on which
    [DeleteHNSEndpoint] returned nil, is gone. *)
Lemma rollback_removes cfg w hep w1 w2 r w3 :
  hnswrapper.FindOrCreateHNSEndpoint cfg w = (Ok false, hep, w1) ->
  w2 = snd (hnswrapper.AttachEndpoint hep w1) ->
  hnswrapper.DeleteHNSEndpoint hep w2 = (r, w3) ->
  find_endpoint (hnswrapper.HNSEndpoint.Name cfg) (hnsEndpoints w) = None ->
  r = Ok tt ->
  find_endpoint (hnswrapper.HNSEndpoint.Name cfg) (hnsEndpoints w3) = None.
Proof.
  intros Hnew -> Hdel Habsent ->.
  apply FindOrCreateHNSEndpoint_created in Hnew as (resp & Hl1 & Hname & -> & Hmode).
  apply DeleteHNSEndpoint_Ok in Hdel as (e & Hfind & Hl3); [|exact Hmode].
  simpl in Hfind. rewrite AttachEndpoint_tables, Hl1 in Hfind, Hl3. rewrite Hl3.
  eapply find_endpoint_rollback; eassumption.
Qed.

(** C2, amended.  When [FindOrCreateHNSEndpoint] has created the endpoint and
    [AttachEndpoint] then fails, [netBuilder.FindOrCreateEndpoint] calls
    [DeleteHNSEndpoint] on that endpoint and returns the attach error; if no
    endpoint of that name was there before and [DeleteHNSEndpoint] returns
    nil, none is there afterwards. *)
Theorem FindOrCreateEndpoint_rollback (nw : netBuilder.Network.t) (ep : netBuilder.Endpoint.t)
    (w w1 w2 : Host) (hep : hnswrapper.HNSEndpoint.t) (err : error) :
  let cfg := netBuilder.endpointConfigOf nw ep in
  hnswrapper.FindOrCreateHNSEndpoint cfg w = (Ok false, hep, w1) ->
  hnswrapper.AttachEndpoint hep w1 = (Err err, w2) ->
  fst (fst (fst (netBuilder.FindOrCreateEndpoint nw ep w))) = Err err
  /\ snd (netBuilder.FindOrCreateEndpoint nw ep w) = snd (hnswrapper.DeleteHNSEndpoint hep w2)
  /\ (find_endpoint (hnswrapper.HNSEndpoint.Name cfg) (hnsEndpoints w) = None ->
      fst (hnswrapper.DeleteHNSEndpoint hep w2) = Ok tt ->
      find_endpoint (hnswrapper.HNSEndpoint.Name cfg)
        (hnsEndpoints (snd (netBuilder.FindOrCreateEndpoint nw ep w))) = None).
Proof.
  intros cfg Hnew Hattach.
  assert (E : netBuilder.FindOrCreateEndpoint nw ep w
              = (Err err,
                 netBuilder.Network.with_GatewayIPAddress
                   (ParseIP (hnswrapper.HNSEndpoint.Gateway hep)) nw,
                 netBuilder.Endpoint.with_addresses (hnswrapper.HNSEndpoint.IPAddress hep)
                   (ParseMAC (hnswrapper.HNSEndpoint.MacAddress hep)) ep,
                 snd (hnswrapper.DeleteHNSEndpoint hep w2))).
  { unfold netBuilder.FindOrCreateEndpoint. cbv zeta. fold cfg. rewrite Hnew.
    cbv beta iota zeta. rewrite Hattach.
    now destruct (hnswrapper.DeleteHNSEndpoint hep w2). }
  rewrite E. split; [reflexivity|]. split; [reflexivity|].
  intros Habsent Hok. simpl snd.
  destruct (hnswrapper.DeleteHNSEndpoint hep w2) as [r w3] eqn:Hdel. simpl in Hok |- *.
  eapply rollback_removes; try eassumption. now rewrite Hattach.
Qed.

(** The same for [NetBuilder.FindOrCreateEndpoint], whose second half is
    [findOrCreateAndAttach]. *)
Lemma findOrCreateAndAttach_rollback (nw : NetBuilder.Network.t) (ep : NetBuilder.Endpoint.t)
    (cfg : hnswrapper.HNSEndpoint.t) (w w1 w2 : Host) (hep : hnswrapper.HNSEndpoint.t)
    (err : error) :
  hnswrapper.FindOrCreateHNSEndpoint cfg w = (Ok false, hep, w1) ->
  hnswrapper.AttachEndpoint hep w1 = (Err err, w2) ->
  fst (fst (fst (NetBuilder.findOrCreateAndAttach nw ep cfg w))) = Err err
  /\ snd (NetBuilder.findOrCreateAndAttach nw ep cfg w)
     = snd (hnswrapper.DeleteHNSEndpoint hep w2)
  /\ (find_endpoint (hnswrapper.HNSEndpoint.Name cfg) (hnsEndpoints w) = None ->
      fst (hnswrapper.DeleteHNSEndpoint hep w2) = Ok tt ->
      find_endpoint (hnswrapper.HNSEndpoint.Name cfg)
        (hnsEndpoints (snd (NetBuilder.findOrCreateAndAttach nw ep cfg w))) = None).
Proof.
  intros Hnew Hattach.
  assert (E : NetBuilder.findOrCreateAndAttach nw ep cfg w
              = (Err err,
                 NetBuilder.Network.with_GatewayIPAddress
                   (ParseIP (hnswrapper.HNSEndpoint.Gateway hep)) nw,
                 NetBuilder.Endpoint.with_addresses (hnswrapper.HNSEndpoint.IPAddress hep)
                   (ParseMAC (hnswrapper.HNSEndpoint.MacAddress hep)) ep,
                 snd (hnswrapper.DeleteHNSEndpoint hep w2))).
  { unfold NetBuilder.findOrCreateAndAttach. rewrite Hnew.
    cbv beta iota zeta. rewrite Hattach.
    now destruct (hnswrapper.DeleteHNSEndpoint hep w2). }
  rewrite E. split; [reflexivity|]. split; [reflexivity|].
  intros Habsent Hok. simpl snd.
  destruct (hnswrapper.DeleteHNSEndpoint hep w2) as [r w3] eqn:Hdel. simpl in Hok |- *.
  eapply rollback_removes; try eassumption. now rewrite Hattach.
Qed.

End EndpointRollback.

(** ** The calls of the endpoint operations *)
Section EndpointCalls.
Context `{NetLib}.

Lemma appends_trace {R} P (m : Host -> R * Host) w :
  appends P w (snd (m w)) -> trace (snd (m w)) = (trace w ++ issued m w)%list.
Proof. intros (l & E & F). now rewrite (issued_app m w l E). Qed.

Ltac one_call Ht := eapply appends_one; [exact Ht | reflexivity].
Ltac then_call Ht := eapply appends_trans; [one_call Ht|].

(** [AttachEndpoint] issues endpoint calls only. *)
Lemma AttachEndpoint_appends ep w :
  appends is_endpoint_call w (snd (hnswrapper.AttachEndpoint ep w)).
Proof.
  unfold hnswrapper.AttachEndpoint, hnswrapper.attachEndpointV2, hnswrapper.attachEndpointV1.
  destruct (hnswrapper.HCSNamespace.UseNamespace _).
  - pose proof (GetNamespaceEndpointIds_trace
                  (hnswrapper.HCSNamespace.NetNSName (hnswrapper.HNSEndpoint.NetNS ep)) w) as Ht.
    destruct (hcn_GetNamespaceEndpointIds _ w) as [[ids | err |] w1]; simpl in Ht;
      try one_call Ht.
    destruct (hnswrapper.alreadyInNamespace ids); [one_call Ht|].
    then_call Ht. eapply appends_one; [apply AddNamespaceEndpoint_trace | reflexivity].
  - eapply appends_one; [apply HotAttachEndpoint_trace | reflexivity].
Qed.

(** The first call of [AttachEndpoint]: the query of the namespace in
    namespace mode, the hot attach to the container otherwise. *)
Lemma AttachEndpoint_first_call ep w :
  hd_error (issued (hnswrapper.AttachEndpoint ep) w)
  = Some (if hnswrapper.HCSNamespace.UseNamespace (hnswrapper.HNSEndpoint.NetNS ep)
          then Call.GetNamespaceEndpointIds
                 (hnswrapper.HCSNamespace.NetNSName (hnswrapper.HNSEndpoint.NetNS ep))
          else Call.HotAttachEndpoint
                 (hnswrapper.AttachedContainer.ContainerID (hnswrapper.HNSEndpoint.Container ep))
                 (hnswrapper.HNSEndpoint.ID ep)).
Proof.
  unfold issued, hnswrapper.AttachEndpoint, hnswrapper.attachEndpointV2,
    hnswrapper.attachEndpointV1.
  destruct (hnswrapper.HCSNamespace.UseNamespace _).
  - pose proof (GetNamespaceEndpointIds_trace
                  (hnswrapper.HCSNamespace.NetNSName (hnswrapper.HNSEndpoint.NetNS ep)) w) as Ht.
    destruct (hcn_GetNamespaceEndpointIds _ w) as [[ids | err |] w1]; simpl in Ht;
      try (simpl snd; now rewrite Ht, skipn_length_app).
    destruct (hnswrapper.alreadyInNamespace ids);
      [simpl snd; now rewrite Ht, skipn_length_app|].
    now rewrite AddNamespaceEndpoint_trace, Ht, <- app_assoc, skipn_length_app.
  - now rewrite HotAttachEndpoint_trace, skipn_length_app.
Qed.

(** [DeleteHNSEndpoint] issues endpoint calls only, and no delete request
    when the endpoint belongs to a container that is not the infra
    container. *)
Lemma DeleteHNSEndpoint_appends ep w :
  appends (fun c =>
             is_endpoint_call c
             && (negb (is_HNSEndpointRequest_DELETE c)
                 || hnswrapper.AttachedContainer.IsInfraContainer (hnswrapper.HNSEndpoint.Container ep)
                 || hnswrapper.HCSNamespace.UseNamespace (hnswrapper.HNSEndpoint.NetNS ep)))
          w (snd (hnswrapper.DeleteHNSEndpoint ep w)).
Proof.
  unfold hnswrapper.DeleteHNSEndpoint, hnswrapper.deleteHNSEndpointV2,
    hnswrapper.deleteHNSEndpointV1.
  pose proof (GetHNSEndpointByName_trace (hnswrapper.HNSEndpoint.Name ep) w) as Ht.
  destruct (hnswrapper.HCSNamespace.UseNamespace _).
  - destruct (hcsshim_GetHNSEndpointByName _ w) as [[e | err |] w1]; simpl in Ht;
      try one_call Ht.
    then_call Ht.
    pose proof (RemoveNamespaceEndpoint_trace
                  (hnswrapper.HCSNamespace.NetNSName (hnswrapper.HNSEndpoint.NetNS ep))
                  (hcsshim.HNSEndpoint.Id e) w1) as Ht2.
    destruct (hcn_RemoveNamespaceEndpoint _ _ w1) as [[[] | err |] w2]; simpl in Ht2;
      try one_call Ht2.
    then_call Ht2.
    eapply appends_one; [apply HNSEndpointRequest_DELETE_trace|].
    simpl. now rewrite orb_true_r.
  - destruct (hcsshim_GetHNSEndpointByName _ w) as [[e | err |] w1]; simpl in Ht;
      try one_call Ht.
    then_call Ht.
    pose proof (HotDetachEndpoint_trace
                  (hnswrapper.AttachedContainer.ContainerID (hnswrapper.HNSEndpoint.Container ep))
                  (hcsshim.HNSEndpoint.Id e) w1) as Ht2.
    destruct (hnswrapper.AttachedContainer.IsInfraContainer _);
      destruct (hcsshim_HotDetachEndpoint _ _ w1) as [[[] | err |] w2]; simpl in Ht2 |- *;
      try one_call Ht2;
      try (destruct (is_ErrComputeSystemDoesNotExist err); simpl; try one_call Ht2);
      then_call Ht2;
      (eapply appends_one; [apply HNSEndpointRequest_DELETE_trace | reflexivity]).
Qed.

End EndpointCalls.

(** ** Creating the endpoint *)
Section FindOrCreateEndpoint.
Context `{NetLib}.

(** C6, amended.  When the lookup of the derived endpoint name fails:
    for a container that shares the netns of an infra container,
    [FindOrCreateEndpoint] returns an error after the lookup alone, without a
    creation request; for an infra container and for an HCS namespace it
    sends the creation request built from the configuration, and if HNS
    accepts it, calls [AttachEndpoint] next (a hot attach to the container,
    or the query of the namespace), followed by the calls of
    [DeleteHNSEndpoint] if the attach fails; if HNS refuses the creation, it
    returns that error and nothing follows. *)
Theorem FindOrCreateEndpoint_creates (nw : netBuilder.Network.t) (ep : netBuilder.Endpoint.t)
    (w w1 : Host) (err : error) :
  let cfg := netBuilder.endpointConfigOf nw ep in
  let name := hnswrapper.HNSEndpoint.Name cfg in
  let req := hnswrapper.endpointRequest cfg in
  hcsshim_GetHNSEndpointByName name w = (Err err, w1) ->
  match fst (netBuilder.getNamespaceIdentifier ep) with
  | netBuilder.nonInfraContainerNS =>
      netBuilder.FindOrCreateEndpoint nw ep w
      = (Err (ErrorfV "failed to find endpoint %s: %v" [name] err), nw, ep, w1)
      /\ issued (netBuilder.FindOrCreateEndpoint nw ep) w = [Call.GetHNSEndpointByName name]
  | nsType =>
      (forall resp w2,
         hcsshim_HNSEndpointRequest_POST req w1 = (Ok resp, w2) ->
         let hep := hnswrapper.populateEndpointFieldsFromResponse resp cfg in
         issued (netBuilder.FindOrCreateEndpoint nw ep) w
         = ([Call.GetHNSEndpointByName name; Call.HNSEndpointRequest_POST req]
            ++ issued (hnswrapper.AttachEndpoint hep) w2
            ++ match fst (hnswrapper.AttachEndpoint hep w2) with
               | Err _ =>
                   issued (hnswrapper.DeleteHNSEndpoint hep)
                          (snd (hnswrapper.AttachEndpoint hep w2))
               | _ => []
               end)%list
         /\ hd_error (issued (hnswrapper.AttachEndpoint hep) w2)
            = Some (match nsType with
                    | netBuilder.hcsNamespace =>
                        Call.GetNamespaceEndpointIds (netBuilder.Endpoint.NetNSName ep)
                    | _ =>
                        Call.HotAttachEndpoint (netBuilder.Endpoint.ContainerID ep)
                                               (hcsshim.HNSEndpoint.Id resp)
                    end))
      /\ (forall err' w2,
            hcsshim_HNSEndpointRequest_POST req w1 = (Err err', w2) ->
            netBuilder.FindOrCreateEndpoint nw ep w = (Err err', nw, ep, w2)
            /\ issued (netBuilder.FindOrCreateEndpoint nw ep) w
               = [Call.GetHNSEndpointByName name; Call.HNSEndpointRequest_POST req])
  end.
Proof.
  intros cfg name req Hfind.
  pose proof (GetHNSEndpointByName_trace name w) as Ht1.
  rewrite Hfind in Ht1; simpl in Ht1.
  pose proof (HNSEndpointRequest_POST_trace req w1) as Ht2.
  assert (Hcreate :
            fst (netBuilder.getNamespaceIdentifier ep) <> netBuilder.nonInfraContainerNS ->
            (hnswrapper.AttachedContainer.IsInfraContainer (hnswrapper.HNSEndpoint.Container cfg)
             || hnswrapper.HCSNamespace.UseNamespace (hnswrapper.HNSEndpoint.NetNS cfg)) = true).
  { subst cfg. unfold netBuilder.endpointConfigOf.
    destruct (netBuilder.getNamespaceIdentifier ep) as [[] id]; simpl; congruence. }
  assert (Hnew : forall resp w2,
            fst (netBuilder.getNamespaceIdentifier ep) <> netBuilder.nonInfraContainerNS ->
            hcsshim_HNSEndpointRequest_POST req w1 = (Ok resp, w2) ->
            let hep := hnswrapper.populateEndpointFieldsFromResponse resp cfg in
            issued (netBuilder.FindOrCreateEndpoint nw ep) w
            = ([Call.GetHNSEndpointByName name; Call.HNSEndpointRequest_POST req]
               ++ issued (hnswrapper.AttachEndpoint hep) w2
               ++ match fst (hnswrapper.AttachEndpoint hep w2) with
                  | Err _ =>
                      issued (hnswrapper.DeleteHNSEndpoint hep)
                             (snd (hnswrapper.AttachEndpoint hep w2))
                  | _ => []
                  end)%list).
  { intros resp w2 Hmode Hpost hep. rewrite Hpost in Ht2; simpl in Ht2.
    apply issued_app.
    unfold netBuilder.FindOrCreateEndpoint. cbv zeta. fold cfg.
    unfold hnswrapper.FindOrCreateHNSEndpoint. fold name. rewrite Hfind.
    apply Hcreate in Hmode. apply orb_true_iff in Hmode.
    assert (Hguard : negb (hnswrapper.AttachedContainer.IsInfraContainer
                             (hnswrapper.HNSEndpoint.Container cfg))
                     && negb (hnswrapper.HCSNamespace.UseNamespace
                                (hnswrapper.HNSEndpoint.NetNS cfg)) = false).
    { destruct Hmode as [-> | ->]; simpl; [reflexivity | apply andb_false_r]. }
    rewrite Hguard. fold req. rewrite Hpost. cbv beta iota zeta. fold hep.
    pose proof (AttachEndpoint_appends hep w2) as Ht3. apply appends_trace in Ht3.
    destruct (hnswrapper.AttachEndpoint hep w2) as [[[] | err' |] w3]; simpl in Ht3 |- *.
    - now rewrite Ht3, Ht2, Ht1, app_nil_r, <- !app_assoc.
    - pose proof (DeleteHNSEndpoint_appends hep w3) as Ht4. apply appends_trace in Ht4.
      destruct (hnswrapper.DeleteHNSEndpoint hep w3) as [r w4]; simpl in Ht4 |- *.
      now rewrite Ht4, Ht3, Ht2, Ht1, <- !app_assoc.
    - now rewrite Ht3, Ht2, Ht1, app_nil_r, <- !app_assoc. }
  assert (Hrefused : forall err' w2,
            fst (netBuilder.getNamespaceIdentifier ep) <> netBuilder.nonInfraContainerNS ->
            hcsshim_HNSEndpointRequest_POST req w1 = (Err err', w2) ->
            netBuilder.FindOrCreateEndpoint nw ep w = (Err err', nw, ep, w2)
            /\ issued (netBuilder.FindOrCreateEndpoint nw ep) w
               = [Call.GetHNSEndpointByName name; Call.HNSEndpointRequest_POST req]).
  { intros err' w2 Hmode Hpost. rewrite Hpost in Ht2; simpl in Ht2.
    assert (E : netBuilder.FindOrCreateEndpoint nw ep w = (Err err', nw, ep, w2)).
    { unfold netBuilder.FindOrCreateEndpoint. cbv zeta. fold cfg.
      unfold hnswrapper.FindOrCreateHNSEndpoint. fold name. rewrite Hfind.
      apply Hcreate in Hmode. apply orb_true_iff in Hmode.
      assert (Hguard : negb (hnswrapper.AttachedContainer.IsInfraContainer
                               (hnswrapper.HNSEndpoint.Container cfg))
                       && negb (hnswrapper.HCSNamespace.UseNamespace
                                  (hnswrapper.HNSEndpoint.NetNS cfg)) = false).
      { destruct Hmode as [-> | ->]; simpl; [reflexivity | apply andb_false_r]. }
      rewrite Hguard. fold req. now rewrite Hpost. }
    split; [exact E|]. apply issued_app. rewrite E. simpl.
    now rewrite Ht2, Ht1, <- app_assoc. }
  destruct (fst (netBuilder.getNamespaceIdentifier ep)) eqn:Htype.
  - split; [|intros err' w2; apply Hrefused; discriminate].
    intros resp w2 Hpost hep. split; [apply Hnew; [discriminate | exact Hpost]|].
    rewrite AttachEndpoint_first_call. subst hep cfg. unfold netBuilder.endpointConfigOf.
    destruct (netBuilder.getNamespaceIdentifier ep) as [nsType id]. simpl in Htype; subst nsType.
    reflexivity.
  - assert (E : netBuilder.FindOrCreateEndpoint nw ep w
                = (Err (ErrorfV "failed to find endpoint %s: %v" [name] err), nw, ep, w1)).
    { unfold netBuilder.FindOrCreateEndpoint. cbv zeta. fold cfg.
      unfold hnswrapper.FindOrCreateHNSEndpoint. fold name. rewrite Hfind.
      assert (Hguard : negb (hnswrapper.AttachedContainer.IsInfraContainer
                               (hnswrapper.HNSEndpoint.Container cfg))
                       && negb (hnswrapper.HCSNamespace.UseNamespace
                                  (hnswrapper.HNSEndpoint.NetNS cfg)) = true).
      { subst cfg. unfold netBuilder.endpointConfigOf.
        destruct (netBuilder.getNamespaceIdentifier ep) as [nsType id].
        simpl in Htype; subst nsType. reflexivity. }
      now rewrite Hguard. }
    split; [exact E|]. apply issued_app. rewrite E. simpl. exact Ht1.
  - split; [|intros err' w2; apply Hrefused; discriminate].
    intros resp w2 Hpost hep. split; [apply Hnew; [discriminate | exact Hpost]|].
    rewrite AttachEndpoint_first_call. subst hep cfg. unfold netBuilder.endpointConfigOf.
    destruct (netBuilder.getNamespaceIdentifier ep) as [nsType id] eqn:Hid.
    simpl in Htype; subst nsType. simpl.
    unfold netBuilder.getNamespaceIdentifier in Hid.
    destruct (_ || _); [discriminate|]. destruct (strings_HasPrefix _ _); [discriminate|].
    now injection Hid as <-.
Qed.

(** An ADD that finds the endpoint: for an infra container and for an HCS
    namespace [FindOrCreateEndpoint] returns nil after the lookup alone; for
    a container that shares the netns it hot-attaches the endpoint found to
    this container. *)
Lemma FindOrCreateEndpoint_existing (nw : netBuilder.Network.t) (ep : netBuilder.Endpoint.t)
    (w w1 : Host) (e : hcsshim.HNSEndpoint.t) :
  let cfg := netBuilder.endpointConfigOf nw ep in
  let name := hnswrapper.HNSEndpoint.Name cfg in
  hcsshim_GetHNSEndpointByName name w = (Ok e, w1) ->
  match fst (netBuilder.getNamespaceIdentifier ep) with
  | netBuilder.nonInfraContainerNS =>
      issued (netBuilder.FindOrCreateEndpoint nw ep) w
      = [Call.GetHNSEndpointByName name;
         Call.HotAttachEndpoint (netBuilder.Endpoint.ContainerID ep) (hcsshim.HNSEndpoint.Id e)]
  | _ =>
      fst (fst (fst (netBuilder.FindOrCreateEndpoint nw ep w))) = Ok tt
      /\ snd (netBuilder.FindOrCreateEndpoint nw ep w) = w1
      /\ issued (netBuilder.FindOrCreateEndpoint nw ep) w = [Call.GetHNSEndpointByName name]
  end.
Proof.
  intros cfg name Hfind.
  pose proof (GetHNSEndpointByName_trace name w) as Ht1.
  rewrite Hfind in Ht1; simpl in Ht1.
  assert (Hrun : netBuilder.FindOrCreateEndpoint nw ep w
                 = let hep := hnswrapper.populateEndpointFieldsFromResponse e cfg in
                   let ep' := netBuilder.Endpoint.with_addresses
                                (hnswrapper.HNSEndpoint.IPAddress hep)
                                (ParseMAC (hnswrapper.HNSEndpoint.MacAddress hep)) ep in
                   let nw' := netBuilder.Network.with_GatewayIPAddress
                                (ParseIP (hnswrapper.HNSEndpoint.Gateway hep)) nw in
                   if hnswrapper.AttachedContainer.IsInfraContainer
                        (hnswrapper.HNSEndpoint.Container cfg)
                      || hnswrapper.HCSNamespace.UseNamespace (hnswrapper.HNSEndpoint.NetNS cfg)
                   then (Ok tt, nw', ep', w1)
                   else let '(r, w2) := hnswrapper.AttachEndpoint hep w1 in (r, nw', ep', w2)).
  { unfold netBuilder.FindOrCreateEndpoint. cbv zeta. fold cfg.
    unfold hnswrapper.FindOrCreateHNSEndpoint. fold name. now rewrite Hfind. }
  unfold issued. rewrite Hrun. clear Hrun. cbv zeta.
  subst name cfg. unfold netBuilder.endpointConfigOf in *.
  destruct (netBuilder.getNamespaceIdentifier ep) as [[] id]; simpl in *.
  - now rewrite Ht1, skipn_length_app.
  - unfold hnswrapper.AttachEndpoint, hnswrapper.attachEndpointV1. simpl.
    destruct (hcsshim_HotAttachEndpoint _ _ w1) as [r w2] eqn:Hattach.
    pose proof (HotAttachEndpoint_trace (netBuilder.Endpoint.ContainerID ep)
                  (hcsshim.HNSEndpoint.Id e) w1) as Ht2.
    rewrite Hattach in Ht2. simpl in *.
    now rewrite Ht2, Ht1, <- app_assoc, skipn_length_app.
  - now rewrite Ht1, skipn_length_app.
Qed.

End FindOrCreateEndpoint.

(** ** Deleting the endpoint *)
Section DeleteEndpoint.
Context `{NetLib}.

(** For a container that is not the infra container, [DeleteHNSEndpoint]
    leaves the endpoint table as it is. *)
Lemma DeleteHNSEndpoint_shared_tables ep w :
  hnswrapper.HCSNamespace.UseNamespace (hnswrapper.HNSEndpoint.NetNS ep) = false ->
  hnswrapper.AttachedContainer.IsInfraContainer (hnswrapper.HNSEndpoint.Container ep) = false ->
  hnsEndpoints (snd (hnswrapper.DeleteHNSEndpoint ep w)) = hnsEndpoints w.
Proof.
  intros Hns Hinfra.
  unfold hnswrapper.DeleteHNSEndpoint, hnswrapper.deleteHNSEndpointV1. rewrite Hns, Hinfra.
  pose proof (GetHNSEndpointByName_tables (hnswrapper.HNSEndpoint.Name ep) w) as Hl.
  destruct (hcsshim_GetHNSEndpointByName _ w) as [[e | err |] w1]; simpl in Hl |- *; auto.
  pose proof (HotDetachEndpoint_tables
                (hnswrapper.AttachedContainer.ContainerID (hnswrapper.HNSEndpoint.Container ep))
                (hcsshim.HNSEndpoint.Id e) w1) as Hl2.
  destruct (hcsshim_HotDetachEndpoint _ _ w1) as [[[] | err |] w2]; simpl in Hl2 |- *;
    try congruence.
  destruct (is_ErrComputeSystemDoesNotExist err); simpl; congruence.
Qed.

(** A [DeleteHNSEndpoint] that returns nil for an infra container or a
    namespace sent the delete request for the endpoint of that name. *)
Lemma DeleteHNSEndpoint_Ok_issued ep w w1 :
  hnswrapper.DeleteHNSEndpoint ep w = (Ok tt, w1) ->
  (hnswrapper.AttachedContainer.IsInfraContainer (hnswrapper.HNSEndpoint.Container ep)
   || hnswrapper.HCSNamespace.UseNamespace (hnswrapper.HNSEndpoint.NetNS ep)) = true ->
  exists e,
    find_endpoint (hnswrapper.HNSEndpoint.Name ep) (hnsEndpoints w) = Some e
    /\ In (Call.HNSEndpointRequest_DELETE (hcsshim.HNSEndpoint.Id e))
          (issued (hnswrapper.DeleteHNSEndpoint ep) w).
Proof.
  intros Hrun Hmode. unfold issued. rewrite Hrun. simpl snd. revert Hrun.
  unfold hnswrapper.DeleteHNSEndpoint, hnswrapper.deleteHNSEndpointV2,
    hnswrapper.deleteHNSEndpointV1.
  pose proof (GetHNSEndpointByName_trace (hnswrapper.HNSEndpoint.Name ep) w) as Ht.
  destruct (hnswrapper.HCSNamespace.UseNamespace _).
  - destruct (hcsshim_GetHNSEndpointByName _ w) as [[e | err |] w0] eqn:Hfind;
      [| discriminate | discriminate].
    simpl in Ht. apply GetHNSEndpointByName_Ok in Hfind as [Hfind _].
    pose proof (RemoveNamespaceEndpoint_trace
                  (hnswrapper.HCSNamespace.NetNSName (hnswrapper.HNSEndpoint.NetNS ep))
                  (hcsshim.HNSEndpoint.Id e) w0) as Ht2.
    destruct (hcn_RemoveNamespaceEndpoint _ _ w0) as [[[] | err |] w2]; simpl in Ht2;
      [| discriminate | discriminate].
    intros Hrun. exists e; split; [exact Hfind|].
    pose proof (HNSEndpointRequest_DELETE_trace (hcsshim.HNSEndpoint.Id e) w2) as Ht3.
    rewrite Hrun in Ht3; simpl in Ht3.
    rewrite Ht3, Ht2, Ht, <- !app_assoc, skipn_length_app. simpl; auto.
  - rewrite orb_false_r in Hmode. rewrite Hmode. simpl negb. cbv iota.
    destruct (hcsshim_GetHNSEndpointByName _ w) as [[e | err |] w0] eqn:Hfind;
      [| discriminate | discriminate].
    simpl in Ht. apply GetHNSEndpointByName_Ok in Hfind as [Hfind _].
    pose proof (HotDetachEndpoint_trace
                  (hnswrapper.AttachedContainer.ContainerID (hnswrapper.HNSEndpoint.Container ep))
                  (hcsshim.HNSEndpoint.Id e) w0) as Ht2.
    pose proof (fun w2 => HNSEndpointRequest_DELETE_trace (hcsshim.HNSEndpoint.Id e) w2) as Ht3.
    destruct (hcsshim_HotDetachEndpoint _ _ w0) as [[[] | err |] w2]; simpl in Ht2;
      [| | discriminate].
    + intros Hrun. exists e; split; [exact Hfind|].
      specialize (Ht3 w2). rewrite Hrun in Ht3; simpl in Ht3.
      rewrite Ht3, Ht2, Ht, <- !app_assoc, skipn_length_app. simpl; auto.
    + destruct (is_ErrComputeSystemDoesNotExist err); simpl; [|discriminate].
      intros Hrun. exists e; split; [exact Hfind|].
      specialize (Ht3 w2). rewrite Hrun in Ht3; simpl in Ht3.
      rewrite Ht3, Ht2, Ht, <- !app_assoc, skipn_length_app. simpl; auto.
Qed.

(** C8, amended.  [netBuilder.DeleteEndpoint] leaves the endpoint object in
    place for a container that shares the netns of an infra container: no
    delete request is issued and the endpoint table is unchanged.  For an
    infra container and for an HCS namespace alike, a [DeleteEndpoint] that
    returns nil has sent the delete request for the endpoint of the derived
    name and HNS no longer holds an endpoint with its id. *)
Theorem DeleteEndpoint_deletes (nw : netBuilder.Network.t) (ep : netBuilder.Endpoint.t)
    (w : Host) (name : string) :
  netBuilder.generateHNSNetworkName nw = Some name ->
  let cfg := netBuilder.deleteConfigOf (netBuilder.Network.with_Name name nw) ep in
  let epName := hnswrapper.HNSEndpoint.Name cfg in
  match fst (netBuilder.getNamespaceIdentifier ep) with
  | netBuilder.nonInfraContainerNS =>
      hnsEndpoints (snd (netBuilder.DeleteEndpoint nw ep w)) = hnsEndpoints w
      /\ forallb (fun c => negb (is_HNSEndpointRequest_DELETE c))
                 (issued (netBuilder.DeleteEndpoint nw ep) w) = true
  | _ =>
      fst (fst (netBuilder.DeleteEndpoint nw ep w)) = Ok tt ->
      exists e,
        find_endpoint epName (hnsEndpoints w) = Some e
        /\ In (Call.HNSEndpointRequest_DELETE (hcsshim.HNSEndpoint.Id e))
              (issued (netBuilder.DeleteEndpoint nw ep) w)
        /\ hnsEndpoints (snd (netBuilder.DeleteEndpoint nw ep w))
           = filter (fun x => negb (String.eqb (hcsshim.HNSEndpoint.Id x)
                                               (hcsshim.HNSEndpoint.Id e)))
                    (hnsEndpoints w)
  end.
Proof.
  intros Hname cfg epName.
  assert (Hsnd : snd (netBuilder.DeleteEndpoint nw ep w)
                 = snd (hnswrapper.DeleteHNSEndpoint cfg w)).
  { unfold netBuilder.DeleteEndpoint. rewrite Hname. cbv zeta. fold cfg.
    now destruct (hnswrapper.DeleteHNSEndpoint cfg w). }
  assert (Hfst : fst (fst (netBuilder.DeleteEndpoint nw ep w))
                 = fst (hnswrapper.DeleteHNSEndpoint cfg w)).
  { unfold netBuilder.DeleteEndpoint. rewrite Hname. cbv zeta. fold cfg.
    now destruct (hnswrapper.DeleteHNSEndpoint cfg w). }
  assert (Hissued : issued (netBuilder.DeleteEndpoint nw ep) w
                    = issued (hnswrapper.DeleteHNSEndpoint cfg) w).
  { unfold issued. now rewrite Hsnd. }
  rewrite Hsnd, Hfst, Hissued.
  assert (Hdeletes :
            (hnswrapper.AttachedContainer.IsInfraContainer (hnswrapper.HNSEndpoint.Container cfg)
             || hnswrapper.HCSNamespace.UseNamespace (hnswrapper.HNSEndpoint.NetNS cfg)) = true ->
            fst (hnswrapper.DeleteHNSEndpoint cfg w) = Ok tt ->
            exists e,
              find_endpoint epName (hnsEndpoints w) = Some e
              /\ In (Call.HNSEndpointRequest_DELETE (hcsshim.HNSEndpoint.Id e))
                    (issued (hnswrapper.DeleteHNSEndpoint cfg) w)
              /\ hnsEndpoints (snd (hnswrapper.DeleteHNSEndpoint cfg w))
                 = filter (fun x => negb (String.eqb (hcsshim.HNSEndpoint.Id x)
                                                     (hcsshim.HNSEndpoint.Id e)))
                          (hnsEndpoints w)).
  { intros Hmode Hok.
    destruct (hnswrapper.DeleteHNSEndpoint cfg w) as [r w1] eqn:Hrun. simpl in Hok; subst r.
    destruct (DeleteHNSEndpoint_Ok _ _ Hrun Hmode) as (e & Hfind & Hl).
    destruct (DeleteHNSEndpoint_Ok_issued _ _ Hrun Hmode) as (e' & Hfind' & Hin).
    assert (e' = e) by congruence. subst e'.
    exists e. simpl. auto. }
  pose proof (DeleteHNSEndpoint_appends cfg w) as Happ.
  pose proof (DeleteHNSEndpoint_shared_tables cfg w) as Hkeep.
  subst cfg. unfold netBuilder.deleteConfigOf in *.
  destruct (netBuilder.getNamespaceIdentifier ep) as [[] id]; simpl in *.
  - now apply Hdeletes.
  - split; [now apply Hkeep|].
    apply appends_issued in Happ. rewrite forallb_forall in *.
    intros c Hc. specialize (Happ c Hc). apply andb_prop in Happ as [_ Happ].
    now rewrite !orb_false_r in Happ.
  - now apply Hdeletes.
Qed.

End DeleteEndpoint.

(** ** The DEL handler *)
Section Del.
Context `{NetLib} `{!config.PluginLib}.

(** The host calls return an error, they do not panic; nor does
    [DeleteHNSEndpoint]. *)
Lemma DeleteHNSEndpoint_no_panic ep w :
  fst (hnswrapper.DeleteHNSEndpoint ep w) <> Panic.
Proof.
  unfold hnswrapper.DeleteHNSEndpoint, hnswrapper.deleteHNSEndpointV2,
    hnswrapper.deleteHNSEndpointV1. run_call.
  repeat match goal with
         | |- context [match ?x with _ => _ end] =>
             lazymatch x with
             | context [match _ with _ => _ end] => fail
             | _ => destruct x; simpl
             end
         end; discriminate.
Qed.

(** C9, amended.  When HNS answers the lookup of the network name with an
    error, [DeleteNetwork] returns that error after the lookup alone, and
    [Del], when it reaches [DeleteNetwork], fails with it. *)
Theorem DeleteNetwork_not_found (nw : NetBuilder.Network.t) (w w1 : Host) (err : error) :
  hcsshim_GetHNSNetworkByName (NetBuilder.Network.Name nw) w = (Err err, w1) ->
  NetBuilder.DeleteNetwork nw w = (Err err, w1)
  /\ issued (NetBuilder.DeleteNetwork nw) w
     = [Call.GetHNSNetworkByName (NetBuilder.Network.Name nw)]
  /\ (forall args w0 netConfig r,
        config.New args = Ok netConfig ->
        NetBuilder.DeleteEndpoint (Plugin.networkOf netConfig) (Plugin.endpointOf netConfig args) w0
        = (r, nw, w) ->
        r <> Panic ->
        NetBuilder.Network.ShouldExist nw = false ->
        Plugin.Del Plugin.windowsBuilder args w0
        = (Err (ErrorfV "failed to delete network: %v" [] err), w1)).
Proof.
  intros Hfind.
  assert (E : NetBuilder.DeleteNetwork nw w = (Err err, w1)).
  { unfold NetBuilder.DeleteNetwork, hnswrapper.DeleteHNSNetwork. simpl. now rewrite Hfind. }
  split; [exact E|]. split.
  - apply issued_app. rewrite E. simpl.
    pose proof (GetHNSNetworkByName_trace (NetBuilder.Network.Name nw) w) as Ht.
    now rewrite Hfind in Ht.
  - intros args w0 netConfig r Hconfig Hep Hr Hshould.
    unfold Plugin.Del. rewrite Hconfig. cbv zeta. simpl Plugin.DeleteEndpoint.
    rewrite Hep. simpl Plugin.DeleteNetwork. rewrite Hshould, E.
    destruct r; [reflexivity | reflexivity | now elim Hr].
Qed.

(** C7.  In a DEL whose endpoint is that of a container sharing the netns of
    an infra container (there is an infra container and the netns carries the
    ["container:"] prefix), no call addresses the network; when
    [DeleteEndpoint] has a network name, it hands the network back with
    [ShouldExist] set, and [Del] returns nil in the state [DeleteEndpoint]
    left, without calling [DeleteNetwork]. *)
Theorem Del_shared_keeps_network (args : config.CmdArgs.t) (w : Host)
    (netConfig : config.NetConfig.t) :
  config.New args = Ok netConfig ->
  config.NetConfig.NoInfraContainer netConfig = false ->
  strings_HasPrefix (config.CmdArgs.Netns args) "container:" = true ->
  let deleted :=
    NetBuilder.DeleteEndpoint (Plugin.networkOf netConfig) (Plugin.endpointOf netConfig args) w in
  forallb (fun c => negb (is_network_call c)) (issued (Plugin.Del Plugin.windowsBuilder args) w)
  = true
  /\ (forall name,
        NetBuilder.generateHNSNetworkName (Plugin.networkOf netConfig) = Some name ->
        NetBuilder.Network.ShouldExist (snd (fst deleted)) = true
        /\ Plugin.Del Plugin.windowsBuilder args w = (Ok tt, snd deleted)).
Proof.
  intros Hconfig Hinfra Hprefix deleted.
  set (nw := Plugin.networkOf netConfig) in *.
  set (ep := Plugin.endpointOf netConfig args) in *.
  assert (Hclass : NetBuilder.getInfraContainerID ep
                   = Ok (false, strings_TrimPrefix (config.CmdArgs.Netns args)
                                  NetBuilder.containerPrefix)).
  { unfold NetBuilder.getInfraContainerID. subst ep. simpl.
    rewrite (containerPrefix_not_infra _ Hprefix).
    unfold NetBuilder.containerPrefix. now rewrite Hprefix. }
  assert (Hdel : Plugin.Del Plugin.windowsBuilder args w
                 = match deleted with
                   | (Panic, nw, w) => (Panic, w)
                   | (_, nw, w) =>
                       if negb (NetBuilder.Network.ShouldExist nw) then
                         match NetBuilder.DeleteNetwork nw w with
                         | (Err err, w) =>
                             (Err (ErrorfV "failed to delete network: %v" [] err), w)
                         | (Panic, w) => (Panic, w)
                         | (Ok _, w) => (Ok tt, w)
                         end
                       else (Ok tt, w)
                   end).
  { unfold Plugin.Del. now rewrite Hconfig. }
  destruct (NetBuilder.generateHNSNetworkName nw) as [name|] eqn:Hname.
  - set (hep := hnswrapper.HNSEndpoint.with_target
                  (NetBuilder.generateHNSEndpointName name
                     (strings_TrimPrefix (config.CmdArgs.Netns args) NetBuilder.containerPrefix))
                  (hnswrapper.HNSEndpoint.NetNS NetBuilder.emptyEndpointConfig)
                  (hnswrapper.AttachedContainer.mk (config.CmdArgs.ContainerID args) false
                     (strings_TrimPrefix (config.CmdArgs.Netns args) NetBuilder.containerPrefix))
                  NetBuilder.emptyEndpointConfig).
    assert (E : deleted
                = (fst (hnswrapper.DeleteHNSEndpoint hep w),
                   NetBuilder.Network.with_ShouldExist true
                     (NetBuilder.Network.with_Name name nw),
                   snd (hnswrapper.DeleteHNSEndpoint hep w))).
    { subst deleted. unfold NetBuilder.DeleteEndpoint. rewrite Hname. cbv zeta.
      replace (NetBuilder.Endpoint.NoInfraContainer ep) with false by (symmetry; exact Hinfra).
      rewrite Hclass. cbv beta iota zeta. simpl negb. cbv iota.
      change (hnswrapper.DeleteHNSEndpoint _ w) with (hnswrapper.DeleteHNSEndpoint hep w).
      now destruct (hnswrapper.DeleteHNSEndpoint hep w). }
    assert (Hrun : Plugin.Del Plugin.windowsBuilder args w
                   = (Ok tt, snd (hnswrapper.DeleteHNSEndpoint hep w))).
    { rewrite Hdel, E.
      pose proof (DeleteHNSEndpoint_no_panic hep w) as Hnp.
      destruct (hnswrapper.DeleteHNSEndpoint hep w) as [[[] | err |] w1]; simpl in *;
        [reflexivity | reflexivity | now elim Hnp]. }
    split.
    + apply appends_issued. rewrite Hrun. simpl snd.
      eapply appends_weaken; [|apply DeleteHNSEndpoint_appends].
      intros c Hc. apply andb_prop in Hc as [Hc _]. now destruct c.
    + intros name' _. rewrite E. simpl. split; [reflexivity | exact Hrun].
  - assert (E : deleted = (Panic, nw, w)).
    { subst deleted. unfold NetBuilder.DeleteEndpoint. now rewrite Hname. }
    split; [|discriminate].
    rewrite E in Hdel. rewrite issued_nil; [reflexivity | now rewrite Hdel].
Qed.

End Del.

(** ** Parsing the configuration *)
Section Config.
Context `{NetLib} `{!config.PluginLib}.

(** [New] accepts every configuration that decodes and has the required
    parameters, when the parsers accept the addresses given: an address left
    empty comes back nil, and its parser is not consulted. *)
Theorem New_parses (args : config.CmdArgs.t) (cfg : config.netConfigJSON.t) :
  config.json_Unmarshal (config.CmdArgs.StdinData args) = Ok cfg ->
  config.netConfigJSON.UseExistingNetwork cfg
  && String.eqb (config.NetConf.Name (config.netConfigJSON.NetConf cfg)) "" = false ->
  negb (config.netConfigJSON.UseExistingNetwork cfg)
  && (String.eqb (config.netConfigJSON.ENIName cfg) ""
      || String.eqb (config.netConfigJSON.ENIMACAddress cfg) ""
      || String.eqb (config.netConfigJSON.ENIIPAddress cfg) "") = false ->
  config.netConfigJSON.NoInfraContainer cfg && String.eqb (config.CmdArgs.Netns args) "" = false ->
  forall mac ip gw,
    (if String.eqb (config.netConfigJSON.ENIMACAddress cfg) "" then mac = None
     else mac <> None /\ ParseMAC (config.netConfigJSON.ENIMACAddress cfg) = mac) ->
    (if String.eqb (config.netConfigJSON.ENIIPAddress cfg) "" then ip = None
     else exists a, ip = Some a
                    /\ GetIPAddressFromString (config.netConfigJSON.ENIIPAddress cfg) = Ok a) ->
    (if String.eqb (config.netConfigJSON.GatewayIPAddress cfg) "" then gw = None
     else gw <> None /\ ParseIP (config.netConfigJSON.GatewayIPAddress cfg) = gw) ->
    config.New args
    = Ok {| config.NetConfig.NetConf := config.netConfigJSON.NetConf cfg;
            config.NetConfig.ENIName := config.netConfigJSON.ENIName cfg;
            config.NetConfig.ENIMACAddress := mac;
            config.NetConfig.ENIIPAddress := ip;
            config.NetConfig.GatewayIPAddress := gw;
            config.NetConfig.NoInfraContainer := config.netConfigJSON.NoInfraContainer cfg;
            config.NetConfig.UseExistingNetwork := config.netConfigJSON.UseExistingNetwork cfg |}.
Proof.
  intros Hjson Hname Heni Hns mac ip gw Hmac Hip Hgw.
  unfold config.New. rewrite Hjson, Hname.
  destruct (config.netConfigJSON.UseExistingNetwork cfg); simpl in Heni |- *.
  - rewrite Hns.
    destruct (String.eqb (config.netConfigJSON.ENIMACAddress cfg) "").
    + subst mac.
      destruct (String.eqb (config.netConfigJSON.ENIIPAddress cfg) "").
      * subst ip.
        destruct (String.eqb (config.netConfigJSON.GatewayIPAddress cfg) "").
        -- now subst gw.
        -- destruct Hgw as [Hgw <-].
           destruct (ParseIP _); [reflexivity | now elim Hgw].
      * destruct Hip as (a & -> & ->).
        destruct (String.eqb (config.netConfigJSON.GatewayIPAddress cfg) "").
        -- now subst gw.
        -- destruct Hgw as [Hgw <-].
           destruct (ParseIP _); [reflexivity | now elim Hgw].
    + destruct Hmac as [Hmac <-].
      destruct (ParseMAC _); [|now elim Hmac].
      destruct (String.eqb (config.netConfigJSON.ENIIPAddress cfg) "").
      * subst ip.
        destruct (String.eqb (config.netConfigJSON.GatewayIPAddress cfg) "").
        -- now subst gw.
        -- destruct Hgw as [Hgw <-].
           destruct (ParseIP _); [reflexivity | now elim Hgw].
      * destruct Hip as (a & -> & ->).
        destruct (String.eqb (config.netConfigJSON.GatewayIPAddress cfg) "").
        -- now subst gw.
        -- destruct Hgw as [Hgw <-].
           destruct (ParseIP _); [reflexivity | now elim Hgw].
  - apply orb_false_iff in Heni as [Heni Hipe]. apply orb_false_iff in Heni as [Heni Hmace].
    rewrite Heni, Hmace, Hipe, Hns in *.
    destruct Hmac as [Hmac <-]. destruct (ParseMAC _); [|now elim Hmac].
    destruct Hip as (a & -> & ->).
    destruct (String.eqb (config.netConfigJSON.GatewayIPAddress cfg) "").
    + now subst gw.
    + destruct Hgw as [Hgw <-]. destruct (ParseIP _); [reflexivity | now elim Hgw].
Qed.

(** A configuration that [New] accepts has what the plugin needs: the
    network name when an existing network is to be used; the ENI name, the
    MAC address and the IP address otherwise; and the netns when there is no
    infra container. *)
Theorem New_validates (args : config.CmdArgs.t) (netConfig : config.NetConfig.t) :
  config.New args = Ok netConfig ->
  (config.NetConfig.UseExistingNetwork netConfig = true ->
     config.NetConf.Name (config.NetConfig.NetConf netConfig) <> "")
  /\ (config.NetConfig.UseExistingNetwork netConfig = false ->
        config.NetConfig.ENIName netConfig <> ""
        /\ config.NetConfig.ENIMACAddress netConfig <> None
        /\ config.NetConfig.ENIIPAddress netConfig <> None)
  /\ (config.NetConfig.NoInfraContainer netConfig = true -> config.CmdArgs.Netns args <> "").
Proof.
  unfold config.New.
  destruct (config.json_Unmarshal _) as [cfg | |]; try discriminate.
  destruct (config.netConfigJSON.UseExistingNetwork cfg) eqn:Huse; simpl.
  - destruct (String.eqb (config.NetConf.Name _) "") eqn:Hname; [discriminate|].
    destruct (config.netConfigJSON.NoInfraContainer cfg && _) eqn:Hns; [discriminate|].
    intros Hnew.
    assert (Hfields : config.NetConfig.NetConf netConfig = config.netConfigJSON.NetConf cfg
                      /\ config.NetConfig.UseExistingNetwork netConfig = true
                      /\ config.NetConfig.NoInfraContainer netConfig
                         = config.netConfigJSON.NoInfraContainer cfg).
    { repeat match type of Hnew with
             | context [match ?x with _ => _ end] =>
                 lazymatch x with
                 | context [match _ with _ => _ end] => fail
                 | _ => destruct x; try discriminate
                 end
             end; injection Hnew as <-; auto. }
    destruct Hfields as (-> & -> & ->).
    split; [intros _; now apply String.eqb_neq|]. split; [discriminate|].
    intros Hno. rewrite Hno in Hns. simpl in Hns. now apply String.eqb_neq.
  - destruct (String.eqb (config.netConfigJSON.ENIName cfg) "") eqn:Heni; [discriminate|].
    destruct (String.eqb (config.netConfigJSON.ENIMACAddress cfg) "") eqn:Hmac; [discriminate|].
    destruct (String.eqb (config.netConfigJSON.ENIIPAddress cfg) "") eqn:Hip; [discriminate|].
    destruct (config.netConfigJSON.NoInfraContainer cfg && _) eqn:Hns; [discriminate|].
    destruct (ParseMAC _) as [mac|]; [|discriminate].
    destruct (GetIPAddressFromString _) as [ip | |]; try discriminate.
    intros Hnew.
    assert (Hfields : config.NetConfig.ENIName netConfig = config.netConfigJSON.ENIName cfg
                      /\ config.NetConfig.ENIMACAddress netConfig = Some mac
                      /\ config.NetConfig.ENIIPAddress netConfig = Some ip
                      /\ config.NetConfig.UseExistingNetwork netConfig = false
                      /\ config.NetConfig.NoInfraContainer netConfig
                         = config.netConfigJSON.NoInfraContainer cfg).
    { repeat match type of Hnew with
             | context [match ?x with _ => _ end] =>
                 lazymatch x with
                 | context [match _ with _ => _ end] => fail
                 | _ => destruct x; try discriminate
                 end
             end; injection Hnew as <-; auto. }
    destruct Hfields as (-> & -> & -> & -> & ->).
    split; [discriminate|]. split.
    + intros _. split; [now apply String.eqb_neq|]. split; discriminate.
    + intros Hno. rewrite Hno in Hns. simpl in Hns. now apply String.eqb_neq.
Qed.
End Config.

(** ** The version check *)
Section Version.
Context `{NetLib}.

(** When HNS answers the version query, [CheckHNSVersion] returns nil
    exactly when the minimum version is at most the version of HNS, by
    [Major] and then by [Minor], and the error that names the minimum
    otherwise; a host that passes for a minimum passes for every older
    one. *)
Theorem CheckHNSVersion_order (hnsMinVersion older : hcsshim.HNSVersion.t) (w w1 : Host)
    (hnsVersion : hcsshim.HNSVersion.t) :
  hcsshim_GetHNSGlobals w = (Ok hnsVersion, w1) ->
  (hnswrapper.CheckHNSVersion hnsMinVersion w = (Ok tt, w1) <-> version_le hnsMinVersion hnsVersion)
  /\ (~ version_le hnsMinVersion hnsVersion ->
      hnswrapper.CheckHNSVersion hnsMinVersion w
      = (Err (Errorf "HNS is older than the minimum supported version %v"
                     [hnswrapper.Version_String hnsMinVersion]), w1))
  /\ (hnswrapper.CheckHNSVersion hnsMinVersion w = (Ok tt, w1) ->
      version_le older hnsMinVersion ->
      hnswrapper.CheckHNSVersion older w = (Ok tt, w1)).
Proof.
  intros Hglobals.
  assert (Hcheck : forall m,
            hnswrapper.CheckHNSVersion m w
            = if ((hcsshim.HNSVersion.Major hnsVersion >? hcsshim.HNSVersion.Major m)%Z
                  || ((hcsshim.HNSVersion.Major hnsVersion =? hcsshim.HNSVersion.Major m)%Z
                      && (hcsshim.HNSVersion.Minor hnsVersion >=? hcsshim.HNSVersion.Minor m)%Z))
              then (Ok tt, w1)
              else (Err (Errorf "HNS is older than the minimum supported version %v"
                                [hnswrapper.Version_String m]), w1)).
  { intros m. unfold hnswrapper.CheckHNSVersion. rewrite Hglobals.
    now destruct (_ || _). }
  assert (Hle : forall m,
            ((hcsshim.HNSVersion.Major hnsVersion >? hcsshim.HNSVersion.Major m)%Z
             || ((hcsshim.HNSVersion.Major hnsVersion =? hcsshim.HNSVersion.Major m)%Z
                 && (hcsshim.HNSVersion.Minor hnsVersion >=? hcsshim.HNSVersion.Minor m)%Z)) = true
            <-> version_le m hnsVersion).
  { intros m. unfold version_le.
    rewrite orb_true_iff, andb_true_iff, Z.gtb_ltb, Z.ltb_lt, Z.eqb_eq, Z.geb_leb, Z.leb_le.
    intuition lia. }
  split; [|split].
  - rewrite Hcheck, <- Hle. destruct (_ || _); split; congruence.
  - intros Hnot. rewrite Hcheck. rewrite <- Hle in Hnot. now destruct (_ || _).
  - rewrite !Hcheck. intros Hpass Hold.
    assert (Hm : version_le hnsMinVersion hnsVersion).
    { apply Hle. destruct (_ || _); [reflexivity | discriminate]. }
    assert (Ho : version_le older hnsVersion) by (unfold version_le in *; lia).
    apply Hle in Ho. now rewrite Ho.
Qed.

End Version.

(** ** The names of networks and endpoints *)
Section Names.
Context `{NetLib}.

Lemma Replace1_no_old (s : string) (old : ascii) :
  occurs old (strings_Replace1 s old "") = false.
Proof.
  induction s as [|c s IH]; simpl; [reflexivity|].
  destruct (Ascii.eqb c old) eqn:Hc; simpl; [exact IH|]. now rewrite Hc.
Qed.

(** The name that [generateHNSNetworkName] derives is the descriptor's own
    name when the network must exist; otherwise it is [task-br-] followed by
    a text without colon, and does not depend on the descriptor's name.
    Deriving again from the named descriptor gives the same name, which is
    how a DEL comes to the name of the ADD. *)
Theorem generateHNSNetworkName_stable (nw : NetBuilder.Network.t) (name : string) :
  NetBuilder.generateHNSNetworkName nw = Some name ->
  NetBuilder.generateHNSNetworkName (NetBuilder.Network.with_Name name nw) = Some name
  /\ (NetBuilder.Network.ShouldExist nw = true -> name = NetBuilder.Network.Name nw)
  /\ (NetBuilder.Network.ShouldExist nw = false ->
      (forall other,
         NetBuilder.generateHNSNetworkName (NetBuilder.Network.with_Name other nw) = Some name)
      /\ exists id, name = "task-br-" ++ id /\ occurs ":" id = false).
Proof.
  unfold NetBuilder.generateHNSNetworkName. simpl.
  destruct (NetBuilder.Network.ShouldExist nw).
  - intros [= <-]. split; [reflexivity|]. split; [reflexivity | discriminate].
  - destruct (NetBuilder.Network.ENI nw) as [e|]; [|discriminate].
    intros [= <-]. split; [reflexivity|]. split; [discriminate|].
    intros _. split; [reflexivity|].
    eexists; split; [reflexivity | apply Replace1_no_old].
Qed.

End Names.

Section Targets.
Context `{NetLib}.

(** What [DeleteHNSEndpoint] does depends on the name, the namespace and
    the container of the configuration only. *)
Lemma DeleteHNSEndpoint_ext (a b : hnswrapper.HNSEndpoint.t) (w : Host) :
  hnswrapper.HNSEndpoint.Name a = hnswrapper.HNSEndpoint.Name b ->
  hnswrapper.HNSEndpoint.NetNS a = hnswrapper.HNSEndpoint.NetNS b ->
  hnswrapper.HNSEndpoint.Container a = hnswrapper.HNSEndpoint.Container b ->
  hnswrapper.DeleteHNSEndpoint a w = hnswrapper.DeleteHNSEndpoint b w.
Proof.
  intros Hn Hns Hc.
  unfold hnswrapper.DeleteHNSEndpoint, hnswrapper.deleteHNSEndpointV2,
    hnswrapper.deleteHNSEndpointV1.
  now rewrite Hn, Hns, Hc.
Qed.

(** [DeleteEndpoint] addresses what [FindOrCreateEndpoint] created: both
    derive the same endpoint name, namespace and container from the
    descriptors, so [DeleteHNSEndpoint] does on the configuration of a DEL
    what it does on the configuration that an ADD got back from HNS. *)
Theorem DeleteEndpoint_targets_created (nw : netBuilder.Network.t) (ep : netBuilder.Endpoint.t) :
  let created := netBuilder.endpointConfigOf nw ep in
  let deleted := netBuilder.deleteConfigOf nw ep in
  hnswrapper.HNSEndpoint.Name deleted = hnswrapper.HNSEndpoint.Name created
  /\ hnswrapper.HNSEndpoint.NetNS deleted = hnswrapper.HNSEndpoint.NetNS created
  /\ hnswrapper.HNSEndpoint.Container deleted = hnswrapper.HNSEndpoint.Container created
  /\ forall hnsResponse w,
       hnswrapper.DeleteHNSEndpoint deleted w
       = hnswrapper.DeleteHNSEndpoint
           (hnswrapper.populateEndpointFieldsFromResponse hnsResponse created) w.
Proof.
  intros created deleted.
  assert (E : hnswrapper.HNSEndpoint.Name deleted = hnswrapper.HNSEndpoint.Name created
              /\ hnswrapper.HNSEndpoint.NetNS deleted = hnswrapper.HNSEndpoint.NetNS created
              /\ hnswrapper.HNSEndpoint.Container deleted
                 = hnswrapper.HNSEndpoint.Container created).
  { subst created deleted.
    unfold netBuilder.endpointConfigOf, netBuilder.deleteConfigOf, netBuilder.getNamespaceIdentifier.
    destruct (String.eqb _ "" || String.eqb _ "none"); simpl; auto.
    destruct (strings_HasPrefix _ _); simpl; auto. }
  destruct E as (En & Ens & Ec). repeat split; auto.
  intros hnsResponse w. now apply DeleteHNSEndpoint_ext.
Qed.

(** A container that shares the netns of an infra container (the prefix
    [container:] and the id of that container) derives the endpoint name of
    the infra container: the network name, [-ep-], the id.  It is configured
    as a container that is not the infra container, without namespace. *)
Theorem shared_container_endpoint_name (nw : netBuilder.Network.t)
    (infra shared : netBuilder.Endpoint.t) :
  netBuilder.Endpoint.NetNSName infra = "" \/ netBuilder.Endpoint.NetNSName infra = "none" ->
  netBuilder.Endpoint.NetNSName shared
  = netBuilder.containerPrefix ++ netBuilder.Endpoint.ContainerID infra ->
  let created := netBuilder.endpointConfigOf nw infra in
  let attached := netBuilder.endpointConfigOf nw shared in
  hnswrapper.HNSEndpoint.Name attached = hnswrapper.HNSEndpoint.Name created
  /\ hnswrapper.HNSEndpoint.Name created
     = netBuilder.Network.Name nw ++ "-ep-" ++ netBuilder.Endpoint.ContainerID infra
  /\ hnswrapper.HNSEndpoint.NetNS attached = hnswrapper.HCSNamespace.mk false ""
  /\ hnswrapper.HNSEndpoint.Container attached
     = hnswrapper.AttachedContainer.mk (netBuilder.Endpoint.ContainerID shared) false
         (netBuilder.Endpoint.ContainerID infra)
  /\ hnswrapper.HNSEndpoint.Container created
     = hnswrapper.AttachedContainer.mk (netBuilder.Endpoint.ContainerID infra) true
         (netBuilder.Endpoint.ContainerID infra).
Proof.
  intros Hinfra Hshared created attached. subst created attached.
  unfold netBuilder.endpointConfigOf, netBuilder.getNamespaceIdentifier.
  assert (Hp : strings_HasPrefix (netBuilder.Endpoint.NetNSName shared) netBuilder.containerPrefix
               = true).
  { rewrite Hshared. apply prefix_app. }
  assert (Htrim : strings_TrimPrefix (netBuilder.Endpoint.NetNSName shared)
                    netBuilder.containerPrefix
                  = netBuilder.Endpoint.ContainerID infra).
  { rewrite Hshared. apply strings_TrimPrefix_app. }
  rewrite (containerPrefix_not_infra _ Hp), Hp, Htrim.
  replace (String.eqb (netBuilder.Endpoint.NetNSName infra) ""
           || String.eqb (netBuilder.Endpoint.NetNSName infra) "none") with true.
  - simpl. repeat split; reflexivity.
  - destruct Hinfra as [-> | ->]; reflexivity.
Qed.

(** [deleteHNSEndpointV1] when the endpoint is found and the detach fails.
    Any error but [ErrComputeSystemDoesNotExist] is returned after the lookup
    and the detach, with the endpoints unchanged.
    [ErrComputeSystemDoesNotExist] is passed over: the delete request follows
    for the infra container, and the result is nil for any other
    container. *)
Theorem deleteHNSEndpointV1_detach_failed (ep : hnswrapper.HNSEndpoint.t) (w w1 w2 : Host)
    (hnsEndpoint : hcsshim.HNSEndpoint.t) (err : error) :
  hcsshim_GetHNSEndpointByName (hnswrapper.HNSEndpoint.Name ep) w = (Ok hnsEndpoint, w1) ->
  hcsshim_HotDetachEndpoint
    (hnswrapper.AttachedContainer.ContainerID (hnswrapper.HNSEndpoint.Container ep))
    (hcsshim.HNSEndpoint.Id hnsEndpoint) w1 = (Err err, w2) ->
  (err <> ErrComputeSystemDoesNotExist ->
     hnswrapper.deleteHNSEndpointV1 ep w = (Err err, w2)
     /\ hnsEndpoints w2 = hnsEndpoints w
     /\ issued (hnswrapper.deleteHNSEndpointV1 ep) w
        = [Call.GetHNSEndpointByName (hnswrapper.HNSEndpoint.Name ep);
           Call.HotDetachEndpoint
             (hnswrapper.AttachedContainer.ContainerID (hnswrapper.HNSEndpoint.Container ep))
             (hcsshim.HNSEndpoint.Id hnsEndpoint)])
  /\ (err = ErrComputeSystemDoesNotExist ->
      if hnswrapper.AttachedContainer.IsInfraContainer (hnswrapper.HNSEndpoint.Container ep)
      then hnswrapper.deleteHNSEndpointV1 ep w
           = hcsshim_HNSEndpointRequest_DELETE (hcsshim.HNSEndpoint.Id hnsEndpoint) w2
           /\ issued (hnswrapper.deleteHNSEndpointV1 ep) w
              = [Call.GetHNSEndpointByName (hnswrapper.HNSEndpoint.Name ep);
                 Call.HotDetachEndpoint
                   (hnswrapper.AttachedContainer.ContainerID (hnswrapper.HNSEndpoint.Container ep))
                   (hcsshim.HNSEndpoint.Id hnsEndpoint);
                 Call.HNSEndpointRequest_DELETE (hcsshim.HNSEndpoint.Id hnsEndpoint)]
      else hnswrapper.deleteHNSEndpointV1 ep w = (Ok tt, w2)
           /\ hnsEndpoints w2 = hnsEndpoints w).
Proof.
  intros Hfind Hdetach.
  pose proof (GetHNSEndpointByName_trace (hnswrapper.HNSEndpoint.Name ep) w) as Ht1.
  rewrite Hfind in Ht1; simpl in Ht1.
  pose proof (HotDetachEndpoint_trace
                (hnswrapper.AttachedContainer.ContainerID (hnswrapper.HNSEndpoint.Container ep))
                (hcsshim.HNSEndpoint.Id hnsEndpoint) w1) as Ht2.
  rewrite Hdetach in Ht2; simpl in Ht2.
  assert (Htab : hnsEndpoints w2 = hnsEndpoints w).
  { pose proof (HotDetachEndpoint_tables
                  (hnswrapper.AttachedContainer.ContainerID (hnswrapper.HNSEndpoint.Container ep))
                  (hcsshim.HNSEndpoint.Id hnsEndpoint) w1) as E2.
    rewrite Hdetach in E2; simpl in E2.
    apply GetHNSEndpointByName_Ok in Hfind as [_ E1]. congruence. }
  split.
  - intros Hne.
    assert (E : hnswrapper.deleteHNSEndpointV1 ep w = (Err err, w2)).
    { unfold hnswrapper.deleteHNSEndpointV1. rewrite Hfind. cbv zeta. rewrite Hdetach.
      destruct err; try reflexivity. now elim Hne. }
    split; [exact E|]. split; [exact Htab|].
    apply issued_app. rewrite E. simpl. now rewrite Ht2, Ht1, <- app_assoc.
  - intros ->.
    destruct (hnswrapper.AttachedContainer.IsInfraContainer _) eqn:Hinfra.
    + assert (E : hnswrapper.deleteHNSEndpointV1 ep w
                  = hcsshim_HNSEndpointRequest_DELETE (hcsshim.HNSEndpoint.Id hnsEndpoint) w2).
      { unfold hnswrapper.deleteHNSEndpointV1. rewrite Hfind. cbv zeta.
        rewrite Hdetach, Hinfra. reflexivity. }
      split; [exact E|]. apply issued_app. rewrite E.
      now rewrite HNSEndpointRequest_DELETE_trace, Ht2, Ht1, <- !app_assoc.
    + split; [|exact Htab].
      unfold hnswrapper.deleteHNSEndpointV1. rewrite Hfind. cbv zeta.
      rewrite Hdetach, Hinfra. reflexivity.
Qed.

End Targets.

(** ** Repeating an ADD *)
Section Repeat.
Context `{NetLib}.

(** No call changes the fault script or the version of HNS. *)
Lemma host_call_setup {A} (c : Call.t) (run : M A) (w : Host) :
  (forall w', faults (snd (run w')) = faults w' /\ hnsGlobals (snd (run w')) = hnsGlobals w') ->
  faults (snd (host_call c run w)) = faults w
  /\ hnsGlobals (snd (host_call c run w)) = hnsGlobals w.
Proof.
  intros Hrun. unfold host_call.
  destruct (faults w (trace w) c); simpl; [auto|].
  destruct (Hrun (with_trace (trace w ++ [c]) w)) as [-> ->]. auto.
Qed.

Ltac setup_of_call :=
  intros; apply host_call_setup; intros w';
  repeat match goal with
         | |- context [match ?x with _ => _ end] => destruct x
         end; simpl; auto.

Lemma CheckHNSVersion_setup v w :
  faults (snd (hnswrapper.CheckHNSVersion v w)) = faults w
  /\ hnsGlobals (snd (hnswrapper.CheckHNSVersion v w)) = hnsGlobals w.
Proof.
  unfold hnswrapper.CheckHNSVersion.
  assert (E : faults (snd (hcsshim_GetHNSGlobals w)) = faults w
              /\ hnsGlobals (snd (hcsshim_GetHNSGlobals w)) = hnsGlobals w)
    by (revert w; setup_of_call).
  destruct (hcsshim_GetHNSGlobals w) as [[hv | err |] w1]; simpl in *; auto.
  destruct (negb _); auto.
Qed.

Lemma FindOrCreateHNSNetwork_setup cfg w :
  faults (snd (hnswrapper.FindOrCreateHNSNetwork cfg w)) = faults w
  /\ hnsGlobals (snd (hnswrapper.FindOrCreateHNSNetwork cfg w)) = hnsGlobals w.
Proof.
  unfold hnswrapper.FindOrCreateHNSNetwork.
  assert (E : faults (snd (hcsshim_GetHNSNetworkByName (hnswrapper.HNSNetwork.Name cfg) w))
              = faults w
              /\ hnsGlobals (snd (hcsshim_GetHNSNetworkByName (hnswrapper.HNSNetwork.Name cfg) w))
                 = hnsGlobals w)
    by (revert w; setup_of_call).
  destruct (hcsshim_GetHNSNetworkByName _ w) as [[n | err |] w1]; simpl in *; auto.
  destruct (hnswrapper.HNSNetwork.ShouldExist cfg); simpl; auto.
  match goal with
  | |- context [hcsshim_HNSNetworkRequest_POST ?r w1] =>
      assert (E2 : faults (snd (hcsshim_HNSNetworkRequest_POST r w1)) = faults w1
                   /\ hnsGlobals (snd (hcsshim_HNSNetworkRequest_POST r w1)) = hnsGlobals w1)
        by (revert w1 E; setup_of_call);
      destruct (hcsshim_HNSNetworkRequest_POST r w1) as [[n | err' |] w2]
  end; simpl in *; destruct E, E2; split; congruence.
Qed.

Lemma disableInterface_setup a w :
  faults (snd (NetBuilder.disableInterface a w)) = faults w
  /\ hnsGlobals (snd (NetBuilder.disableInterface a w)) = hnsGlobals w.
Proof.
  unfold NetBuilder.disableInterface. run_call.
  destruct (faults w (trace w) (Call.InterfaceByName a)); simpl; auto.
  destruct (assoc_find a (interfaces w)); simpl; auto.
  destruct (strings_EqualFold _ _); simpl; auto.
  destruct (faults _ _ _); simpl; auto.
Qed.

(** On a quiet host the version check answers by the version alone. *)
Lemma CheckHNSVersion_quiet v w :
  quiet w ->
  hnswrapper.CheckHNSVersion v w
  = (fst (hnswrapper.CheckHNSVersion v w), with_trace (trace w ++ [Call.GetHNSGlobals]) w)
  /\ forall w', quiet w' -> hnsGlobals w' = hnsGlobals w ->
       fst (hnswrapper.CheckHNSVersion v w') = fst (hnswrapper.CheckHNSVersion v w).
Proof.
  intros Hq. split.
  - unfold hnswrapper.CheckHNSVersion. run_call. rewrite Hq. simpl. now destruct (negb _).
  - intros w' Hq' Hg. unfold hnswrapper.CheckHNSVersion. run_call. rewrite Hq, Hq'. simpl.
    rewrite Hg. now destruct (negb _).
Qed.

Lemma find_network_app name l n :
  hcsshim.HNSNetwork.Name n = name ->
  exists n', find_network name (l ++ [n]) = Some n'.
Proof.
  intros Hn. unfold find_network. induction l as [|x l IH]; simpl.
  - rewrite Hn, String.eqb_refl. eauto.
  - destruct (String.eqb _ name); eauto.
Qed.

(** Repeating the network step: after a [FindOrCreateNetwork] that returned
    nil on a quiet host, a second one with the same descriptor returns nil
    with the same named descriptor after the version query and the lookup
    alone, and leaves the networks as they are. *)
Theorem FindOrCreateNetwork_idempotent (nw nw1 : NetBuilder.Network.t) (w w1 : Host) :
  quiet w ->
  NetBuilder.FindOrCreateNetwork nw w = (Ok tt, nw1, w1) ->
  exists w2,
    NetBuilder.FindOrCreateNetwork nw w1 = (Ok tt, nw1, w2)
    /\ issued (NetBuilder.FindOrCreateNetwork nw) w1
       = [Call.GetHNSGlobals; Call.GetHNSNetworkByName (NetBuilder.Network.Name nw1)]
    /\ hnsNetworks w2 = hnsNetworks w1.
Proof.
  intros Hq Hrun.
  pose proof (CheckHNSVersion_setup hnswrapper.HnsDefaultMinVersion w) as [Hf0 Hg0].
  destruct (CheckHNSVersion_quiet hnswrapper.HnsDefaultMinVersion Hq) as [_ Hsame].
  unfold NetBuilder.FindOrCreateNetwork in Hrun.
  destruct (hnswrapper.CheckHNSVersion hnswrapper.HnsDefaultMinVersion w)
    as [[[] | err |] wa] eqn:Hcheck; try discriminate.
  simpl in Hf0, Hg0, Hsame.
  destruct (NetBuilder.generateHNSNetworkName nw) as [name|] eqn:Hname; [|discriminate].
  cbv zeta in Hrun.
  set (cfg := NetBuilder.networkConfigOf (NetBuilder.Network.with_Name name nw)) in *.
  pose proof (FindOrCreateHNSNetwork_setup cfg wa) as [Hf1 Hg1].
  assert (Hfound : nw1 = NetBuilder.Network.with_Name name nw
                   /\ (exists n, find_network name (hnsNetworks w1) = Some n)
                   /\ faults w1 = faults w /\ hnsGlobals w1 = hnsGlobals w).
  { destruct (hnswrapper.FindOrCreateHNSNetwork cfg wa) as [[existing | err |] wb] eqn:Hfoc;
      try discriminate.
    simpl in Hf1, Hg1. destruct existing; simpl in Hrun.
    - injection Hrun as <- <-.
      apply FindOrCreateHNSNetwork_found in Hfoc as [n Hfind].
      apply GetHNSNetworkByName_Ok in Hfind as [Hfind Htab].
      split; [reflexivity|]. split; [|split; congruence].
      exists n. now rewrite Htab.
    - destruct (NetBuilder.Network.ENI nw) as [e|]; [|discriminate].
      pose proof (disableInterface_setup (NetBuilder.vNICNameFormat (eni.GetLinkName e)) wb)
        as [Hf2 Hg2].
      pose proof (disableInterface_tables (NetBuilder.vNICNameFormat (eni.GetLinkName e)) wb)
        as [Htab2 _].
      destruct (NetBuilder.disableInterface _ wb) as [[[] | err |] wc]; simpl in *.
      + injection Hrun as <- <-.
        apply FindOrCreateHNSNetwork_created in Hfoc as (n & Htab & Hn).
        split; [reflexivity|]. split; [|split; congruence].
        rewrite Htab2, Htab. now apply find_network_app.
      + destruct (NetBuilder.DeleteNetwork _ wc); discriminate.
      + discriminate. }
  destruct Hfound as (-> & [n Hfind] & Hf & Hg).
  assert (Hq1 : quiet w1) by (intros tr c; rewrite Hf; apply Hq).
  destruct (CheckHNSVersion_quiet hnswrapper.HnsDefaultMinVersion Hq1) as [Hcheck1 _].
  rewrite (Hsame w1 Hq1 Hg) in Hcheck1.
  set (w1a := with_trace (trace w1 ++ [Call.GetHNSGlobals]) w1) in *.
  assert (Hlookup : hcsshim_GetHNSNetworkByName name w1a
                    = (Ok n, with_trace (trace w1a ++ [Call.GetHNSNetworkByName name]) w1a)).
  { run_call. subst w1a. simpl. rewrite Hq1. simpl. now rewrite Hfind. }
  eexists. split; [|split].
  - eapply FindOrCreateNetwork_existing; eassumption.
  - eapply FindOrCreateNetwork_existing; eassumption.
  - reflexivity.
Qed.

End Repeat.

Section RepeatEndpoint.
Context `{NetLib}.

Lemma host_call_faults {A} (c : Call.t) (run : M A) (w : Host) :
  (forall w', faults (snd (run w')) = faults w') ->
  faults (snd (host_call c run w)) = faults w.
Proof.
  intros Hrun. unfold host_call.
  destruct (faults w (trace w) c); simpl; [auto|]. now rewrite Hrun.
Qed.

Ltac faults_of_call :=
  intros; apply host_call_faults; intros w';
  repeat match goal with
         | |- context [match ?x with _ => _ end] => destruct x
         end; reflexivity.

Lemma AttachEndpoint_faults ep w :
  faults (snd (hnswrapper.AttachEndpoint ep w)) = faults w.
Proof.
  unfold hnswrapper.AttachEndpoint, hnswrapper.attachEndpointV2, hnswrapper.attachEndpointV1.
  destruct (hnswrapper.HCSNamespace.UseNamespace _).
  - assert (E : forall ns w, faults (snd (hcn_GetNamespaceEndpointIds ns w)) = faults w)
      by faults_of_call.
    specialize (E (hnswrapper.HCSNamespace.NetNSName (hnswrapper.HNSEndpoint.NetNS ep)) w).
    destruct (hcn_GetNamespaceEndpointIds _ w) as [[ids | err |] w1]; simpl in *; auto.
    destruct (hnswrapper.alreadyInNamespace ids); simpl; auto.
    rewrite <- E. revert w1 E. faults_of_call.
  - revert w. faults_of_call.
Qed.

Lemma FindOrCreateHNSEndpoint_faults cfg w :
  faults (snd (hnswrapper.FindOrCreateHNSEndpoint cfg w)) = faults w.
Proof.
  unfold hnswrapper.FindOrCreateHNSEndpoint.
  assert (E : forall name w, faults (snd (hcsshim_GetHNSEndpointByName name w)) = faults w)
    by faults_of_call.
  specialize (E (hnswrapper.HNSEndpoint.Name cfg) w).
  destruct (hcsshim_GetHNSEndpointByName _ w) as [[e | err |] w1]; simpl in *; auto.
  destruct (negb _ && negb _); simpl; auto.
  assert (E2 : forall r w, faults (snd (hcsshim_HNSEndpointRequest_POST r w)) = faults w)
    by faults_of_call.
  specialize (E2 (hnswrapper.endpointRequest cfg) w1).
  destruct (hcsshim_HNSEndpointRequest_POST _ w1) as [[r | err' |] w2]; simpl in *; congruence.
Qed.

(** On a quiet host a lookup fails only for a name that the table does not
    hold. *)
Lemma GetHNSEndpointByName_quiet name w :
  quiet w ->
  hcsshim_GetHNSEndpointByName name w
  = (match find_endpoint name (hnsEndpoints w) with
     | Some e => Ok e
     | None => Err (ErrEndpointNotFound name)
     end,
     with_trace (trace w ++ [Call.GetHNSEndpointByName name]) w).
Proof.
  intros Hq. run_call. rewrite Hq. simpl. now destruct (find_endpoint _ _).
Qed.

Lemma find_endpoint_app_new name l e :
  find_endpoint name l = None ->
  hcsshim.HNSEndpoint.Name e = name ->
  find_endpoint name (l ++ [e]) = Some e.
Proof.
  unfold find_endpoint. intros Hnone He. induction l as [|x l IH]; simpl in *.
  - now rewrite He, String.eqb_refl.
  - destruct (String.eqb _ name); [discriminate | auto].
Qed.

(** After [FindOrCreateHNSEndpoint] has returned nil on a quiet host, the
    table answers the name with the endpoint whose fields came back. *)
Lemma FindOrCreateHNSEndpoint_then_found cfg w existing hep w1 :
  quiet w ->
  hnswrapper.FindOrCreateHNSEndpoint cfg w = (Ok existing, hep, w1) ->
  exists e,
    find_endpoint (hnswrapper.HNSEndpoint.Name cfg) (hnsEndpoints w1) = Some e
    /\ hep = hnswrapper.populateEndpointFieldsFromResponse e cfg.
Proof.
  intros Hq. unfold hnswrapper.FindOrCreateHNSEndpoint.
  rewrite (GetHNSEndpointByName_quiet _ Hq).
  destruct (find_endpoint _ (hnsEndpoints w)) as [e|] eqn:Hfind.
  - intros [= <- <- <-]. eauto.
  - destruct (negb _ && negb _); [discriminate|].
    run_call. simpl. rewrite Hq. simpl. intros [= <- <- <-]. simpl.
    eexists; split; [|reflexivity].
    now apply find_endpoint_app_new.
Qed.

(** Repeating the endpoint step for an infra container or an HCS namespace:
    after a [FindOrCreateEndpoint] that returned nil on a quiet host, a
    second one with the same descriptors returns nil with the same
    descriptors after the lookup alone, and leaves endpoints, namespaces and
    containers as they are. *)
Theorem FindOrCreateEndpoint_idempotent (nw nw1 : netBuilder.Network.t)
    (ep ep1 : netBuilder.Endpoint.t) (w w1 : Host) :
  quiet w ->
  fst (netBuilder.getNamespaceIdentifier ep) <> netBuilder.nonInfraContainerNS ->
  netBuilder.FindOrCreateEndpoint nw ep w = (Ok tt, nw1, ep1, w1) ->
  exists w2,
    netBuilder.FindOrCreateEndpoint nw ep w1 = (Ok tt, nw1, ep1, w2)
    /\ issued (netBuilder.FindOrCreateEndpoint nw ep) w1
       = [Call.GetHNSEndpointByName
            (hnswrapper.HNSEndpoint.Name (netBuilder.endpointConfigOf nw ep))]
    /\ hnsEndpoints w2 = hnsEndpoints w1
    /\ namespaces w2 = namespaces w1
    /\ computeSystems w2 = computeSystems w1.
Proof.
  intros Hq Hmode Hrun.
  set (cfg := netBuilder.endpointConfigOf nw ep) in *.
  assert (Hcfg : hnswrapper.AttachedContainer.IsInfraContainer (hnswrapper.HNSEndpoint.Container cfg)
                 || hnswrapper.HCSNamespace.UseNamespace (hnswrapper.HNSEndpoint.NetNS cfg) = true).
  { subst cfg. unfold netBuilder.endpointConfigOf.
    destruct (netBuilder.getNamespaceIdentifier ep) as [[| |] id]; simpl in *;
      [reflexivity | now elim Hmode | reflexivity]. }
  unfold netBuilder.FindOrCreateEndpoint in Hrun. fold cfg in Hrun. cbv zeta in Hrun.
  pose proof (FindOrCreateHNSEndpoint_faults cfg w) as Hf.
  destruct (hnswrapper.FindOrCreateHNSEndpoint cfg w) as [[[existing | err |] hep] wa] eqn:Hfoc;
    try discriminate.
  simpl in Hf.
  apply FindOrCreateHNSEndpoint_then_found in Hfoc as (e & Hfind & ->); [|exact Hq].
  simpl in Hrun. rewrite Hcfg in Hrun.
  assert (Hfirst : find_endpoint (hnswrapper.HNSEndpoint.Name cfg) (hnsEndpoints w1) = Some e
                   /\ faults w1 = faults w
                   /\ nw1 = netBuilder.Network.with_GatewayIPAddress
                              (ParseIP (hcsshim.HNSEndpoint.GatewayAddress e)) nw
                   /\ ep1 = netBuilder.Endpoint.with_addresses
                              (Some {| IPNet_IP := hcsshim.HNSEndpoint.IPAddress e;
                                       IPNet_Mask := CIDRMask (hcsshim.HNSEndpoint.PrefixLength e) 32 |})
                              (ParseMAC (hcsshim.HNSEndpoint.MacAddress e)) ep).
  { destruct existing.
    - injection Hrun as <- <- <-. auto.
    - pose proof (AttachEndpoint_tables
                    (hnswrapper.populateEndpointFieldsFromResponse e cfg) wa) as Htab.
      pose proof (AttachEndpoint_faults
                    (hnswrapper.populateEndpointFieldsFromResponse e cfg) wa) as Hf2.
      destruct (hnswrapper.AttachEndpoint _ wa) as [[[] | err |] wb]; simpl in *.
      + injection Hrun as <- <- <-. repeat split; congruence.
      + destruct (hnswrapper.DeleteHNSEndpoint _ wb); discriminate.
      + discriminate. }
  destruct Hfirst as (Hfind1 & Hf1 & -> & ->).
  assert (Hq1 : quiet w1) by (intros tr c; rewrite Hf1; apply Hq).
  assert (E : netBuilder.FindOrCreateEndpoint nw ep w1
              = (Ok tt,
                 netBuilder.Network.with_GatewayIPAddress
                   (ParseIP (hcsshim.HNSEndpoint.GatewayAddress e)) nw,
                 netBuilder.Endpoint.with_addresses
                   (Some {| IPNet_IP := hcsshim.HNSEndpoint.IPAddress e;
                            IPNet_Mask := CIDRMask (hcsshim.HNSEndpoint.PrefixLength e) 32 |})
                   (ParseMAC (hcsshim.HNSEndpoint.MacAddress e)) ep,
                 with_trace (trace w1 ++ [Call.GetHNSEndpointByName (hnswrapper.HNSEndpoint.Name cfg)])
                            w1)).
  { unfold netBuilder.FindOrCreateEndpoint. fold cfg. cbv zeta.
    unfold hnswrapper.FindOrCreateHNSEndpoint.
    rewrite (GetHNSEndpointByName_quiet _ Hq1), Hfind1. simpl. now rewrite Hcfg. }
  eexists. split; [exact E|]. split; [|repeat split].
  apply issued_app. now rewrite E.
Qed.

End RepeatEndpoint.

(** ** The ADD handler *)
Section AddCalls.
Context `{NetLib}.

Ltac one_call Ht := eapply appends_one; [exact Ht | reflexivity].
Ltac then_call Ht := eapply appends_trans; [one_call Ht|].

Lemma FindOrCreateHNSNetwork_appends cfg w :
  appends is_network_call w (snd (hnswrapper.FindOrCreateHNSNetwork cfg w)).
Proof.
  unfold hnswrapper.FindOrCreateHNSNetwork.
  pose proof (GetHNSNetworkByName_trace (hnswrapper.HNSNetwork.Name cfg) w) as Ht.
  destruct (hcsshim_GetHNSNetworkByName _ w) as [[n | err |] w1]; simpl in Ht;
    try one_call Ht.
  destruct (hnswrapper.HNSNetwork.ShouldExist cfg); [one_call Ht|].
  then_call Ht.
  match goal with
  | |- context [hcsshim_HNSNetworkRequest_POST ?r w1] =>
      pose proof (HNSNetworkRequest_POST_trace r w1) as Ht2;
      destruct (hcsshim_HNSNetworkRequest_POST r w1) as [[n | err' |] w2]
  end; simpl in Ht2 |- *; one_call Ht2.
Qed.

Lemma FindOrCreateNetwork_appends (nw : NetBuilder.Network.t) w :
  appends is_network_step_call w (snd (NetBuilder.FindOrCreateNetwork nw w)).
Proof.
  unfold NetBuilder.FindOrCreateNetwork.
  pose proof (CheckHNSVersion_trace hnswrapper.HnsDefaultMinVersion w) as Ht.
  destruct (hnswrapper.CheckHNSVersion _ w) as [[[] | err |] w1]; simpl in Ht;
    try one_call Ht.
  destruct (NetBuilder.generateHNSNetworkName nw) as [name|]; [|one_call Ht].
  then_call Ht. cbv zeta.
  set (cfg := NetBuilder.networkConfigOf _).
  pose proof (FindOrCreateHNSNetwork_appends cfg w1) as Ha.
  apply appends_weaken with (Q := is_network_step_call) in Ha;
    [|intros c Hc; destruct c; simpl in *; auto].
  destruct (hnswrapper.FindOrCreateHNSNetwork cfg w1) as [[existing | err |] w2]; simpl in Ha |- *;
    try exact Ha.
  destruct existing; simpl; [exact Ha|].
  destruct (NetBuilder.Network.ENI nw) as [e|]; [|exact Ha].
  eapply appends_trans; [exact Ha|].
  pose proof (disableInterface_appends (NetBuilder.vNICNameFormat (eni.GetLinkName e)) w2) as Hd.
  apply appends_weaken with (Q := is_network_step_call) in Hd;
    [|intros c Hc; destruct c; simpl in *; auto; discriminate].
  destruct (NetBuilder.disableInterface _ w2) as [[[] | err |] w3]; simpl in Hd |- *;
    try exact Hd.
  eapply appends_trans; [exact Hd|].
  pose proof (DeleteHNSNetwork_appends
                {| hnswrapper.HNSNetwork.Name := name;
                   hnswrapper.HNSNetwork.Type_ := "";
                   hnswrapper.HNSNetwork.NetworkAdapterName := "";
                   hnswrapper.HNSNetwork.AddressPrefix := "";
                   hnswrapper.HNSNetwork.Gateway := "";
                   hnswrapper.HNSNetwork.ShouldExist := false |} w3) as Hdel.
  apply appends_weaken with (Q := is_network_step_call) in Hdel;
    [|intros c Hc; destruct c; simpl in *; auto; discriminate].
  unfold NetBuilder.DeleteNetwork. simpl.
  destruct (hnswrapper.DeleteHNSNetwork _ w3). exact Hdel.
Qed.

Lemma FindOrCreateHNSEndpoint_appends cfg w :
  appends is_endpoint_call w (snd (hnswrapper.FindOrCreateHNSEndpoint cfg w)).
Proof.
  unfold hnswrapper.FindOrCreateHNSEndpoint.
  pose proof (GetHNSEndpointByName_trace (hnswrapper.HNSEndpoint.Name cfg) w) as Ht.
  destruct (hcsshim_GetHNSEndpointByName _ w) as [[e | err |] w1]; simpl in Ht;
    try one_call Ht.
  destruct (negb _ && negb _); [one_call Ht|].
  then_call Ht.
  pose proof (HNSEndpointRequest_POST_trace (hnswrapper.endpointRequest cfg) w1) as Ht2.
  destruct (hcsshim_HNSEndpointRequest_POST _ w1) as [[r | err' |] w2]; simpl in Ht2 |- *;
    one_call Ht2.
Qed.

Lemma findOrCreateAndAttach_appends (nw : NetBuilder.Network.t) ep hep w :
  appends is_endpoint_call w (snd (NetBuilder.findOrCreateAndAttach nw ep hep w)).
Proof.
  unfold NetBuilder.findOrCreateAndAttach.
  pose proof (FindOrCreateHNSEndpoint_appends hep w) as Ha.
  destruct (hnswrapper.FindOrCreateHNSEndpoint hep w) as [[[existing | err |] hep1] w1];
    simpl in Ha |- *; try exact Ha.
  eapply appends_trans; [exact Ha|].
  pose proof (AttachEndpoint_appends hep1 w1) as Hb.
  destruct existing.
  - destruct (_ || _); [apply appends_refl|].
    destruct (hnswrapper.AttachEndpoint hep1 w1); exact Hb.
  - destruct (hnswrapper.AttachEndpoint hep1 w1) as [[[] | err |] w2]; simpl in Hb |- *;
      try exact Hb.
    eapply appends_trans; [exact Hb|].
    pose proof (DeleteHNSEndpoint_appends hep1 w2) as Hc.
    apply appends_weaken with (Q := is_endpoint_call) in Hc;
      [|intros c Hcc; now apply andb_prop in Hcc].
    destruct (hnswrapper.DeleteHNSEndpoint hep1 w2). exact Hc.
Qed.

Lemma NetBuilder_FindOrCreateEndpoint_appends (nw : NetBuilder.Network.t) ep w :
  appends is_endpoint_call w (snd (NetBuilder.FindOrCreateEndpoint nw ep w)).
Proof.
  unfold NetBuilder.FindOrCreateEndpoint.
  destruct (NetBuilder.Endpoint.NoInfraContainer ep); [apply findOrCreateAndAttach_appends|].
  destruct (NetBuilder.getInfraContainerID ep) as [[b id] | err |]; simpl;
    try apply appends_refl.
  apply findOrCreateAndAttach_appends.
Qed.

(** A call that does not address a network leaves the table of networks
    alone. *)
Lemma host_call_networks {A} (c : Call.t) (run : M A) (w : Host) :
  (forall w', hnsNetworks (snd (run w')) = hnsNetworks w') ->
  hnsNetworks (snd (host_call c run w)) = hnsNetworks w.
Proof.
  intros Hrun. unfold host_call.
  destruct (faults w (trace w) c); simpl; [auto|]. now rewrite Hrun.
Qed.

Ltac networks_of_call :=
  intros; apply host_call_networks; intros w';
  repeat match goal with
         | |- context [match ?x with _ => _ end] => destruct x
         end; reflexivity.

Lemma AttachEndpoint_networks ep w :
  hnsNetworks (snd (hnswrapper.AttachEndpoint ep w)) = hnsNetworks w.
Proof.
  unfold hnswrapper.AttachEndpoint, hnswrapper.attachEndpointV2, hnswrapper.attachEndpointV1.
  destruct (hnswrapper.HCSNamespace.UseNamespace _).
  - assert (E : forall ns w, hnsNetworks (snd (hcn_GetNamespaceEndpointIds ns w)) = hnsNetworks w)
      by networks_of_call.
    specialize (E (hnswrapper.HCSNamespace.NetNSName (hnswrapper.HNSEndpoint.NetNS ep)) w).
    destruct (hcn_GetNamespaceEndpointIds _ w) as [[ids | err |] w1]; simpl in *; auto.
    destruct (hnswrapper.alreadyInNamespace ids); simpl; auto.
    rewrite <- E. revert w1 E. networks_of_call.
  - revert w. networks_of_call.
Qed.

Lemma FindOrCreateHNSEndpoint_networks cfg w :
  hnsNetworks (snd (hnswrapper.FindOrCreateHNSEndpoint cfg w)) = hnsNetworks w.
Proof.
  unfold hnswrapper.FindOrCreateHNSEndpoint.
  assert (E : forall name w, hnsNetworks (snd (hcsshim_GetHNSEndpointByName name w)) = hnsNetworks w)
    by networks_of_call.
  specialize (E (hnswrapper.HNSEndpoint.Name cfg) w).
  destruct (hcsshim_GetHNSEndpointByName _ w) as [[e | err |] w1]; simpl in *; auto.
  destruct (negb _ && negb _); simpl; auto.
  assert (E2 : forall r w, hnsNetworks (snd (hcsshim_HNSEndpointRequest_POST r w)) = hnsNetworks w)
    by networks_of_call.
  specialize (E2 (hnswrapper.endpointRequest cfg) w1).
  destruct (hcsshim_HNSEndpointRequest_POST _ w1) as [[r | err' |] w2]; simpl in *; congruence.
Qed.

Lemma DeleteHNSEndpoint_networks ep w :
  hnsNetworks (snd (hnswrapper.DeleteHNSEndpoint ep w)) = hnsNetworks w.
Proof.
  unfold hnswrapper.DeleteHNSEndpoint, hnswrapper.deleteHNSEndpointV2,
    hnswrapper.deleteHNSEndpointV1. run_call.
  repeat match goal with
         | |- context [match ?x with _ => _ end] =>
             lazymatch x with
             | context [match _ with _ => _ end] => fail
             | _ => destruct x; simpl
             end
         end; reflexivity.
Qed.

Lemma findOrCreateAndAttach_networks (nw : NetBuilder.Network.t) ep hep w :
  hnsNetworks (snd (NetBuilder.findOrCreateAndAttach nw ep hep w)) = hnsNetworks w.
Proof.
  unfold NetBuilder.findOrCreateAndAttach.
  pose proof (FindOrCreateHNSEndpoint_networks hep w) as Ha.
  destruct (hnswrapper.FindOrCreateHNSEndpoint hep w) as [[[existing | err |] hep1] w1];
    simpl in Ha |- *; try exact Ha.
  pose proof (AttachEndpoint_networks hep1 w1) as Hb.
  destruct existing.
  - destruct (_ || _); [exact Ha|].
    destruct (hnswrapper.AttachEndpoint hep1 w1); simpl in *; congruence.
  - destruct (hnswrapper.AttachEndpoint hep1 w1) as [[[] | err |] w2]; simpl in Hb |- *;
      try congruence.
    pose proof (DeleteHNSEndpoint_networks hep1 w2) as Hc.
    destruct (hnswrapper.DeleteHNSEndpoint hep1 w2); simpl in *; congruence.
Qed.

Lemma NetBuilder_FindOrCreateEndpoint_networks (nw : NetBuilder.Network.t) ep w :
  hnsNetworks (snd (NetBuilder.FindOrCreateEndpoint nw ep w)) = hnsNetworks w.
Proof.
  unfold NetBuilder.FindOrCreateEndpoint.
  destruct (NetBuilder.Endpoint.NoInfraContainer ep); [apply findOrCreateAndAttach_networks|].
  destruct (NetBuilder.getInfraContainerID ep) as [[b id] | err |]; simpl; auto.
  apply findOrCreateAndAttach_networks.
Qed.

(** The network step leaves the table of endpoints alone. *)
Lemma FindOrCreateNetwork_endpoints (nw : NetBuilder.Network.t) w :
  hnsEndpoints (snd (NetBuilder.FindOrCreateNetwork nw w)) = hnsEndpoints w.
Proof.
  unfold NetBuilder.FindOrCreateNetwork.
  pose proof (CheckHNSVersion_tables hnswrapper.HnsDefaultMinVersion w) as [_ E1].
  destruct (hnswrapper.CheckHNSVersion _ w) as [[[] | err0 |] wa]; simpl in E1 |- *;
    try exact E1.
  destruct (NetBuilder.generateHNSNetworkName nw) as [name|]; [|exact E1].
  cbv zeta. set (cfg := NetBuilder.networkConfigOf _).
  assert (E2 : hnsEndpoints (snd (hnswrapper.FindOrCreateHNSNetwork cfg wa)) = hnsEndpoints wa).
  { unfold hnswrapper.FindOrCreateHNSNetwork. run_call.
    repeat match goal with
           | |- context [match ?x with _ => _ end] =>
               lazymatch x with
               | context [match _ with _ => _ end] => fail
               | _ => destruct x; simpl
               end
           end; reflexivity. }
  destruct (hnswrapper.FindOrCreateHNSNetwork cfg wa) as [[existing | err0 |] wb];
    simpl in E2 |- *; try congruence.
  destruct existing; simpl; [congruence|].
  destruct (NetBuilder.Network.ENI nw) as [e|]; [|simpl; congruence].
  pose proof (disableInterface_tables (NetBuilder.vNICNameFormat (eni.GetLinkName e)) wb)
    as [_ E3].
  destruct (NetBuilder.disableInterface _ wb) as [[[] | err0 |] wc]; simpl in E3 |- *;
    try congruence.
  assert (E4 : forall nw0, hnsEndpoints (snd (NetBuilder.DeleteNetwork nw0 wc)) = hnsEndpoints wc).
  { intros nw0. unfold NetBuilder.DeleteNetwork, hnswrapper.DeleteHNSNetwork. run_call.
    repeat match goal with
           | |- context [match ?x with _ => _ end] =>
               lazymatch x with
               | context [match _ with _ => _ end] => fail
               | _ => destruct x; simpl
               end
           end; reflexivity. }
  match goal with
  | |- context [NetBuilder.DeleteNetwork ?n wc] =>
      specialize (E4 n); destruct (NetBuilder.DeleteNetwork n wc) as [r wd]
  end.
  simpl in E4 |- *. congruence.
Qed.

End AddCalls.

Section AddHandler.
Context `{NetLib} `{!config.PluginLib} `{!cniTypesCurrent.CNILib}.

(** An endpoint that [FindOrCreateHNSEndpoint] found or created is in the
    table afterwards, and its fields are those that come back. *)
Lemma FindOrCreateHNSEndpoint_Ok_in cfg w existing hep w1 :
  hnswrapper.FindOrCreateHNSEndpoint cfg w = (Ok existing, hep, w1) ->
  exists e,
    In e (hnsEndpoints w1)
    /\ hcsshim.HNSEndpoint.Name e = hnswrapper.HNSEndpoint.Name cfg
    /\ hep = hnswrapper.populateEndpointFieldsFromResponse e cfg.
Proof.
  destruct existing.
  - unfold hnswrapper.FindOrCreateHNSEndpoint.
    destruct (hcsshim_GetHNSEndpointByName _ w) as [[e | err |] w0] eqn:Hfind.
    + intros [= <- <-]. apply GetHNSEndpointByName_Ok in Hfind as [Hfind Htab].
      exists e. unfold find_endpoint in Hfind. apply find_some in Hfind as [Hin Hn].
      rewrite Htab. repeat split; auto. now apply String.eqb_eq.
    + destruct (negb _ && negb _); [discriminate|].
      destruct (hcsshim_HNSEndpointRequest_POST _ w0) as [[? | ? |] ?]; discriminate.
    + discriminate.
  - intros Hnew. apply FindOrCreateHNSEndpoint_created in Hnew as (resp & Htab & Hn & -> & _).
    exists resp. rewrite Htab. repeat split; auto. apply in_or_app. right. now left.
Qed.

(** After a [FindOrCreateEndpoint] that returned nil, the descriptors carry
    the addresses of an endpoint that HNS holds. *)
Lemma NetBuilder_FindOrCreateEndpoint_Ok (nw nw2 : NetBuilder.Network.t)
    (ep ep2 : NetBuilder.Endpoint.t) (w w2 : Host) :
  NetBuilder.FindOrCreateEndpoint nw ep w = (Ok tt, nw2, ep2, w2) ->
  exists e,
    In e (hnsEndpoints w2)
    /\ nw2 = NetBuilder.Network.with_GatewayIPAddress
               (ParseIP (hcsshim.HNSEndpoint.GatewayAddress e)) nw
    /\ ep2 = NetBuilder.Endpoint.with_addresses
               (Some {| IPNet_IP := hcsshim.HNSEndpoint.IPAddress e;
                        IPNet_Mask := CIDRMask (hcsshim.HNSEndpoint.PrefixLength e) 32 |})
               (ParseMAC (hcsshim.HNSEndpoint.MacAddress e)) ep.
Proof.
  assert (Hbody : forall hep,
            NetBuilder.findOrCreateAndAttach nw ep hep w = (Ok tt, nw2, ep2, w2) ->
            exists e,
              In e (hnsEndpoints w2)
              /\ nw2 = NetBuilder.Network.with_GatewayIPAddress
                         (ParseIP (hcsshim.HNSEndpoint.GatewayAddress e)) nw
              /\ ep2 = NetBuilder.Endpoint.with_addresses
                         (Some {| IPNet_IP := hcsshim.HNSEndpoint.IPAddress e;
                                  IPNet_Mask := CIDRMask (hcsshim.HNSEndpoint.PrefixLength e) 32 |})
                         (ParseMAC (hcsshim.HNSEndpoint.MacAddress e)) ep).
  { intros hep. unfold NetBuilder.findOrCreateAndAttach.
    destruct (hnswrapper.FindOrCreateHNSEndpoint hep w) as [[[existing | err |] hep1] w1] eqn:Hfoc;
      try discriminate.
    apply FindOrCreateHNSEndpoint_Ok_in in Hfoc as (e & Hin & _ & ->).
    pose proof (AttachEndpoint_tables (hnswrapper.populateEndpointFieldsFromResponse e hep) w1)
      as Htab.
    simpl. intros Hrun. exists e.
    destruct existing.
    - destruct (_ || _).
      + injection Hrun as <- <- <-. auto.
      + destruct (hnswrapper.AttachEndpoint _ w1) as [r w3]; simpl in Htab.
        injection Hrun as -> <- <- <-. rewrite Htab. auto.
    - destruct (hnswrapper.AttachEndpoint _ w1) as [[[] | err |] w3]; simpl in Htab.
      + injection Hrun as <- <- <-. rewrite Htab. auto.
      + destruct (hnswrapper.DeleteHNSEndpoint _ w3); discriminate.
      + discriminate. }
  unfold NetBuilder.FindOrCreateEndpoint.
  destruct (NetBuilder.Endpoint.NoInfraContainer ep); [apply Hbody|].
  destruct (NetBuilder.getInfraContainerID ep) as [[b id] | err |]; try discriminate.
  apply Hbody.
Qed.

(** When the network step fails, [Add] returns its error as a failure to
    create or find the network, prints nothing, and has issued no call that
    addresses an endpoint: the endpoints are as before. *)
Theorem Add_stops_at_network_failure (args : config.CmdArgs.t) (w w1 : Host)
    (netConfig : config.NetConfig.t) (nw1 : NetBuilder.Network.t) (err : error) :
  config.New args = Ok netConfig ->
  NetBuilder.FindOrCreateNetwork (Plugin.addNetworkOf netConfig) w = (Err err, nw1, w1) ->
  Plugin.Add Plugin.windowsBuilder args w
  = (Err (ErrorfV "failed to create/find network: %v" [] err), None, w1)
  /\ forallb (fun c => negb (is_endpoint_call c)) (issued (Plugin.Add Plugin.windowsBuilder args) w)
     = true
  /\ hnsEndpoints w1 = hnsEndpoints w.
Proof.
  intros Hconfig Hnet.
  assert (E : Plugin.Add Plugin.windowsBuilder args w
              = (Err (ErrorfV "failed to create/find network: %v" [] err), None, w1)).
  { unfold Plugin.Add. rewrite Hconfig. cbv zeta. simpl Plugin.FindOrCreateNetwork.
    now rewrite Hnet. }
  pose proof (FindOrCreateNetwork_appends (Plugin.addNetworkOf netConfig) w) as Ha.
  rewrite Hnet in Ha. simpl in Ha.
  split; [exact E|]. split.
  - apply appends_issued. rewrite E. simpl.
    eapply appends_weaken; [|exact Ha].
    intros c Hc. now destruct c.
  - pose proof (FindOrCreateNetwork_endpoints (Plugin.addNetworkOf netConfig) w) as Hn.
    now rewrite Hnet in Hn.
Qed.

(** When the endpoint step fails, [Add] returns its error as a failure to
    create or find the endpoint and prints nothing.  What it issued after
    the calls of the network step are endpoint calls only, and the networks
    are as the network step left them: a network that this ADD created
    stays. *)
Theorem Add_keeps_network_on_endpoint_failure (args : config.CmdArgs.t) (w w1 w2 : Host)
    (netConfig : config.NetConfig.t) (nw1 nw2 : NetBuilder.Network.t)
    (ep2 : NetBuilder.Endpoint.t) (err : error) :
  config.New args = Ok netConfig ->
  NetBuilder.FindOrCreateNetwork (Plugin.addNetworkOf netConfig) w = (Ok tt, nw1, w1) ->
  NetBuilder.FindOrCreateEndpoint nw1 (Plugin.endpointOf netConfig args) w1
  = (Err err, nw2, ep2, w2) ->
  Plugin.Add Plugin.windowsBuilder args w
  = (Err (ErrorfV "failed to create/find endpoint: %v" [] err), None, w2)
  /\ hnsNetworks w2 = hnsNetworks w1
  /\ exists l, issued (Plugin.Add Plugin.windowsBuilder args) w
               = (issued (NetBuilder.FindOrCreateNetwork (Plugin.addNetworkOf netConfig)) w ++ l)%list
               /\ forallb is_endpoint_call l = true.
Proof.
  intros Hconfig Hnet Hep.
  assert (E : Plugin.Add Plugin.windowsBuilder args w
              = (Err (ErrorfV "failed to create/find endpoint: %v" [] err), None, w2)).
  { unfold Plugin.Add. rewrite Hconfig. cbv zeta. simpl Plugin.FindOrCreateNetwork.
    rewrite Hnet. simpl Plugin.FindOrCreateEndpoint. now rewrite Hep. }
  split; [exact E|]. split.
  - pose proof (NetBuilder_FindOrCreateEndpoint_networks nw1 (Plugin.endpointOf netConfig args) w1)
      as Hn.
    now rewrite Hep in Hn.
  - pose proof (FindOrCreateNetwork_appends (Plugin.addNetworkOf netConfig) w) as (l1 & Ht1 & _).
    pose proof (NetBuilder_FindOrCreateEndpoint_appends nw1 (Plugin.endpointOf netConfig args) w1)
      as (l2 & Ht2 & Hl2).
    rewrite Hep in Ht2. simpl in Ht2.
    rewrite (issued_app _ _ _ Ht1). rewrite Hnet in Ht1. simpl in Ht1.
    exists l2. split; [|exact Hl2].
    apply issued_app. rewrite E. simpl. now rewrite Ht2, Ht1, app_assoc.
Qed.

(** When both steps return nil, [Add] does not panic on [ep.IPAddress]: it
    hands to [PrintResult] the interface name and the netns of the arguments
    with the MAC address, the IP address with its prefix length and the
    gateway of an endpoint that HNS holds, and returns what [PrintResult]
    returns. *)
Theorem Add_reports_HNS_addresses (args : config.CmdArgs.t) (w w1 w2 : Host)
    (netConfig : config.NetConfig.t) (nw1 nw2 : NetBuilder.Network.t)
    (ep2 : NetBuilder.Endpoint.t) :
  config.New args = Ok netConfig ->
  NetBuilder.FindOrCreateNetwork (Plugin.addNetworkOf netConfig) w = (Ok tt, nw1, w1) ->
  NetBuilder.FindOrCreateEndpoint nw1 (Plugin.endpointOf netConfig args) w1
  = (Ok tt, nw2, ep2, w2) ->
  exists e,
    In e (hnsEndpoints w2)
    /\ let result :=
         {| cniTypesCurrent.Result.Interfaces :=
              [ {| cniTypesCurrent.Interface.Name := config.CmdArgs.IfName args;
                   cniTypesCurrent.Interface.Mac :=
                     HardwareAddr_String_nil (ParseMAC (hcsshim.HNSEndpoint.MacAddress e));
                   cniTypesCurrent.Interface.Sandbox := config.CmdArgs.Netns args |} ];
            cniTypesCurrent.Result.IPs :=
              [ {| cniTypesCurrent.IPConfig.Version := "4";
                   cniTypesCurrent.IPConfig.Interface := Some 0%Z;
                   cniTypesCurrent.IPConfig.Address :=
                     {| IPNet_IP := hcsshim.HNSEndpoint.IPAddress e;
                        IPNet_Mask := CIDRMask (hcsshim.HNSEndpoint.PrefixLength e) 32 |};
                   cniTypesCurrent.IPConfig.Gateway :=
                     ParseIP (hcsshim.HNSEndpoint.GatewayAddress e) |} ] |} in
       Plugin.Add Plugin.windowsBuilder args w
       = (cniTypesCurrent.PrintResult result
            (config.NetConf.CNIVersion (config.NetConfig.NetConf netConfig)),
          Some result, w2).
Proof.
  intros Hconfig Hnet Hep.
  pose proof Hep as Hok.
  apply NetBuilder_FindOrCreateEndpoint_Ok in Hok as (e & Hin & -> & ->).
  exists e. split; [exact Hin|]. cbv zeta.
  unfold Plugin.Add. rewrite Hconfig. cbv zeta. simpl Plugin.FindOrCreateNetwork.
  rewrite Hnet. simpl Plugin.FindOrCreateEndpoint. rewrite Hep. reflexivity.
Qed.

End AddHandler.

(** ** ADD and DEL together *)
Section AddAndDel.
Context `{NetLib} `{!config.PluginLib} `{!cniTypesCurrent.CNILib}.

Lemma hd_issued {R} (m : Host -> R * Host) (w : Host) (c : Call.t) (l : list Call.t) :
  trace (snd (m w)) = (trace w ++ c :: l)%list -> hd_error (issued m w) = Some c.
Proof. intros E. now rewrite (issued_app _ _ _ E). Qed.

Lemma appends_after {P} (w w1 w2 : Host) (c : Call.t) (l : list Call.t) :
  trace w1 = (trace w ++ c :: l)%list -> appends P w1 w2 ->
  exists l', trace w2 = (trace w ++ c :: l')%list.
Proof.
  intros E (l2 & E2 & _). exists (l ++ l2)%list.
  now rewrite E2, E, <- app_assoc.
Qed.

Lemma FindOrCreateHNSEndpoint_first cfg w :
  exists l, trace (snd (hnswrapper.FindOrCreateHNSEndpoint cfg w))
            = (trace w ++ Call.GetHNSEndpointByName (hnswrapper.HNSEndpoint.Name cfg) :: l)%list.
Proof.
  unfold hnswrapper.FindOrCreateHNSEndpoint.
  pose proof (GetHNSEndpointByName_trace (hnswrapper.HNSEndpoint.Name cfg) w) as Ht.
  destruct (hcsshim_GetHNSEndpointByName _ w) as [[e | err |] w1]; simpl in Ht |- *;
    try (exists []; exact Ht).
  destruct (negb _ && negb _); [exists []; exact Ht|].
  pose proof (HNSEndpointRequest_POST_trace (hnswrapper.endpointRequest cfg) w1) as Ht2.
  destruct (hcsshim_HNSEndpointRequest_POST _ w1) as [[r | err' |] w2]; simpl in Ht2 |- *;
    eexists; rewrite Ht2, Ht, <- app_assoc; reflexivity.
Qed.

Lemma DeleteHNSEndpoint_first ep w :
  exists l, trace (snd (hnswrapper.DeleteHNSEndpoint ep w))
            = (trace w ++ Call.GetHNSEndpointByName (hnswrapper.HNSEndpoint.Name ep) :: l)%list.
Proof.
  pose proof (GetHNSEndpointByName_trace (hnswrapper.HNSEndpoint.Name ep) w) as Ht.
  assert (Hrest : forall (rest : hcsshim.HNSEndpoint.t -> M unit),
            (forall e w0, exists l, trace (snd (rest e w0)) = (trace w0 ++ l)%list) ->
            exists l,
              trace (snd (match hcsshim_GetHNSEndpointByName (hnswrapper.HNSEndpoint.Name ep) w with
                          | (Ok e, w0) => rest e w0
                          | (Err err, w0) => (Err err, w0)
                          | (Panic, w0) => (Panic, w0)
                          end))
              = (trace w ++ Call.GetHNSEndpointByName (hnswrapper.HNSEndpoint.Name ep) :: l)%list).
  { intros rest Hr.
    destruct (hcsshim_GetHNSEndpointByName _ w) as [[e | err |] w1]; simpl in Ht |- *;
      try (exists []; exact Ht).
    destruct (Hr e w1) as [l El]. exists l. now rewrite El, Ht, <- app_assoc. }
  unfold hnswrapper.DeleteHNSEndpoint, hnswrapper.deleteHNSEndpointV2,
    hnswrapper.deleteHNSEndpointV1.
  destruct (hnswrapper.HCSNamespace.UseNamespace _).
  - apply (Hrest (fun e w0 =>
                    match hcn_RemoveNamespaceEndpoint
                            (hnswrapper.HCSNamespace.NetNSName (hnswrapper.HNSEndpoint.NetNS ep))
                            (hcsshim.HNSEndpoint.Id e) w0 with
                    | (Err err, w) => (Err err, w)
                    | (Panic, w) => (Panic, w)
                    | (Ok _, w) => hcsshim_HNSEndpointRequest_DELETE (hcsshim.HNSEndpoint.Id e) w
                    end)).
    intros e w0.
    pose proof (RemoveNamespaceEndpoint_trace
                  (hnswrapper.HCSNamespace.NetNSName (hnswrapper.HNSEndpoint.NetNS ep))
                  (hcsshim.HNSEndpoint.Id e) w0) as Ht2.
    destruct (hcn_RemoveNamespaceEndpoint _ _ w0) as [[[] | err |] w2]; simpl in Ht2 |- *;
      try (eexists; exact Ht2).
    eexists. rewrite HNSEndpointRequest_DELETE_trace, Ht2, <- app_assoc. reflexivity.
  - apply (Hrest (fun hnsEndpoint w0 =>
                    let detached :=
                      hcsshim_HotDetachEndpoint
                        (hnswrapper.AttachedContainer.ContainerID (hnswrapper.HNSEndpoint.Container ep))
                        (hcsshim.HNSEndpoint.Id hnsEndpoint) w0 in
                    let rest (w : Host) :=
                      if negb (hnswrapper.AttachedContainer.IsInfraContainer
                                 (hnswrapper.HNSEndpoint.Container ep))
                      then (Ok tt, w)
                      else hcsshim_HNSEndpointRequest_DELETE (hcsshim.HNSEndpoint.Id hnsEndpoint) w in
                    match detached with
                    | (Panic, w) => (Panic, w)
                    | (Ok _, w) => rest w
                    | (Err err, w) =>
                        if negb (is_ErrComputeSystemDoesNotExist err) then (Err err, w) else rest w
                    end)).
    intros e w0. cbv zeta.
    pose proof (HotDetachEndpoint_trace
                  (hnswrapper.AttachedContainer.ContainerID (hnswrapper.HNSEndpoint.Container ep))
                  (hcsshim.HNSEndpoint.Id e) w0) as Ht2.
    destruct (hcsshim_HotDetachEndpoint _ _ w0) as [[[] | err |] w2]; simpl in Ht2 |- *;
      try (eexists; exact Ht2);
      try destruct (is_ErrComputeSystemDoesNotExist err); simpl;
      try (eexists; exact Ht2);
      destruct (hnswrapper.AttachedContainer.IsInfraContainer _); simpl;
      try (eexists; exact Ht2);
      eexists; rewrite HNSEndpointRequest_DELETE_trace, Ht2, <- app_assoc; reflexivity.
Qed.

Lemma findOrCreateAndAttach_first (nw : NetBuilder.Network.t) ep hep w :
  hd_error (issued (NetBuilder.findOrCreateAndAttach nw ep hep) w)
  = Some (Call.GetHNSEndpointByName (hnswrapper.HNSEndpoint.Name hep)).
Proof.
  destruct (FindOrCreateHNSEndpoint_first hep w) as [l Ht].
  assert (E : exists l', trace (snd (NetBuilder.findOrCreateAndAttach nw ep hep w))
                         = (trace w ++ Call.GetHNSEndpointByName (hnswrapper.HNSEndpoint.Name hep)
                                       :: l')%list).
  { unfold NetBuilder.findOrCreateAndAttach.
    destruct (hnswrapper.FindOrCreateHNSEndpoint hep w) as [[[existing | err |] hep1] w1];
      simpl in Ht |- *; eauto.
    pose proof (AttachEndpoint_appends hep1 w1) as Hb.
    destruct existing.
    - destruct (_ || _); [eauto|].
      destruct (hnswrapper.AttachEndpoint hep1 w1); simpl in *.
      eapply appends_after; eassumption.
    - destruct (hnswrapper.AttachEndpoint hep1 w1) as [[[] | err |] w2]; simpl in Hb |- *;
        try (eapply appends_after; eassumption).
      pose proof (DeleteHNSEndpoint_appends hep1 w2) as Hc.
      destruct (hnswrapper.DeleteHNSEndpoint hep1 w2); simpl in *.
      destruct (@appends_after _ _ _ _ _ _ Ht Hb) as [l2 E2].
      eapply appends_after; [exact E2 | exact Hc]. }
  destruct E as [l' E]. eapply hd_issued; exact E.
Qed.

(** The first call of [FindOrCreateEndpoint] on the named network and the
    first call of [DeleteEndpoint] are the lookup of the same endpoint name:
    the network name, [-ep-], and the netns when there is no infra container
    or else the id of the infra container.  The descriptor of a DEL derives
    the network name that the descriptor of the ADD derives. *)
Theorem Del_addresses_what_Add_created (nw : NetBuilder.Network.t) (ep : NetBuilder.Endpoint.t)
    (name id : string) (w w' : Host) :
  NetBuilder.generateHNSNetworkName nw = Some name ->
  (if NetBuilder.Endpoint.NoInfraContainer ep then id = NetBuilder.Endpoint.NetNSName ep
   else exists isInfraContainer, NetBuilder.getInfraContainerID ep = Ok (isInfraContainer, id)) ->
  let lookup := Call.GetHNSEndpointByName (name ++ "-ep-" ++ id) in
  hd_error (issued (NetBuilder.FindOrCreateEndpoint (NetBuilder.Network.with_Name name nw) ep) w)
  = Some lookup
  /\ hd_error (issued (NetBuilder.DeleteEndpoint nw ep) w') = Some lookup
  /\ forall netConfig,
       nw = Plugin.addNetworkOf netConfig ->
       NetBuilder.generateHNSNetworkName (Plugin.networkOf netConfig) = Some name.
Proof.
  intros Hname Hid lookup. split; [|split].
  - unfold NetBuilder.FindOrCreateEndpoint.
    destruct (NetBuilder.Endpoint.NoInfraContainer ep).
    + subst id. apply findOrCreateAndAttach_first.
    + destruct Hid as [b ->]. apply findOrCreateAndAttach_first.
  - assert (E : exists l, trace (snd (NetBuilder.DeleteEndpoint nw ep w'))
                          = (trace w' ++ lookup :: l)%list).
    { unfold NetBuilder.DeleteEndpoint. rewrite Hname. cbv zeta.
      destruct (NetBuilder.Endpoint.NoInfraContainer ep).
      - subst id.
        match goal with
        | |- context [hnswrapper.DeleteHNSEndpoint ?h w'] =>
            destruct (DeleteHNSEndpoint_first h w') as [l El];
            destruct (hnswrapper.DeleteHNSEndpoint h w')
        end. eauto.
      - destruct Hid as [b ->]. cbv beta iota zeta.
        match goal with
        | |- context [hnswrapper.DeleteHNSEndpoint ?h w'] =>
            destruct (DeleteHNSEndpoint_first h w') as [l El];
            destruct (hnswrapper.DeleteHNSEndpoint h w')
        end. eauto. }
    destruct E as [l E]. eapply hd_issued; exact E.
  - intros netConfig ->. exact Hname.
Qed.

Lemma DeleteNetwork_endpoints (nw : NetBuilder.Network.t) w :
  hnsEndpoints (snd (NetBuilder.DeleteNetwork nw w)) = hnsEndpoints w.
Proof.
  unfold NetBuilder.DeleteNetwork, hnswrapper.DeleteHNSNetwork. run_call.
  repeat match goal with
         | |- context [match ?x with _ => _ end] =>
             lazymatch x with
             | context [match _ with _ => _ end] => fail
             | _ => destruct x; simpl
             end
         end; reflexivity.
Qed.

(** A DEL that expects an infra container and gets a netns that
    [getInfraContainerID] cannot parse: the endpoint step fails without a
    call and [Del] passes over it.  When an existing network is used [Del]
    returns nil at once; otherwise it goes on to [DeleteNetwork], returns
    what that returns, issues no endpoint call and leaves the endpoints as
    they are. *)
Theorem Del_unclassified_netns (args : config.CmdArgs.t) (w : Host)
    (netConfig : config.NetConfig.t) (name : string) :
  config.New args = Ok netConfig ->
  config.NetConfig.NoInfraContainer netConfig = false ->
  String.eqb (config.CmdArgs.Netns args) "" || String.eqb (config.CmdArgs.Netns args) "none" = false ->
  strings_HasPrefix (config.CmdArgs.Netns args) "container:" = false ->
  NetBuilder.generateHNSNetworkName (Plugin.networkOf netConfig) = Some name ->
  let nw := NetBuilder.Network.with_Name name (Plugin.networkOf netConfig) in
  (config.NetConfig.UseExistingNetwork netConfig = true ->
     Plugin.Del Plugin.windowsBuilder args w = (Ok tt, w))
  /\ (config.NetConfig.UseExistingNetwork netConfig = false ->
      snd (Plugin.Del Plugin.windowsBuilder args w) = snd (NetBuilder.DeleteNetwork nw w)
      /\ fst (Plugin.Del Plugin.windowsBuilder args w)
         = match fst (NetBuilder.DeleteNetwork nw w) with
           | Err err => Err (ErrorfV "failed to delete network: %v" [] err)
           | r => r
           end
      /\ forallb (fun c => negb (is_endpoint_call c))
                 (issued (Plugin.Del Plugin.windowsBuilder args) w) = true
      /\ hnsEndpoints (snd (Plugin.Del Plugin.windowsBuilder args w)) = hnsEndpoints w).
Proof.
  intros Hconfig Hinfra Hnone Hprefix Hname nw.
  assert (Hdel : NetBuilder.DeleteEndpoint (Plugin.networkOf netConfig)
                   (Plugin.endpointOf netConfig args) w
                 = (Err (Errorf "failed to parse netns %s" [config.CmdArgs.Netns args]), nw, w)).
  { unfold NetBuilder.DeleteEndpoint. rewrite Hname. cbv zeta.
    simpl NetBuilder.Endpoint.NoInfraContainer. rewrite Hinfra.
    unfold NetBuilder.getInfraContainerID. simpl NetBuilder.Endpoint.NetNSName.
    rewrite Hnone. unfold NetBuilder.containerPrefix. now rewrite Hprefix. }
  assert (E : Plugin.Del Plugin.windowsBuilder args w
              = if negb (config.NetConfig.UseExistingNetwork netConfig) then
                  match NetBuilder.DeleteNetwork nw w with
                  | (Err err, w) => (Err (ErrorfV "failed to delete network: %v" [] err), w)
                  | (Panic, w) => (Panic, w)
                  | (Ok _, w) => (Ok tt, w)
                  end
                else (Ok tt, w)).
  { unfold Plugin.Del. rewrite Hconfig. cbv zeta. simpl Plugin.DeleteEndpoint.
    rewrite Hdel. reflexivity. }
  split; intros Huse; rewrite Huse in E; simpl in E; [exact E|].
  assert (Hsnd : snd (Plugin.Del Plugin.windowsBuilder args w)
                 = snd (NetBuilder.DeleteNetwork nw w)).
  { rewrite E. now destruct (NetBuilder.DeleteNetwork nw w) as [[[] | err |] w1]. }
  split; [exact Hsnd|]. split; [|split].
  - rewrite E. now destruct (NetBuilder.DeleteNetwork nw w) as [[[] | err |] w1].
  - apply appends_issued. rewrite Hsnd.
    eapply appends_weaken; [|apply DeleteHNSNetwork_appends].
    intros c Hc. now destruct c.
  - rewrite Hsnd. apply DeleteNetwork_endpoints.
Qed.

(** With the Linux builder, whose methods do nothing, [Del] returns nil
    without a call for every configuration that parses; [Add] prints the
    addresses of the configuration without a call, and panics on
    [ep.IPAddress] when the configuration names no IP address. *)
Theorem linuxBuilder_handlers (args : config.CmdArgs.t) (w : Host)
    (netConfig : config.NetConfig.t) :
  config.New args = Ok netConfig ->
  Plugin.Del Plugin.linuxBuilder args w = (Ok tt, w)
  /\ match config.NetConfig.ENIIPAddress netConfig with
     | None => Plugin.Add Plugin.linuxBuilder args w = (Panic, None, w)
     | Some address =>
         let result :=
           {| cniTypesCurrent.Result.Interfaces :=
                [ {| cniTypesCurrent.Interface.Name := config.CmdArgs.IfName args;
                     cniTypesCurrent.Interface.Mac :=
                       HardwareAddr_String_nil (config.NetConfig.ENIMACAddress netConfig);
                     cniTypesCurrent.Interface.Sandbox := config.CmdArgs.Netns args |} ];
              cniTypesCurrent.Result.IPs :=
                [ {| cniTypesCurrent.IPConfig.Version := "4";
                     cniTypesCurrent.IPConfig.Interface := Some 0%Z;
                     cniTypesCurrent.IPConfig.Address := address;
                     cniTypesCurrent.IPConfig.Gateway :=
                       config.NetConfig.GatewayIPAddress netConfig |} ] |} in
         Plugin.Add Plugin.linuxBuilder args w
         = (cniTypesCurrent.PrintResult result
              (config.NetConf.CNIVersion (config.NetConfig.NetConf netConfig)),
            Some result, w)
     end.
Proof.
  intros Hconfig. split.
  - unfold Plugin.Del. rewrite Hconfig. simpl.
    now destruct (config.NetConfig.UseExistingNetwork netConfig).
  - unfold Plugin.Add. rewrite Hconfig. simpl. unfold Plugin.resultOf. simpl.
    now destruct (config.NetConfig.ENIIPAddress netConfig).
Qed.

End AddAndDel.

(** ** A DEL after an ADD *)
Section RoundTrip.
Context `{NetLib} `{!config.PluginLib}.

Lemma find_network_app_new name l n :
  find_network name l = None ->
  hcsshim.HNSNetwork.Name n = name ->
  find_network name (l ++ [n]) = Some n.
Proof.
  unfold find_network. intros Hnone Hn. induction l as [|x l IH]; simpl in *.
  - now rewrite Hn, String.eqb_refl.
  - destruct (String.eqb _ name); [discriminate | auto].
Qed.

(** A network step that returns nil for a name that HNS did not hold has
    created the network. *)
Lemma FindOrCreateNetwork_new (nw nw1 : NetBuilder.Network.t) (w w1 : Host) (name : string) :
  NetBuilder.FindOrCreateNetwork nw w = (Ok tt, nw1, w1) ->
  NetBuilder.generateHNSNetworkName nw = Some name ->
  find_network name (hnsNetworks w) = None ->
  nw1 = NetBuilder.Network.with_Name name nw
  /\ (exists n, hnsNetworks w1 = (hnsNetworks w ++ [n])%list /\ hcsshim.HNSNetwork.Name n = name)
  /\ faults w1 = faults w.
Proof.
  intros Hrun Hname Hnone.
  pose proof (CheckHNSVersion_setup hnswrapper.HnsDefaultMinVersion w) as [Hf0 _].
  pose proof (CheckHNSVersion_tables hnswrapper.HnsDefaultMinVersion w) as [Ht0 _].
  unfold NetBuilder.FindOrCreateNetwork in Hrun. rewrite Hname in Hrun.
  destruct (hnswrapper.CheckHNSVersion hnswrapper.HnsDefaultMinVersion w)
    as [[[] | err |] wa]; try discriminate.
  simpl in Hf0, Ht0. cbv zeta in Hrun.
  set (cfg := NetBuilder.networkConfigOf (NetBuilder.Network.with_Name name nw)) in *.
  pose proof (FindOrCreateHNSNetwork_setup cfg wa) as [Hf1 _].
  destruct (hnswrapper.FindOrCreateHNSNetwork cfg wa) as [[existing | err |] wb] eqn:Hfoc;
    try discriminate.
  simpl in Hf1. destruct existing; simpl in Hrun.
  - apply FindOrCreateHNSNetwork_found in Hfoc as [n Hfind].
    apply GetHNSNetworkByName_Ok in Hfind as [Hfind _].
    simpl in Hfind. rewrite Ht0 in Hfind. congruence.
  - destruct (NetBuilder.Network.ENI nw) as [e|]; [|discriminate].
    pose proof (disableInterface_setup (NetBuilder.vNICNameFormat (eni.GetLinkName e)) wb)
      as [Hf2 _].
    pose proof (disableInterface_tables (NetBuilder.vNICNameFormat (eni.GetLinkName e)) wb)
      as [Ht2 _].
    destruct (NetBuilder.disableInterface _ wb) as [[[] | err |] wc]; simpl in *.
    + injection Hrun as <- <-.
      apply FindOrCreateHNSNetwork_created in Hfoc as (n & Htab & Hn).
      split; [reflexivity|]. split; [|congruence].
      exists n. split; [congruence | exact Hn].
    + destruct (NetBuilder.DeleteNetwork _ wc); discriminate.
    + discriminate.
Qed.

(** An endpoint step that returns nil for a name that HNS did not hold has
    created the endpoint. *)
Lemma findOrCreateAndAttach_new (nw nw2 : NetBuilder.Network.t) (ep ep2 : NetBuilder.Endpoint.t)
    (hep : hnswrapper.HNSEndpoint.t) (w w2 : Host) :
  NetBuilder.findOrCreateAndAttach nw ep hep w = (Ok tt, nw2, ep2, w2) ->
  find_endpoint (hnswrapper.HNSEndpoint.Name hep) (hnsEndpoints w) = None ->
  (exists e, hnsEndpoints w2 = (hnsEndpoints w ++ [e])%list
             /\ hcsshim.HNSEndpoint.Name e = hnswrapper.HNSEndpoint.Name hep)
  /\ hnsNetworks w2 = hnsNetworks w
  /\ faults w2 = faults w.
Proof.
  intros Hrun Hnone. unfold NetBuilder.findOrCreateAndAttach in Hrun.
  pose proof (FindOrCreateHNSEndpoint_faults hep w) as Hf1.
  pose proof (FindOrCreateHNSEndpoint_networks hep w) as Hn1.
  destruct (hnswrapper.FindOrCreateHNSEndpoint hep w) as [[[existing | err |] hep1] w1] eqn:Hfoc;
    try discriminate.
  simpl in Hf1, Hn1. destruct existing.
  - unfold hnswrapper.FindOrCreateHNSEndpoint in Hfoc.
    destruct (hcsshim_GetHNSEndpointByName _ w) as [[e | err |] w0] eqn:Hfind.
    + apply GetHNSEndpointByName_Ok in Hfind as [Hfind _]. congruence.
    + destruct (negb _ && negb _); [discriminate|].
      destruct (hcsshim_HNSEndpointRequest_POST _ w0) as [[? | ? |] ?]; discriminate.
    + discriminate.
  - apply FindOrCreateHNSEndpoint_created in Hfoc as (resp & Htab & Hname & -> & _).
    pose proof (AttachEndpoint_tables (hnswrapper.populateEndpointFieldsFromResponse resp hep) w1)
      as Ht2.
    pose proof (AttachEndpoint_faults (hnswrapper.populateEndpointFieldsFromResponse resp hep) w1)
      as Hf2.
    pose proof (AttachEndpoint_networks (hnswrapper.populateEndpointFieldsFromResponse resp hep) w1)
      as Hn2.
    destruct (hnswrapper.AttachEndpoint _ w1) as [[[] | err |] w3]; simpl in *.
    + injection Hrun as <- <- <-. split; [|split; congruence].
      exists resp. split; [congruence | exact Hname].
    + destruct (hnswrapper.DeleteHNSEndpoint _ w3); discriminate.
    + discriminate.
Qed.

(** On a quiet host, deleting the endpoint of an infra container that HNS
    holds succeeds, whether the container still runs or not. *)
Lemma DeleteHNSEndpoint_quiet (ep : hnswrapper.HNSEndpoint.t) (w : Host)
    (e : hcsshim.HNSEndpoint.t) :
  quiet w ->
  hnswrapper.HCSNamespace.UseNamespace (hnswrapper.HNSEndpoint.NetNS ep) = false ->
  hnswrapper.AttachedContainer.IsInfraContainer (hnswrapper.HNSEndpoint.Container ep) = true ->
  find_endpoint (hnswrapper.HNSEndpoint.Name ep) (hnsEndpoints w) = Some e ->
  exists w',
    hnswrapper.DeleteHNSEndpoint ep w = (Ok tt, w')
    /\ hnsEndpoints w'
       = filter (fun x => negb (String.eqb (hcsshim.HNSEndpoint.Id x) (hcsshim.HNSEndpoint.Id e)))
                (hnsEndpoints w)
    /\ hnsNetworks w' = hnsNetworks w
    /\ faults w' = faults w.
Proof.
  intros Hq Hns Hinfra Hfind.
  unfold hnswrapper.DeleteHNSEndpoint, hnswrapper.deleteHNSEndpointV1. rewrite Hns, Hinfra.
  run_call. unfold with_trace, with_computeSystems, with_hnsEndpoints.
  rewrite Hq. simpl. rewrite Hfind. simpl. rewrite Hq.
  destruct (assoc_find _ (computeSystems w)); simpl; rewrite Hq; simpl;
    eexists; repeat split.
Qed.

(** On a quiet host, deleting a network that HNS holds succeeds. *)
Lemma DeleteNetwork_quiet (nw : NetBuilder.Network.t) (w : Host) (n : hcsshim.HNSNetwork.t) :
  quiet w ->
  find_network (NetBuilder.Network.Name nw) (hnsNetworks w) = Some n ->
  exists w',
    NetBuilder.DeleteNetwork nw w = (Ok tt, w')
    /\ hnsNetworks w'
       = filter (fun x => negb (String.eqb (hcsshim.HNSNetwork.Id x) (hcsshim.HNSNetwork.Id n)))
                (hnsNetworks w)
    /\ hnsEndpoints w' = hnsEndpoints w.
Proof.
  intros Hq Hfind.
  unfold NetBuilder.DeleteNetwork, hnswrapper.DeleteHNSNetwork.
  run_call. unfold with_trace, with_hnsNetworks. simpl.
  rewrite Hq. simpl. rewrite Hfind. simpl. rewrite Hq. simpl.
  eexists; repeat split.
Qed.

(** A DEL after an ADD, for the infra container of a task with a network of
    its own, on a quiet host that held neither the network nor the endpoint
    of the task: after the two steps of the ADD, HNS holds both; the DEL
    then returns nil and leaves neither. *)
Theorem Del_after_Add_cleans_up (args : config.CmdArgs.t) (netConfig : config.NetConfig.t)
    (w w1 w2 : Host) (nw1 nw2 : NetBuilder.Network.t) (ep2 : NetBuilder.Endpoint.t)
    (name : string) :
  config.New args = Ok netConfig ->
  config.NetConfig.NoInfraContainer netConfig = false ->
  config.NetConfig.UseExistingNetwork netConfig = false ->
  config.CmdArgs.Netns args = "" \/ config.CmdArgs.Netns args = "none" ->
  quiet w ->
  NetBuilder.generateHNSNetworkName (Plugin.addNetworkOf netConfig) = Some name ->
  let epName := name ++ "-ep-" ++ config.CmdArgs.ContainerID args in
  find_network name (hnsNetworks w) = None ->
  find_endpoint epName (hnsEndpoints w) = None ->
  NetBuilder.FindOrCreateNetwork (Plugin.addNetworkOf netConfig) w = (Ok tt, nw1, w1) ->
  NetBuilder.FindOrCreateEndpoint nw1 (Plugin.endpointOf netConfig args) w1
  = (Ok tt, nw2, ep2, w2) ->
  find_network name (hnsNetworks w2) <> None
  /\ find_endpoint epName (hnsEndpoints w2) <> None
  /\ exists w3,
       Plugin.Del Plugin.windowsBuilder args w2 = (Ok tt, w3)
       /\ find_network name (hnsNetworks w3) = None
       /\ find_endpoint epName (hnsEndpoints w3) = None.
Proof.
  intros Hconfig Hinfra Huse Hnetns Hq Hname epName Hnonet Hnoep Hnet Hep.
  pose proof (FindOrCreateNetwork_endpoints (Plugin.addNetworkOf netConfig) w) as Hep1.
  rewrite Hnet in Hep1. simpl in Hep1.
  pose proof Hnet as Hnew.
  eapply FindOrCreateNetwork_new in Hnew; [|exact Hname | exact Hnonet].
  destruct Hnew as (-> & (n & Hnets1 & Hn) & Hf1).
  set (ep := Plugin.endpointOf netConfig args) in *.
  assert (Hclass : NetBuilder.getInfraContainerID ep = Ok (true, config.CmdArgs.ContainerID args)).
  { unfold NetBuilder.getInfraContainerID. subst ep. simpl.
    now destruct Hnetns as [-> | ->]. }
  assert (Hflag : NetBuilder.Endpoint.NoInfraContainer ep = false) by exact Hinfra.
  unfold NetBuilder.FindOrCreateEndpoint in Hep. rewrite Hflag, Hclass in Hep.
  cbv beta iota zeta in Hep.
  apply findOrCreateAndAttach_new in Hep as ((e & Heps2 & He) & Hnets2 & Hf2);
    [|simpl; now rewrite Hep1].
  simpl in He. fold epName in He.
  assert (Hq2 : quiet w2) by (intros tr c; rewrite Hf2, Hf1; apply Hq).
  assert (Hfind_e : find_endpoint epName (hnsEndpoints w2) = Some e).
  { rewrite Heps2, Hep1. now apply find_endpoint_app_new. }
  assert (Hfind_n : find_network name (hnsNetworks w2) = Some n).
  { rewrite Hnets2, Hnets1. now apply find_network_app_new. }
  split; [congruence|]. split; [congruence|].
  assert (Hname' : NetBuilder.generateHNSNetworkName (Plugin.networkOf netConfig) = Some name)
    by exact Hname.
  set (hep := hnswrapper.HNSEndpoint.with_target
                (NetBuilder.generateHNSEndpointName name (config.CmdArgs.ContainerID args))
                (hnswrapper.HNSEndpoint.NetNS NetBuilder.emptyEndpointConfig)
                (hnswrapper.AttachedContainer.mk (config.CmdArgs.ContainerID args) true
                   (config.CmdArgs.ContainerID args))
                NetBuilder.emptyEndpointConfig).
  destruct (@DeleteHNSEndpoint_quiet hep w2 e Hq2 eq_refl eq_refl Hfind_e)
    as (w3a & Hdel & Heps3 & Hnets3 & Hf3).
  assert (Hq3 : quiet w3a) by (intros tr c; rewrite Hf3; apply Hq2).
  set (nwd := NetBuilder.Network.with_Name name (Plugin.networkOf netConfig)) in *.
  assert (Hfind_n3 : find_network (NetBuilder.Network.Name nwd) (hnsNetworks w3a) = Some n)
    by (simpl; now rewrite Hnets3).
  destruct (@DeleteNetwork_quiet nwd w3a n Hq3 Hfind_n3) as (w3 & Hdeln & Hnets4 & Heps4).
  exists w3. split; [|split].
  - unfold Plugin.Del. rewrite Hconfig. cbv zeta. simpl Plugin.DeleteEndpoint.
    unfold NetBuilder.DeleteEndpoint. rewrite Hname'. cbv zeta.
    fold ep. rewrite Hflag, Hclass. cbv beta iota zeta. simpl negb. cbv iota.
    change (hnswrapper.DeleteHNSEndpoint _ w2) with (hnswrapper.DeleteHNSEndpoint hep w2).
    rewrite Hdel. fold nwd.
    replace (NetBuilder.Network.ShouldExist nwd) with false by (symmetry; exact Huse).
    simpl Plugin.DeleteNetwork. simpl negb. cbv iota. now rewrite Hdeln.
  - rewrite Hnets4, Hnets3, Hnets2, Hnets1.
    eapply find_network_rollback; [exact Hnonet | exact Hn|].
    now apply find_network_app_new.
  - rewrite Heps4, Heps3, Heps2, Hep1.
    eapply find_endpoint_rollback; [exact Hnoep | exact He|].
    now apply find_endpoint_app_new.
Qed.

End RoundTrip.

(** ** Routes *)
Section Routes.
Context `{NetLib}.

(** [AddRoute] does not panic and never runs [route].  With a destination,
    a mask and a gateway it runs the program [add] once, with the arguments
    [delete], destination, [mask], mask, gateway and, for an interface
    number, [if] and the converted number, and returns what the command
    returns; with one of the three nil it returns the invalid-arguments
    error without a call. *)
Theorem AddRoute_command (destination subnetMask gateway : option IP) (interfaceNum : option Z)
    (w : Host) :
  fst (netutils.AddRoute destination subnetMask gateway interfaceNum w) <> Panic
  /\ forallb (fun c => negb (runs_program "route" c))
             (issued (netutils.AddRoute destination subnetMask gateway interfaceNum) w) = true
  /\ match destination, subnetMask, gateway with
     | Some d, Some m, Some g =>
         let commandArgs :=
           "delete" :: IP_String d :: "mask" :: IP_String m :: IP_String g
           :: match interfaceNum with
              | Some n => ["if"; netutils.string_of_int n]
              | None => []
              end in
         netutils.AddRoute destination subnetMask gateway interfaceNum w
         = exec_Command_Run "add" commandArgs w
         /\ issued (netutils.AddRoute destination subnetMask gateway interfaceNum) w
            = [Call.Command_Run "add" commandArgs]
     | _, _, _ =>
         netutils.AddRoute destination subnetMask gateway interfaceNum w
         = (Err (Errorf "unable to delete route due to invalid arguments" []), w)
     end.
Proof.
  destruct destination as [d|], subnetMask as [m|], gateway as [g|];
    try (split; [discriminate|]; split; reflexivity || (rewrite issued_nil; reflexivity)).
  assert (E : netutils.AddRoute (Some d) (Some m) (Some g) interfaceNum w
              = exec_Command_Run "add"
                  ("delete" :: IP_String d :: "mask" :: IP_String m :: IP_String g
                   :: match interfaceNum with
                      | Some n => ["if"; netutils.string_of_int n]
                      | None => []
                      end) w).
  { unfold netutils.AddRoute, netutils.generateCommandArgs. now destruct interfaceNum. }
  cbv zeta. rewrite E.
  assert (Hi : issued (exec_Command_Run "add"
                  ("delete" :: IP_String d :: "mask" :: IP_String m :: IP_String g
                   :: match interfaceNum with
                      | Some n => ["if"; netutils.string_of_int n]
                      | None => []
                      end)) w
               = [Call.Command_Run "add"
                    ("delete" :: IP_String d :: "mask" :: IP_String m :: IP_String g
                     :: match interfaceNum with
                        | Some n => ["if"; netutils.string_of_int n]
                        | None => []
                        end)]).
  { apply issued_app. apply Command_Run_trace. }
  split; [|split; [|split; [reflexivity|]]].
  - run_call. now destruct (faults w (trace w) _).
  - unfold issued in *. rewrite E. unfold issued in Hi. rewrite Hi. reflexivity.
  - unfold issued in *. rewrite E. exact Hi.
Qed.

(** [DeleteRoute] does not panic.  With a destination and a mask it runs
    [route] once, with the arguments [delete], destination, [mask], mask and
    the gateway if there is one, and returns what the command returns; with
    one of the two nil it returns the invalid-arguments error without a
    call. *)
Theorem DeleteRoute_command (destination subnetMask gateway : option IP) (w : Host) :
  fst (netutils.DeleteRoute destination subnetMask gateway w) <> Panic
  /\ match destination, subnetMask with
     | Some d, Some m =>
         let commandArgs :=
           "delete" :: IP_String d :: "mask" :: IP_String m
           :: match gateway with
              | Some g => [IP_String g]
              | None => []
              end in
         netutils.DeleteRoute destination subnetMask gateway w
         = exec_Command_Run "route" commandArgs w
         /\ issued (netutils.DeleteRoute destination subnetMask gateway) w
            = [Call.Command_Run "route" commandArgs]
     | _, _ =>
         netutils.DeleteRoute destination subnetMask gateway w
         = (Err (Errorf "unable to delete route due to invalid arguments" []), w)
         /\ issued (netutils.DeleteRoute destination subnetMask gateway) w = []
     end.
Proof.
  destruct destination as [d|], subnetMask as [m|];
    try (split; [discriminate|]; split; [reflexivity | rewrite issued_nil; reflexivity]).
  assert (E : netutils.DeleteRoute (Some d) (Some m) gateway w
              = exec_Command_Run "route"
                  ("delete" :: IP_String d :: "mask" :: IP_String m
                   :: match gateway with
                      | Some g => [IP_String g]
                      | None => []
                      end) w).
  { unfold netutils.DeleteRoute, netutils.generateCommandArgs. now destruct gateway. }
  cbv zeta. rewrite E. split; [|split; [reflexivity|]].
  - run_call. now destruct (faults w (trace w) _).
  - unfold issued. rewrite E. apply issued_app. apply Command_Run_trace.
Qed.

End Routes.

Section InterfaceNumber.
Context `{NetLib}.

Lemma string_of_uint_head (d : Decimal.uint) :
  match NilEmpty.string_of_uint d with
  | EmptyString => True
  | String c _ => digit_or_sign c = true
  end.
Proof. destruct d; exact I || reflexivity. Qed.

Lemma decimal_head (n : Z) :
  exists c s, decimal n = String c s /\ digit_or_sign c = true.
Proof.
  unfold decimal, NilZero.string_of_int, NilZero.string_of_uint.
  destruct (Z.to_int n) as [d | d].
  - pose proof (string_of_uint_head d) as Hd.
    destruct d; try (simpl in *; eexists; eexists; split; [reflexivity | reflexivity]).
  - eexists; eexists; split; reflexivity.
Qed.

Lemma byte_code (b : Z) : (0 <= b < 256)%Z -> N_of_ascii (netutils.byte b) = Z.to_N b.
Proof. intros Hb. unfold netutils.byte. apply N_ascii_embedding. lia. Qed.

(** A lead byte of a multi-byte encoding is above every digit. *)
Lemma lead_byte (t x : Z) :
  (t = 192 \/ t = 224 \/ t = 240)%Z -> (0 <= x < 16)%Z \/ (t = 192 /\ 0 <= x < 32)%Z ->
  digit_or_sign (netutils.byte (Z.lor t x)) = false.
Proof.
  intros Ht Hx.
  assert (Hk : exists k, (k < 32)%nat /\ x = Z.of_nat k).
  { exists (Z.to_nat x). split; lia. }
  destruct Hk as (k & Hk & ->).
  assert (Hall : forallb (fun k =>
                   forallb (fun t => negb (digit_or_sign (netutils.byte (Z.lor t (Z.of_nat k)))))
                           [192; 224; 240]%Z) (seq 0 32) = true) by (vm_compute; reflexivity).
  rewrite forallb_forall in Hall. specialize (Hall k).
  rewrite in_seq in Hall. specialize (Hall ltac:(lia)).
  rewrite forallb_forall in Hall. specialize (Hall t).
  apply negb_true_iff. apply Hall. simpl. intuition.
Qed.

Lemma string_of_int_head (n : Z) :
  (n < 0 \/ 127 < n)%Z ->
  exists c s, netutils.string_of_int n = String c s /\ digit_or_sign c = false.
Proof.
  intros Hn. unfold netutils.string_of_int.
  destruct ((n <? 0)%Z || (netutils.MaxRune <? n)%Z
            || ((netutils.surrogateMin <=? n)%Z && (n <=? netutils.surrogateMax)%Z)) eqn:Hbad.
  - eexists; eexists; split; [vm_compute; reflexivity | vm_compute; reflexivity].
  - apply orb_false_iff in Hbad as [Hbad _]. apply orb_false_iff in Hbad as [Hneg Hmax].
    apply Z.ltb_ge in Hneg, Hmax. unfold netutils.MaxRune in Hmax.
    unfold netutils.encodeRune.
    destruct (n <=? 127)%Z eqn:H1; [apply Z.leb_le in H1; lia|].
    destruct (n <=? 2047)%Z eqn:H2; [|destruct (n <=? 65535)%Z eqn:H3].
    + apply Z.leb_le in H2. eexists; eexists; split; [reflexivity|].
      apply lead_byte; [auto|]. right. split; [reflexivity|].
      rewrite Z.shiftr_div_pow2 by lia. change (2 ^ 6)%Z with 64%Z.
      split; [apply Z.div_pos; lia | apply Z.div_lt_upper_bound; lia].
    + apply Z.leb_le in H3. eexists; eexists; split; [reflexivity|].
      apply lead_byte; [auto|]. left.
      rewrite Z.shiftr_div_pow2 by lia. change (2 ^ 12)%Z with 4096%Z.
      split; [apply Z.div_pos; lia | apply Z.div_lt_upper_bound; lia].
    + eexists; eexists; split; [reflexivity|].
      apply lead_byte; [auto|]. left.
      rewrite Z.shiftr_div_pow2 by lia. change (2 ^ 18)%Z with 262144%Z.
      split; [apply Z.div_pos; lia | apply Z.div_lt_upper_bound; lia].
Qed.

Lemma string_of_int_ascii (n : Z) :
  (0 <= n <= 127)%Z ->
  netutils.string_of_int n = String (ascii_of_nat (Z.to_nat n)) ""
  /\ netutils.string_of_int n <> decimal n.
Proof.
  intros Hn.
  assert (Hk : exists k, (k < 128)%nat /\ n = Z.of_nat k).
  { exists (Z.to_nat n). split; lia. }
  destruct Hk as (k & Hk & ->).
  assert (Hall : forallb (fun k =>
                   String.eqb (netutils.string_of_int (Z.of_nat k))
                              (String (ascii_of_nat (Z.to_nat (Z.of_nat k))) "")
                   && negb (String.eqb (netutils.string_of_int (Z.of_nat k))
                                       (decimal (Z.of_nat k)))) (seq 0 128) = true)
    by (vm_compute; reflexivity).
  rewrite forallb_forall in Hall. specialize (Hall k).
  rewrite in_seq in Hall. specialize (Hall ltac:(lia)).
  apply andb_prop in Hall as [Ha Hb].
  split; [now apply String.eqb_eq|].
  apply negb_true_iff in Hb. now apply String.eqb_neq.
Qed.

(** The interface number reaches the command as the conversion
    [string(i)], the last argument: one code point in UTF-8, at most four
    bytes, the single character of code [i] up to 127, and never the decimal
    numeral of [i]. *)
Theorem AddRoute_interface_number (d m g : IP) (n : Z) (w : Host) :
  exists commandArgs,
    issued (netutils.AddRoute (Some d) (Some m) (Some g) (Some n)) w
    = [Call.Command_Run "add" commandArgs]
    /\ last commandArgs "" = netutils.string_of_int n
    /\ netutils.string_of_int n <> decimal n
    /\ (String.length (netutils.string_of_int n) <= 4)%nat
    /\ ((0 <= n <= 127)%Z ->
        netutils.string_of_int n = String (ascii_of_nat (Z.to_nat n)) "").
Proof.
  exists ["delete"; IP_String d; "mask"; IP_String m; IP_String g; "if"; netutils.string_of_int n].
  split; [|split; [reflexivity|split; [|split]]].
  - apply issued_app. unfold netutils.AddRoute, netutils.generateCommandArgs. simpl.
    apply Command_Run_trace.
  - destruct (Z.le_gt_cases 0 n) as [Hlo|Hlo]; [destruct (Z.le_gt_cases n 127) as [Hhi|Hhi]|].
    + apply string_of_int_ascii. lia.
    + destruct (string_of_int_head (n := n)) as (c & s & -> & Hc); [lia|].
      destruct (decimal_head n) as (c' & s' & -> & Hc').
      intros [= -> _]. congruence.
    + destruct (string_of_int_head (n := n)) as (c & s & -> & Hc); [lia|].
      destruct (decimal_head n) as (c' & s' & -> & Hc').
      intros [= -> _]. congruence.
  - unfold netutils.string_of_int, netutils.encodeRune.
    destruct (_ || _); repeat (destruct (_ <=? _)%Z); simpl; lia.
  - intros Hn. now apply string_of_int_ascii.
Qed.

End InterfaceNumber.

(** ** Policies *)
Section Policies.
Context `{NetLib} `{!hnswrapper.PolicyLib}.





End Policies.

(** ** The two builders *)
Section TwoBuilders.
Context `{NetLib}.

Lemma v2_body (nw : NetBuilder.Network.t) (ep : NetBuilder.Endpoint.t) (w : Host) :
  netBuilder.FindOrCreateEndpoint (Network_v2 nw) (Endpoint_v2 ep) w
  = let '(r, nw', ep', w') :=
      NetBuilder.findOrCreateAndAttach nw ep
        (netBuilder.endpointConfigOf (Network_v2 nw) (Endpoint_v2 ep)) w in
    (r, Network_v2 nw', Endpoint_v2 ep', w').
Proof.
  unfold netBuilder.FindOrCreateEndpoint, NetBuilder.findOrCreateAndAttach. cbv zeta.
  destruct (hnswrapper.FindOrCreateHNSEndpoint _ w) as [[[existing | err |] hep] w1];
    try reflexivity.
  destruct existing.
  - destruct (_ || _); [reflexivity|].
    now destruct (hnswrapper.AttachEndpoint hep w1).
  - destruct (hnswrapper.AttachEndpoint hep w1) as [[[] | err |] w2]; try reflexivity.
    now destruct (hnswrapper.DeleteHNSEndpoint hep w2).
Qed.

(** The two builders do the same on an endpoint whose [NoInfraContainer]
    says what its netns says: [FindOrCreateEndpoint], [DeleteEndpoint] and
    [DeleteNetwork] end with the same outcome, descriptors and host in both,
    and so does [FindOrCreateNetwork] for a network that need not exist. *)
Theorem builders_agree (nw : NetBuilder.Network.t) (ep : NetBuilder.Endpoint.t) (w : Host) :
  flag_matches_netns ep = true ->
  (forall r nw' ep' w',
     NetBuilder.FindOrCreateEndpoint nw ep w = (r, nw', ep', w') ->
     netBuilder.FindOrCreateEndpoint (Network_v2 nw) (Endpoint_v2 ep) w
     = (r, Network_v2 nw', Endpoint_v2 ep', w'))
  /\ (forall r nw' w',
        NetBuilder.DeleteEndpoint nw ep w = (r, nw', w') ->
        netBuilder.DeleteEndpoint (Network_v2 nw) (Endpoint_v2 ep) w = (r, Network_v2 nw', w'))
  /\ NetBuilder.DeleteNetwork nw w = netBuilder.DeleteNetwork (Network_v2 nw) w
  /\ (NetBuilder.Network.ShouldExist nw = false ->
      forall r nw' w',
        NetBuilder.FindOrCreateNetwork nw w = (r, nw', w') ->
        netBuilder.FindOrCreateNetwork (Network_v2 nw) w = (r, Network_v2 nw', w')).
Proof.
  intros Hflag. unfold flag_matches_netns in Hflag. apply Bool.eqb_prop in Hflag.
  assert (Hclass :
            match netBuilder.getNamespaceIdentifier (Endpoint_v2 ep) with
            | (netBuilder.hcsNamespace, id) =>
                NetBuilder.Endpoint.NoInfraContainer ep = true
                /\ id = NetBuilder.Endpoint.NetNSName ep
            | (t, id) =>
                NetBuilder.Endpoint.NoInfraContainer ep = false
                /\ NetBuilder.getInfraContainerID ep
                   = Ok (netBuilder.NSType_eqb t netBuilder.infraContainerNS, id)
            end).
  { revert Hflag. unfold netBuilder.getNamespaceIdentifier, NetBuilder.getInfraContainerID.
    simpl. unfold netBuilder.containerPrefix.
    destruct (String.eqb _ "" || String.eqb _ "none"); simpl; auto.
    destruct (strings_HasPrefix _ _); simpl; auto. }
  split; [|split; [|split]].
  - intros r nw' ep' w' Hrun. rewrite v2_body.
    replace (netBuilder.endpointConfigOf (Network_v2 nw) (Endpoint_v2 ep))
      with (if NetBuilder.Endpoint.NoInfraContainer ep
            then hnswrapper.HNSEndpoint.with_target
                   (NetBuilder.generateHNSEndpointName (NetBuilder.Network.Name nw)
                      (NetBuilder.Endpoint.NetNSName ep))
                   (hnswrapper.HCSNamespace.mk true (NetBuilder.Endpoint.NetNSName ep))
                   (hnswrapper.HNSEndpoint.Container (NetBuilder.endpointConfigOf nw ep))
                   (NetBuilder.endpointConfigOf nw ep)
            else match NetBuilder.getInfraContainerID ep with
                 | Ok (isInfraContainer, infraContainerID) =>
                     hnswrapper.HNSEndpoint.with_target
                       (NetBuilder.generateHNSEndpointName (NetBuilder.Network.Name nw)
                          infraContainerID)
                       (hnswrapper.HNSEndpoint.NetNS (NetBuilder.endpointConfigOf nw ep))
                       (hnswrapper.AttachedContainer.mk (NetBuilder.Endpoint.ContainerID ep)
                          isInfraContainer infraContainerID)
                       (NetBuilder.endpointConfigOf nw ep)
                 | _ => NetBuilder.endpointConfigOf nw ep
                 end).
    + revert Hrun. unfold NetBuilder.FindOrCreateEndpoint.
      destruct (netBuilder.getNamespaceIdentifier (Endpoint_v2 ep)) as [[| |] id];
        destruct Hclass as [-> Hid]; try rewrite Hid; simpl; now intros ->.
    + unfold netBuilder.endpointConfigOf.
      destruct (netBuilder.getNamespaceIdentifier (Endpoint_v2 ep)) as [[| |] id];
        destruct Hclass as [-> Hid]; try rewrite Hid; subst; reflexivity.
  - intros r nw' w'. unfold NetBuilder.DeleteEndpoint, netBuilder.DeleteEndpoint.
    change (netBuilder.generateHNSNetworkName (Network_v2 nw))
      with (NetBuilder.generateHNSNetworkName nw).
    destruct (NetBuilder.generateHNSNetworkName nw) as [name|]; [|now intros [= <- <- <-]].
    cbv zeta. unfold netBuilder.deleteConfigOf.
    destruct (netBuilder.getNamespaceIdentifier (Endpoint_v2 ep)) as [[| |] id];
      destruct Hclass as [-> Hid]; try rewrite Hid; subst; simpl;
      lazymatch goal with
      | |- ?L = _ -> ?R = _ =>
          match L with
          | context [hnswrapper.DeleteHNSEndpoint ?h1 w] =>
              match R with
              | context [hnswrapper.DeleteHNSEndpoint ?h2 w] =>
                  change h2 with h1; destruct (hnswrapper.DeleteHNSEndpoint h1 w)
              end
          end
      end; now intros [= <- <- <-].
  - reflexivity.
  - intros Hnew r nw' w'.
    unfold NetBuilder.FindOrCreateNetwork, netBuilder.FindOrCreateNetwork.
    destruct (hnswrapper.CheckHNSVersion _ w) as [[[] | err |] w1];
      try (now intros [= <- <- <-]).
    change (netBuilder.generateHNSNetworkName (Network_v2 nw))
      with (NetBuilder.generateHNSNetworkName nw).
    destruct (NetBuilder.generateHNSNetworkName nw) as [name|]; [|now intros [= <- <- <-]].
    cbv zeta.
    replace (netBuilder.networkConfigOf (netBuilder.Network.with_Name name (Network_v2 nw)))
      with (NetBuilder.networkConfigOf (NetBuilder.Network.with_Name name nw))
      by (unfold netBuilder.networkConfigOf, NetBuilder.networkConfigOf; simpl; now rewrite Hnew).
    destruct (hnswrapper.FindOrCreateHNSNetwork _ w1) as [[existing | err |] w2];
      try (now intros [= <- <- <-]).
    destruct existing; simpl; [now intros [= <- <- <-]|].
    destruct (NetBuilder.Network.ENI nw) as [e|]; [|now intros [= <- <- <-]].
    unfold netBuilder.disableInterface.
    destruct (NetBuilder.disableInterface _ w2) as [[[] | err |] w3];
      try (now intros [= <- <- <-]).
    change (netBuilder.DeleteNetwork (netBuilder.Network.with_Name name (Network_v2 nw)) w3)
      with (NetBuilder.DeleteNetwork (NetBuilder.Network.with_Name name nw) w3).
    destruct (NetBuilder.DeleteNetwork _ w3). now intros [= <- <- <-].
Qed.

End TwoBuilders.

(** * Runs on the demo host *)
Example demo_network_name :
  NetBuilder.generateHNSNetworkName Demo.network = Some Demo.networkName.
Proof. reflexivity. Qed.

Example demo_add_namespace :
  hnsEndpoints Demo.hostWithNamespaceEndpoint <> []
  /\ namespaces Demo.hostWithNamespaceEndpoint = [("ns-42", ["id-0"])].
Proof. split; [discriminate | reflexivity]. Qed.

(** C1 as stated fails on a host whose HNS is too old: the network of the
    computed name is there, and [FindOrCreateNetwork] returns the error of
    the version check. *)
Lemma FindOrCreateNetwork_old_HNS :
  NetBuilder.generateHNSNetworkName Demo.network = Some Demo.networkName
  /\ (exists n, find_network Demo.networkName (hnsNetworks Demo.oldHost) = Some n)
  /\ fst (fst (NetBuilder.FindOrCreateNetwork Demo.network Demo.oldHost))
     = Err (Errorf "HNS is older than the minimum supported version %v" ["{7 2}"])
  /\ issued (NetBuilder.FindOrCreateNetwork Demo.network) Demo.oldHost = [Call.GetHNSGlobals].
Proof.
  split; [reflexivity|]. split; [eexists; reflexivity|]. split; reflexivity.
Qed.

(** The three cases of [FindOrCreateNetwork] on supported hosts: the network
    is there; it is required and missing; it is created. *)
Lemma FindOrCreateNetwork_cases_witness :
  issued (NetBuilder.FindOrCreateNetwork Demo.network) Demo.hostWithNetwork
  = [Call.GetHNSGlobals; Call.GetHNSNetworkByName Demo.networkName]
  /\ fst (fst (NetBuilder.FindOrCreateNetwork Demo.existingNetwork Demo.emptyHost))
     = Err (ErrNetworkNotFound Demo.networkName)
  /\ filter is_HNSNetworkRequest_POST
            (issued (NetBuilder.FindOrCreateNetwork Demo.network) Demo.emptyHost)
     = [Call.HNSNetworkRequest_POST
          (hcsshim.HNSNetwork.mk "" Demo.networkName "Transparent" "eni0"
             [hcsshim.Subnet.mk "10.0.0.5/24" "10.0.0.1"])].
Proof.
  split; [|split].
  - edestruct (FindOrCreateNetwork_cases Demo.network Demo.hostWithNetwork)
      as (Hfound & _ & _); [reflexivity | reflexivity |].
    edestruct Hfound as [_ E]; [reflexivity | exact E].
  - edestruct (FindOrCreateNetwork_cases Demo.existingNetwork Demo.emptyHost)
      as (_ & Hmissing & _); [reflexivity | reflexivity |].
    edestruct Hmissing as [E _]; [reflexivity | reflexivity |].
    rewrite E. reflexivity.
  - edestruct (FindOrCreateNetwork_cases Demo.network Demo.emptyHost)
      as (_ & _ & Hcreated); [reflexivity | reflexivity |].
    eapply Hcreated; reflexivity.
Defined.

(** C3 on a host without the management interface: the network is created,
    the disabling step fails, and the network is gone when
    [FindOrCreateNetwork] returns. *)
Lemma FindOrCreateNetwork_rollback_witness :
  fst (fst (NetBuilder.FindOrCreateNetwork Demo.network Demo.hostWithoutInterface))
  = Err (ErrInterfaceNotFound "vEthernet (eni0)")
  /\ find_network Demo.networkName
       (hnsNetworks (snd (NetBuilder.FindOrCreateNetwork Demo.network Demo.hostWithoutInterface)))
     = None.
Proof.
  edestruct (FindOrCreateNetwork_rollback Demo.network Demo.hostWithoutInterface)
    as (Hrollback & _); [reflexivity | reflexivity |].
  edestruct Hrollback as (E & _ & Hgone); [reflexivity | reflexivity | reflexivity |].
  rewrite E. split; [reflexivity|].
  apply Hgone; reflexivity.
Defined.

(** C2 as stated fails for an HCS namespace that does not exist: the
    endpoint is created, the attach fails, the cleanup stops at the removal
    from the namespace, and a find of the endpoint name still answers. *)
Lemma FindOrCreateEndpoint_leaves_endpoint :
  let cfg := netBuilder.endpointConfigOf Demo.namedNetwork Demo.namespaceEndpoint in
  let created := hnswrapper.FindOrCreateHNSEndpoint cfg Demo.emptyHost in
  let final :=
    snd (netBuilder.FindOrCreateEndpoint Demo.namedNetwork Demo.namespaceEndpoint Demo.emptyHost) in
  fst (fst created) = Ok false
  /\ fst (hnswrapper.AttachEndpoint (snd (fst created)) (snd created))
     = Err (ErrNamespaceNotFound "ns-42")
  /\ fst (fst (fst (netBuilder.FindOrCreateEndpoint Demo.namedNetwork Demo.namespaceEndpoint
                      Demo.emptyHost)))
     = Err (ErrNamespaceNotFound "ns-42")
  /\ (exists e, fst (hcsshim_GetHNSEndpointByName (hnswrapper.HNSEndpoint.Name cfg) final) = Ok e)
  /\ issued (netBuilder.FindOrCreateEndpoint Demo.namedNetwork Demo.namespaceEndpoint)
            Demo.emptyHost
     = [Call.GetHNSEndpointByName "task-br-020000000001-ep-ns-42";
        Call.HNSEndpointRequest_POST (hnswrapper.endpointRequest cfg);
        Call.GetNamespaceEndpointIds "ns-42";
        Call.GetHNSEndpointByName "task-br-020000000001-ep-ns-42";
        Call.RemoveNamespaceEndpoint "ns-42" "id-0"].
Proof.
  cbv zeta. repeat split; try reflexivity. eexists; reflexivity.
Qed.

(** C2, amended, on a host where the infra container is not running: the
    endpoint is created, the hot attach fails, the cleanup tolerates the
    failed detach and deletes the endpoint. *)
Lemma FindOrCreateEndpoint_rollback_witness :
  fst (fst (fst (netBuilder.FindOrCreateEndpoint Demo.namedNetwork Demo.infraEndpoint
                   Demo.emptyHost)))
  = Err ErrComputeSystemDoesNotExist
  /\ find_endpoint "task-br-020000000001-ep-c1"
       (hnsEndpoints (snd (netBuilder.FindOrCreateEndpoint Demo.namedNetwork Demo.infraEndpoint
                             Demo.emptyHost)))
     = None.
Proof.
  edestruct (FindOrCreateEndpoint_rollback Demo.namedNetwork Demo.infraEndpoint Demo.emptyHost)
    as (E & _ & Hgone); [reflexivity | reflexivity |].
  split; [exact E|]. apply Hgone; reflexivity.
Defined.

(** C6 as stated fails for a container that shares the netns of an infra
    container: no endpoint of the derived name exists, and
    [FindOrCreateEndpoint] issues the lookup only, no creation request and no
    attach. *)
Lemma FindOrCreateEndpoint_shared_no_create :
  fst (netBuilder.getNamespaceIdentifier Demo.sharedEndpoint) = netBuilder.nonInfraContainerNS
  /\ find_endpoint "task-br-020000000001-ep-c1" (hnsEndpoints Demo.hostWithContainer) = None
  /\ issued (netBuilder.FindOrCreateEndpoint Demo.namedNetwork Demo.sharedEndpoint)
            Demo.hostWithContainer
     = [Call.GetHNSEndpointByName "task-br-020000000001-ep-c1"]
  /\ fst (fst (fst (netBuilder.FindOrCreateEndpoint Demo.namedNetwork Demo.sharedEndpoint
                      Demo.hostWithContainer)))
     = Err (ErrorfV "failed to find endpoint %s: %v" ["task-br-020000000001-ep-c1"]
                    (ErrEndpointNotFound "task-br-020000000001-ep-c1")).
Proof. repeat split; reflexivity. Qed.

(** C6, amended, for the infra container [c1] when it runs: lookup, creation
    request, hot attach. *)
Lemma FindOrCreateEndpoint_creates_witness :
  issued (netBuilder.FindOrCreateEndpoint Demo.namedNetwork Demo.infraEndpoint)
         Demo.hostWithContainer
  = [Call.GetHNSEndpointByName "task-br-020000000001-ep-c1";
     Call.HNSEndpointRequest_POST
       (hnswrapper.endpointRequest
          (netBuilder.endpointConfigOf Demo.namedNetwork Demo.infraEndpoint));
     Call.HotAttachEndpoint "c1" "id-0"].
Proof.
  pose proof (FindOrCreateEndpoint_creates Demo.namedNetwork Demo.infraEndpoint
                Demo.hostWithContainer) as Hcreates.
  edestruct Hcreates as [Hnew _]; [reflexivity|].
  edestruct Hnew as [E _]; [reflexivity|].
  rewrite E. reflexivity.
Defined.

(** C7 on the DEL of the container [c2], which shares the netns of [c1]:
    the network of [eni0] is there and stays, and the only call is the
    lookup of the endpoint. *)
Lemma Del_shared_keeps_network_witness :
  Plugin.Del Plugin.windowsBuilder Demo.sharedArgs Demo.hostWithNetwork
  = (Ok tt,
     with_trace [Call.GetHNSEndpointByName "task-br-020000000001-ep-c1"] Demo.hostWithNetwork)
  /\ forallb (fun c => negb (is_network_call c))
             (issued (Plugin.Del Plugin.windowsBuilder Demo.sharedArgs) Demo.hostWithNetwork)
     = true.
Proof.
  edestruct (Del_shared_keeps_network Demo.sharedArgs Demo.hostWithNetwork)
    as [Hcalls Hdel]; [reflexivity | reflexivity | reflexivity |].
  split; [|exact Hcalls].
  edestruct Hdel as [_ E]; [reflexivity|].
  rewrite E. reflexivity.
Defined.

(** C8 as stated fails for an HCS namespace: the endpoint that the ADD of
    [namespaceEndpoint] created is deleted by its DEL, not only removed from
    the namespace. *)
Lemma DeleteEndpoint_namespace_deletes :
  fst (netBuilder.getNamespaceIdentifier Demo.namespaceEndpoint) = netBuilder.hcsNamespace
  /\ (exists e, find_endpoint "task-br-020000000001-ep-ns-42"
                  (hnsEndpoints Demo.hostWithNamespaceEndpoint) = Some e)
  /\ fst (fst (netBuilder.DeleteEndpoint Demo.namedNetwork Demo.namespaceEndpoint
                 Demo.hostWithNamespaceEndpoint))
     = Ok tt
  /\ issued (netBuilder.DeleteEndpoint Demo.namedNetwork Demo.namespaceEndpoint)
            Demo.hostWithNamespaceEndpoint
     = [Call.GetHNSEndpointByName "task-br-020000000001-ep-ns-42";
        Call.RemoveNamespaceEndpoint "ns-42" "id-0";
        Call.HNSEndpointRequest_DELETE "id-0"]
  /\ find_endpoint "task-br-020000000001-ep-ns-42"
       (hnsEndpoints (snd (netBuilder.DeleteEndpoint Demo.namedNetwork Demo.namespaceEndpoint
                             Demo.hostWithNamespaceEndpoint)))
     = None.
Proof. repeat split; try reflexivity. eexists; reflexivity. Qed.

(** C8, amended, on the three kinds of endpoint: the DEL of the shared
    container leaves the endpoint of [c1] in place, the DEL of the infra
    container and the DEL in the namespace remove theirs. *)
Lemma DeleteEndpoint_deletes_witness :
  let hostWithInfraEndpoint :=
    snd (netBuilder.FindOrCreateEndpoint Demo.namedNetwork Demo.infraEndpoint
           Demo.hostWithContainer) in
  hnsEndpoints (snd (netBuilder.DeleteEndpoint Demo.namedNetwork Demo.sharedEndpoint
                       hostWithInfraEndpoint))
  = hnsEndpoints hostWithInfraEndpoint
  /\ hnsEndpoints (snd (netBuilder.DeleteEndpoint Demo.namedNetwork Demo.infraEndpoint
                          hostWithInfraEndpoint))
     = []
  /\ hnsEndpoints (snd (netBuilder.DeleteEndpoint Demo.namedNetwork Demo.namespaceEndpoint
                          Demo.hostWithNamespaceEndpoint))
     = [].
Proof.
  intros host. split; [|split].
  - pose proof (DeleteEndpoint_deletes Demo.namedNetwork Demo.sharedEndpoint host
                  (name := Demo.networkName)) as Hshared.
    edestruct Hshared as [E _]; [reflexivity | exact E].
  - pose proof (DeleteEndpoint_deletes Demo.namedNetwork Demo.infraEndpoint host
                  (name := Demo.networkName)) as Hinfra.
    edestruct Hinfra as (e & Hfind & _ & E); [reflexivity | reflexivity |].
    vm_compute in Hfind. injection Hfind as <-. rewrite E. reflexivity.
  - pose proof (DeleteEndpoint_deletes Demo.namedNetwork Demo.namespaceEndpoint
                  Demo.hostWithNamespaceEndpoint (name := Demo.networkName)) as Hns.
    edestruct Hns as (e & Hfind & _ & E); [reflexivity | reflexivity |].
    vm_compute in Hfind. injection Hfind as <-. rewrite E. reflexivity.
Defined.

(** C9 as stated fails on a host that does not hold the network:
    [DeleteNetwork] returns the lookup error, and the DEL of the infra
    container fails with it. *)
Lemma DeleteNetwork_missing_is_error :
  find_network Demo.networkName (hnsNetworks Demo.emptyHost) = None
  /\ fst (NetBuilder.DeleteNetwork (NetBuilder.Network.with_Name Demo.networkName Demo.network)
            Demo.emptyHost)
     = Err (ErrNetworkNotFound Demo.networkName)
  /\ fst (Plugin.Del Plugin.windowsBuilder Demo.infraArgs Demo.emptyHost)
     = Err (ErrorfV "failed to delete network: %v" [] (ErrNetworkNotFound Demo.networkName)).
Proof. repeat split; reflexivity. Qed.

(** C9, amended, on the same host. *)
Lemma DeleteNetwork_not_found_witness :
  NetBuilder.DeleteNetwork (NetBuilder.Network.with_Name Demo.networkName Demo.network)
    Demo.emptyHost
  = (Err (ErrNetworkNotFound Demo.networkName),
     with_trace [Call.GetHNSNetworkByName Demo.networkName] Demo.emptyHost).
Proof.
  edestruct (DeleteNetwork_not_found
               (NetBuilder.Network.with_Name Demo.networkName Demo.network) Demo.emptyHost)
    as [E _]; [reflexivity | exact E].
Defined.

(** C10 on a namespace that holds the endpoint [id-7]: attaching the
    endpoint [id-9] returns nil and adds nothing. *)
Lemma AttachEndpoint_namespace_nonempty_witness :
  let ep :=
    hnswrapper.HNSEndpoint.with_target "task-br-020000000001-ep-ns-42"
      (hnswrapper.HCSNamespace.mk true "ns-42") (hnswrapper.AttachedContainer.mk "" false "")
      (hnswrapper.populateEndpointFieldsFromResponse
         (hcsshim.HNSEndpoint.with_Id "id-9"
            (hnswrapper.endpointRequest NetBuilder.emptyEndpointConfig))
         NetBuilder.emptyEndpointConfig) in
  fst (hnswrapper.AttachEndpoint ep Demo.hostWithBusyNamespace) = Ok tt
  /\ issued (hnswrapper.AttachEndpoint ep) Demo.hostWithBusyNamespace
     = [Call.GetNamespaceEndpointIds "ns-42"]
  /\ namespaces (snd (hnswrapper.AttachEndpoint ep Demo.hostWithBusyNamespace))
     = [("ns-42", ["id-7"])].
Proof.
  intros ep.
  edestruct (AttachEndpoint_namespace_nonempty ep Demo.hostWithBusyNamespace)
    as [Hbusy _]; [reflexivity|].
  edestruct Hbusy as [E Hcalls]; [reflexivity | discriminate |].
  split; [now rewrite E|]. split; [exact Hcalls | now rewrite E].
Defined.

(** The rollback of [netBuilder.FindOrCreateNetwork] on the host without the
    management interface. *)
Lemma netBuilder_FindOrCreateNetwork_rollback_witness :
  fst (fst (netBuilder.FindOrCreateNetwork Demo.namedNetwork Demo.hostWithoutInterface))
  = Err (ErrInterfaceNotFound "vEthernet (eni0)")
  /\ find_network Demo.networkName
       (hnsNetworks (snd (netBuilder.FindOrCreateNetwork Demo.namedNetwork
                            Demo.hostWithoutInterface)))
     = None.
Proof.
  edestruct (netBuilder_FindOrCreateNetwork_rollback Demo.namedNetwork Demo.hostWithoutInterface)
    as (Hrollback & _); [reflexivity | reflexivity |].
  edestruct Hrollback as (E & Hgone); [reflexivity | reflexivity | reflexivity |].
  rewrite E. split; [reflexivity|].
  apply Hgone; reflexivity.
Defined.

(** The rollback of [NetBuilder.FindOrCreateEndpoint] when the infra
    container is not running. *)
Lemma findOrCreateAndAttach_rollback_witness :
  fst (fst (fst (NetBuilder.FindOrCreateEndpoint Demo.namedNetworkV1 Demo.infraEndpointV1
                   Demo.emptyHost)))
  = Err ErrComputeSystemDoesNotExist
  /\ find_endpoint "task-br-020000000001-ep-c1"
       (hnsEndpoints (snd (NetBuilder.FindOrCreateEndpoint Demo.namedNetworkV1
                             Demo.infraEndpointV1 Demo.emptyHost)))
     = None.
Proof.
  set (cfg := hnswrapper.HNSEndpoint.with_target "task-br-020000000001-ep-c1"
                (hnswrapper.HCSNamespace.mk false "")
                (hnswrapper.AttachedContainer.mk "c1" true "c1")
                (NetBuilder.endpointConfigOf Demo.namedNetworkV1 Demo.infraEndpointV1)).
  change (NetBuilder.FindOrCreateEndpoint Demo.namedNetworkV1 Demo.infraEndpointV1
            Demo.emptyHost)
    with (NetBuilder.findOrCreateAndAttach Demo.namedNetworkV1 Demo.infraEndpointV1 cfg
            Demo.emptyHost).
  edestruct (findOrCreateAndAttach_rollback Demo.namedNetworkV1 Demo.infraEndpointV1 cfg
               Demo.emptyHost) as (E & _ & Hgone); [reflexivity | reflexivity |].
  split; [exact E|]. apply Hgone; reflexivity.
Defined.

(** A second ADD in the namespace finds the endpoint and stops; the ADD of
    the container [c2] after that of [c1] attaches the endpoint of [c1]. *)
Lemma FindOrCreateEndpoint_existing_witness :
  issued (netBuilder.FindOrCreateEndpoint Demo.namedNetwork Demo.namespaceEndpoint)
         Demo.hostWithNamespaceEndpoint
  = [Call.GetHNSEndpointByName "task-br-020000000001-ep-ns-42"]
  /\ issued (netBuilder.FindOrCreateEndpoint Demo.namedNetwork Demo.sharedEndpoint)
            (snd (netBuilder.FindOrCreateEndpoint Demo.namedNetwork Demo.infraEndpoint
                    Demo.hostWithContainer))
     = [Call.GetHNSEndpointByName "task-br-020000000001-ep-c1";
        Call.HotAttachEndpoint "c2" "id-0"].
Proof.
  split.
  - pose proof (FindOrCreateEndpoint_existing Demo.namedNetwork Demo.namespaceEndpoint
                  Demo.hostWithNamespaceEndpoint) as Hagain.
    edestruct Hagain as (_ & _ & E); [reflexivity | exact E].
  - pose proof (FindOrCreateEndpoint_existing Demo.namedNetwork Demo.sharedEndpoint
                  (snd (netBuilder.FindOrCreateEndpoint Demo.namedNetwork Demo.infraEndpoint
                          Demo.hostWithContainer))) as Hshared.
    eapply eq_trans; [eapply Hshared; reflexivity | reflexivity].
Defined.

(** Attaching to the empty namespace [ns-42] queries it and adds the
    endpoint. *)
Lemma AttachEndpoint_namespace_empty_witness :
  let ep :=
    hnswrapper.HNSEndpoint.with_target "task-br-020000000001-ep-ns-42"
      (hnswrapper.HCSNamespace.mk true "ns-42") (hnswrapper.AttachedContainer.mk "" false "")
      (hnswrapper.populateEndpointFieldsFromResponse
         (hcsshim.HNSEndpoint.with_Id "id-9"
            (hnswrapper.endpointRequest NetBuilder.emptyEndpointConfig))
         NetBuilder.emptyEndpointConfig) in
  issued (hnswrapper.AttachEndpoint ep) Demo.hostWithNamespace
  = [Call.GetNamespaceEndpointIds "ns-42"; Call.AddNamespaceEndpoint "ns-42" "id-9"].
Proof.
  intros ep.
  eapply (AttachEndpoint_namespace_empty ep Demo.hostWithNamespace); reflexivity.
Defined.

(** The configuration of the demo task is accepted with its ENI name and addresses. *)
Lemma New_validates_witness :
  exists netConfig,
    config.New Demo.infraArgs = Ok netConfig
    /\ config.NetConfig.ENIName netConfig <> ""
    /\ config.NetConfig.ENIMACAddress netConfig <> None
    /\ config.NetConfig.ENIIPAddress netConfig <> None.
Proof.
  eexists. split; [reflexivity|].
  edestruct (New_validates Demo.infraArgs) as (_ & Hnew & _); [reflexivity|].
  apply Hnew. reflexivity.
Defined.

(** [New] on the configuration of the demo task, whose gateway is empty, and on a configuration that reuses a network and names no address. *)
Lemma New_parses_witness :
  config.New Demo.infraArgs
  = Ok {| config.NetConfig.NetConf := config.NetConf.mk "0.3.0" "vpc-eni" [] [];
          config.NetConfig.ENIName := "eni0";
          config.NetConfig.ENIMACAddress := Some "02:00:00:00:00:01";
          config.NetConfig.ENIIPAddress := Some {| IPNet_IP := Some "10.0.0.5"; IPNet_Mask := 24%Z |};
          config.NetConfig.GatewayIPAddress := None;
          config.NetConfig.NoInfraContainer := false;
          config.NetConfig.UseExistingNetwork := false |}
  /\ @config.New _ _ Demo.reusePluginLib Demo.reuseArgs
     = Ok {| config.NetConfig.NetConf := config.NetConf.mk "0.3.0" "vpc-eni" [] [];
             config.NetConfig.ENIName := "";
             config.NetConfig.ENIMACAddress := None;
             config.NetConfig.ENIIPAddress := None;
             config.NetConfig.GatewayIPAddress := None;
             config.NetConfig.NoInfraContainer := false;
             config.NetConfig.UseExistingNetwork := true |}.
Proof.
  split.
  - apply (New_parses Demo.infraArgs (cfg := Demo.taskConfig)); try reflexivity.
    + split; [discriminate | reflexivity].
    + eexists; split; reflexivity.
  - apply (@New_parses _ _ Demo.reusePluginLib Demo.reuseArgs Demo.reuseConfig);
      reflexivity.
Defined.

(** The demo host, with HNS 9.5, passes the check for the default minimum and for the older 6.0. *)
Lemma CheckHNSVersion_order_witness :
  hnswrapper.CheckHNSVersion hnswrapper.HnsDefaultMinVersion Demo.emptyHost
  = (Ok tt, with_trace [Call.GetHNSGlobals] Demo.emptyHost)
  /\ hnswrapper.CheckHNSVersion (hcsshim.HNSVersion.mk 6 0) Demo.emptyHost
     = (Ok tt, with_trace [Call.GetHNSGlobals] Demo.emptyHost).
Proof.
  edestruct (CheckHNSVersion_order hnswrapper.HnsDefaultMinVersion (hcsshim.HNSVersion.mk 6 0)
               Demo.emptyHost) as (Hiff & _ & Hold); [reflexivity|].
  assert (Hpass : hnswrapper.CheckHNSVersion hnswrapper.HnsDefaultMinVersion Demo.emptyHost
                  = (Ok tt, with_trace [Call.GetHNSGlobals] Demo.emptyHost)).
  { apply Hiff. left. reflexivity. }
  split; [exact Hpass|]. apply Hold; [exact Hpass|]. left. reflexivity.
Defined.

(** The name of the demo network, whatever the descriptor is called. *)
Lemma generateHNSNetworkName_stable_witness :
  NetBuilder.generateHNSNetworkName (NetBuilder.Network.with_Name "vpc-eni" Demo.network)
  = Some "task-br-020000000001"
  /\ NetBuilder.generateHNSNetworkName
       (NetBuilder.Network.with_Name "task-br-020000000001" Demo.network)
     = Some "task-br-020000000001".
Proof.
  edestruct (generateHNSNetworkName_stable Demo.network) as (Hfix & _ & Hnew); [reflexivity|].
  split; [|exact Hfix]. apply Hnew. reflexivity.
Defined.

(** The container [c2], which shares the netns of [c1], looks for the endpoint of [c1]. *)
Lemma shared_container_endpoint_name_witness :
  hnswrapper.HNSEndpoint.Name (netBuilder.endpointConfigOf Demo.namedNetwork Demo.sharedEndpoint)
  = "task-br-020000000001-ep-c1".
Proof.
  edestruct (shared_container_endpoint_name Demo.namedNetwork Demo.infraEndpoint
               Demo.sharedEndpoint) as (Eshared & Einfra & _);
    [right; reflexivity | reflexivity |].
  rewrite Eshared, Einfra. reflexivity.
Defined.

(** The DEL of the infra container [c1] after it has stopped: the detach fails, the endpoint is deleted all the same. *)
Lemma deleteHNSEndpointV1_detach_failed_witness :
  let ep := netBuilder.deleteConfigOf Demo.namedNetwork Demo.infraEndpoint in
  issued (hnswrapper.deleteHNSEndpointV1 ep) Demo.hostAfterStop
  = [Call.GetHNSEndpointByName "task-br-020000000001-ep-c1";
     Call.HotDetachEndpoint "c1" "id-1";
     Call.HNSEndpointRequest_DELETE "id-1"]
  /\ hnsEndpoints (snd (hnswrapper.deleteHNSEndpointV1 ep Demo.hostAfterStop)) = [].
Proof.
  intros ep.
  edestruct (deleteHNSEndpointV1_detach_failed ep Demo.hostAfterStop) as [_ Hgone];
    [vm_compute; reflexivity | vm_compute; reflexivity |].
  destruct (Hgone eq_refl) as [E Hissued].
  split; [exact Hissued|]. rewrite E. vm_compute. reflexivity.
Defined.

(** A second network step on the demo host. *)
Lemma FindOrCreateNetwork_idempotent_witness :
  issued (NetBuilder.FindOrCreateNetwork Demo.network)
         (snd (NetBuilder.FindOrCreateNetwork Demo.network Demo.emptyHost))
  = [Call.GetHNSGlobals; Call.GetHNSNetworkByName "task-br-020000000001"].
Proof.
  destruct (@FindOrCreateNetwork_idempotent _ _ Demo.network
              (snd (fst (NetBuilder.FindOrCreateNetwork Demo.network Demo.emptyHost)))
              Demo.emptyHost
              (snd (NetBuilder.FindOrCreateNetwork Demo.network Demo.emptyHost)))
    as (w2 & _ & Hissued & _);
    [intros tr c; reflexivity | vm_compute; reflexivity |].
  etransitivity; [exact Hissued | vm_compute; reflexivity].
Defined.

(** A second endpoint step for the infra container [c1]. *)
Lemma FindOrCreateEndpoint_idempotent_witness :
  issued (netBuilder.FindOrCreateEndpoint Demo.namedNetwork Demo.infraEndpoint)
         (snd (netBuilder.FindOrCreateEndpoint Demo.namedNetwork Demo.infraEndpoint
                 Demo.hostWithContainer))
  = [Call.GetHNSEndpointByName "task-br-020000000001-ep-c1"].
Proof.
  destruct (@FindOrCreateEndpoint_idempotent _ _ Demo.namedNetwork
              (snd (fst (fst (netBuilder.FindOrCreateEndpoint Demo.namedNetwork
                                Demo.infraEndpoint Demo.hostWithContainer))))
              Demo.infraEndpoint
              (snd (fst (netBuilder.FindOrCreateEndpoint Demo.namedNetwork
                           Demo.infraEndpoint Demo.hostWithContainer)))
              Demo.hostWithContainer
              (snd (netBuilder.FindOrCreateEndpoint Demo.namedNetwork
                      Demo.infraEndpoint Demo.hostWithContainer)))
    as (w2 & _ & Hissued & _);
    [intros tr c; reflexivity | discriminate | vm_compute; reflexivity |].
  etransitivity; [exact Hissued | vm_compute; reflexivity].
Defined.

(** An ADD on a host whose HNS is too old. *)
Lemma Add_stops_at_network_failure_witness :
  Plugin.Add Plugin.windowsBuilder Demo.infraArgs Demo.oldHost
  = (Err (ErrorfV "failed to create/find network: %v" []
            (Errorf "HNS is older than the minimum supported version %v" ["{7 2}"])),
     None, with_trace [Call.GetHNSGlobals] Demo.oldHost).
Proof.
  edestruct (Add_stops_at_network_failure Demo.infraArgs Demo.oldHost) as (E & _ & _);
    [vm_compute; reflexivity | vm_compute; reflexivity |].
  exact E.
Defined.

(** An ADD for the container [c1] when it does not run: the attach fails, the endpoint is rolled back, the network stays. *)
Lemma Add_keeps_network_on_endpoint_failure_witness :
  fst (fst (Plugin.Add Plugin.windowsBuilder Demo.infraArgs Demo.emptyHost))
  = Err (ErrorfV "failed to create/find endpoint: %v" [] ErrComputeSystemDoesNotExist)
  /\ find_network "task-br-020000000001"
       (hnsNetworks (snd (Plugin.Add Plugin.windowsBuilder Demo.infraArgs Demo.emptyHost)))
     <> None.
Proof.
  edestruct (Add_keeps_network_on_endpoint_failure Demo.infraArgs Demo.emptyHost)
    as (E & Hnets & _);
    [vm_compute; reflexivity | vm_compute; reflexivity | vm_compute; reflexivity |].
  rewrite E. split; [reflexivity | vm_compute; discriminate].
Defined.

(** An ADD for the running container [c1], and what it prints. *)
Lemma Add_reports_HNS_addresses_witness :
  fst (Plugin.Add Plugin.windowsBuilder Demo.infraArgs Demo.hostWithContainer)
  = (Ok tt,
     Some {| cniTypesCurrent.Result.Interfaces :=
               [ {| cniTypesCurrent.Interface.Name := "eth0";
                    cniTypesCurrent.Interface.Mac := "02:00:00:00:00:01";
                    cniTypesCurrent.Interface.Sandbox := "none" |} ];
             cniTypesCurrent.Result.IPs :=
               [ {| cniTypesCurrent.IPConfig.Version := "4";
                    cniTypesCurrent.IPConfig.Interface := Some 0%Z;
                    cniTypesCurrent.IPConfig.Address :=
                      {| IPNet_IP := Some "10.0.0.5"; IPNet_Mask := 24%Z |};
                    cniTypesCurrent.IPConfig.Gateway := None |} ] |}).
Proof.
  edestruct (Add_reports_HNS_addresses Demo.infraArgs Demo.hostWithContainer)
    as (e & Hin & E);
    [vm_compute; reflexivity | vm_compute; reflexivity | vm_compute; reflexivity |].
  vm_compute in Hin. destruct Hin as [<- | []].
  rewrite E. vm_compute. reflexivity.
Defined.

(** ADD and DEL of the container [c1] begin with the same lookup. *)
Lemma Del_addresses_what_Add_created_witness :
  hd_error (issued (NetBuilder.FindOrCreateEndpoint Demo.namedNetworkV1 Demo.infraEndpointV1)
                   Demo.hostWithContainer)
  = Some (Call.GetHNSEndpointByName "task-br-020000000001-ep-c1")
  /\ hd_error (issued (NetBuilder.DeleteEndpoint Demo.network Demo.infraEndpointV1)
                      Demo.emptyHost)
     = Some (Call.GetHNSEndpointByName "task-br-020000000001-ep-c1").
Proof.
  edestruct (@Del_addresses_what_Add_created _ _ _ Demo.network Demo.infraEndpointV1
               "task-br-020000000001" "c1" Demo.hostWithContainer Demo.emptyHost)
    as (Eadd & Edel & _);
    [reflexivity | exists true; reflexivity |].
  split; [exact Eadd | exact Edel].
Defined.

(** A DEL with the netns [ns-42] and an infra container expected: the network goes, no endpoint is addressed. *)
Lemma Del_unclassified_netns_witness :
  fst (Plugin.Del Plugin.windowsBuilder Demo.namespaceArgs Demo.hostWithNetwork) = Ok tt
  /\ hnsNetworks (snd (Plugin.Del Plugin.windowsBuilder Demo.namespaceArgs Demo.hostWithNetwork))
     = []
  /\ forallb (fun c => negb (is_endpoint_call c))
             (issued (Plugin.Del Plugin.windowsBuilder Demo.namespaceArgs) Demo.hostWithNetwork)
     = true.
Proof.
  edestruct (Del_unclassified_netns Demo.namespaceArgs Demo.hostWithNetwork) as [_ Hdel];
    [vm_compute; reflexivity | reflexivity | reflexivity | reflexivity | reflexivity |].
  destruct (Hdel eq_refl) as (Hsnd & Hfst & Hcalls & _).
  split; [rewrite Hfst; vm_compute; reflexivity|].
  split; [rewrite Hsnd; vm_compute; reflexivity | exact Hcalls].
Defined.

(** The Linux builder on the demo task, and on the configuration without IP address. *)
Lemma linuxBuilder_handlers_witness :
  Plugin.Del Plugin.linuxBuilder Demo.infraArgs Demo.emptyHost = (Ok tt, Demo.emptyHost)
  /\ snd (Plugin.Add Plugin.linuxBuilder Demo.infraArgs Demo.emptyHost) = Demo.emptyHost
  /\ @Plugin.Add _ _ Demo.reusePluginLib _ Plugin.linuxBuilder Demo.reuseArgs Demo.emptyHost
     = (Panic, None, Demo.emptyHost).
Proof.
  edestruct (linuxBuilder_handlers Demo.infraArgs Demo.emptyHost) as [Edel Eadd];
    [vm_compute; reflexivity|].
  split; [exact Edel|]. split; [simpl in Eadd; now rewrite Eadd|].
  edestruct (@linuxBuilder_handlers _ _ Demo.reusePluginLib _ Demo.reuseArgs Demo.emptyHost)
    as [_ Epanic]; [vm_compute; reflexivity|].
  exact Epanic.
Defined.

(** The endpoint step of the two builders for the infra container [c1]. *)
Lemma builders_agree_witness :
  netBuilder.FindOrCreateEndpoint (Network_v2 Demo.namedNetworkV1) (Endpoint_v2 Demo.infraEndpointV1)
    Demo.hostWithContainer
  = (Ok tt,
     Network_v2 (snd (fst (fst (NetBuilder.FindOrCreateEndpoint Demo.namedNetworkV1
                                  Demo.infraEndpointV1 Demo.hostWithContainer)))),
     Endpoint_v2 (snd (fst (NetBuilder.FindOrCreateEndpoint Demo.namedNetworkV1
                              Demo.infraEndpointV1 Demo.hostWithContainer))),
     snd (NetBuilder.FindOrCreateEndpoint Demo.namedNetworkV1 Demo.infraEndpointV1
            Demo.hostWithContainer)).
Proof.
  edestruct (builders_agree Demo.namedNetworkV1 Demo.infraEndpointV1 Demo.hostWithContainer)
    as (Hep & _); [reflexivity|].
  apply Hep. vm_compute. reflexivity.
Defined.

(** The DEL of the infra container [c1] after its ADD. *)
Lemma Del_after_Add_cleans_up_witness :
  find_network "task-br-020000000001" (hnsNetworks Demo.hostAfterAdd) <> None
  /\ find_endpoint "task-br-020000000001-ep-c1" (hnsEndpoints Demo.hostAfterAdd) <> None
  /\ exists w3,
       Plugin.Del Plugin.windowsBuilder Demo.infraArgs Demo.hostAfterAdd = (Ok tt, w3)
       /\ find_network "task-br-020000000001" (hnsNetworks w3) = None
       /\ find_endpoint "task-br-020000000001-ep-c1" (hnsEndpoints w3) = None.
Proof.
  eapply (@Del_after_Add_cleans_up Demo.types Demo.lib Demo.pluginLib Demo.infraArgs _
            Demo.hostWithContainer _ Demo.hostAfterAdd _ _ _ "task-br-020000000001");
    [vm_compute; reflexivity | reflexivity | reflexivity | right; reflexivity
    | intros tr c; reflexivity | vm_compute; reflexivity | vm_compute; reflexivity
    | vm_compute; reflexivity | vm_compute; reflexivity | vm_compute; reflexivity].
Defined.

(** A route by interface 12: the program is [add], the first argument is
    [delete], and the interface number arrives as a form feed. *)
Example demo_AddRoute :
  issued (netutils.AddRoute (Some "10.1.0.0") (Some "255.255.0.0") (Some "10.0.0.1") (Some 12%Z))
         Demo.emptyHost
  = [Call.Command_Run "add"
       ["delete"; "10.1.0.0"; "mask"; "255.255.0.0"; "10.0.0.1"; "if";
        String (ascii_of_nat 12) ""]].
Proof. vm_compute. reflexivity. Qed.

(** A route policy without a type stays without a type in what the endpoint
    gets, and a value of another type stops the sequence. *)
Example demo_CreatePolicy :
  hnswrapper.HNSEndpoint.Policies
    (snd (createPolicies NetBuilder.emptyEndpointConfig
            [Demo.routePolicy; Demo.natPolicy; hnswrapper.other_value; Demo.routePolicy]))
  = ["route::10.0.0.0/8"; "nat::10.0.0.0/16,169.254.0.0/16"]
  /\ fst (createPolicies NetBuilder.emptyEndpointConfig
            [Demo.routePolicy; Demo.natPolicy; hnswrapper.other_value; Demo.routePolicy])
     = Err (Errorf "failed to create unsupported policy type" []).
Proof. split; vm_compute; reflexivity. Qed.
